(** * examples/15_simple_lstm.py: hardware-aware training of an analog RNN

    A shallow embedding of the example script.  The script is glue code
    around three external libraries (torch, aihwkit's analog layers,
    matplotlib).  What the script itself computes is embedded as
    executable definitions: the synthetic dataset (slicing, cyclic roll,
    stacking, transposition), the four [forward] methods, the training
    loop, the evaluation and the drift sweep.  What the libraries compute
    (floating-point arithmetic, the analog layers, the optimizer, the
    drift model) is taken through two interfaces, [Float] and [Library],
    so that every theorem holds for each implementation of them.

    Python effects are modelled by a state-and-exception monad over a
    [world]: the state of the external libraries, the working directory
    and the log of the calls with an effect, in program order.  A library
    call that fails raises an exception the script does not catch; the
    embedding covers the runs in which the calls of the analog layers, of
    the optimizer and of the plotting library return. *)

From Stdlib Require Import String Ascii DecimalString.
From Stdlib Require Import List ZArith QArith Lia Bool Arith Permutation.
Import ListNotations.

Set Implicit Arguments.
Local Open Scope string_scope.
Local Open Scope list_scope.
Local Open Scope nat_scope.

(** ** Python exceptions and results *)

(** An exception is identified by the name of its class and carries a
    message. *)
Inductive exn : Type :=
| Exn (cls : string) (msg : string).

Definition exn_class (e : exn) : string :=
  match e with Exn c _ => c end.

Inductive result (A : Type) : Type :=
| Ok (a : A)
| Raise (e : exn).

Arguments Ok {A} a.
Arguments Raise {A} e.

(** ** Python integers and sequences *)

(** [range(n)]: empty when [n <= 0]. *)
Definition py_range (n : Z) : list Z :=
  map Z.of_nat (seq 0 (Z.to_nat n)).

(** Normalisation of one bound of a slice [l[start:stop]] against the
    length: a negative bound counts from the end, and both are clamped. *)
Definition slice_index (i len : Z) : Z :=
  if (i <? 0)%Z then Z.max (i + len) 0 else Z.min i len.

(** [l[start:stop]] (step 1), for Python lists and 1-D torch tensors. *)
Definition py_slice {A} (l : list A) (start stop : Z) : list A :=
  let len := Z.of_nat (length l) in
  let a := slice_index start len in
  let b := slice_index stop len in
  firstn (Z.to_nat (b - a)) (skipn (Z.to_nat a) l).

(** ** Floating-point numbers

    The script computes in torch's floating-point arithmetic.  The
    embedding is parametric in the number type: the primitives the script
    uses are the operations of the class. *)
Class Float (T : Type) : Type := {
  f_zero : T;                      (* the literals 0 and 0.0 *)
  f_half : T;                      (* the literal 0.5 *)
  f_8pi : T;                       (* 8*np.pi *)
  f_of_nat : nat -> T;             (* conversion of an index or a count *)
  f_add : T -> T -> T;
  f_sub : T -> T -> T;
  f_mul : T -> T -> T;
  f_div : T -> T -> T;
  f_sin : T -> T;                  (* torch.sin, per element *)
  f_cos : T -> T;                  (* torch.cos, per element *)
  f_exp : T -> T                   (* np.exp *)
}.

(** The two facts of the arithmetic that make [NOISE = 0] the noise-free
    case: zero times a number is zero, and adding zero leaves a number as
    it is. *)
Definition zero_laws (T : Type) {F : Float T} : Prop :=
  (forall r : T, f_mul f_zero r = f_zero) /\
  (forall v : T, f_add v f_zero = v).

Arguments zero_laws T {F}.

(** ** Tensors

    A 1-D tensor is the list of its elements.  2-D and 3-D tensors carry
    their shape explicitly next to the nested list of their elements, so
    that a tensor of shape (0, B, 1) is told apart from one of shape
    (0, 0, 1). *)
Section Tensors.

Variable T : Type.

Record tensor2 : Type := {
  nrows : nat;
  ncols : nat;
  rows2 : list (list T)
}.

Record tensor3 : Type := {
  dim0 : nat;
  dim1 : nat;
  dim2 : nat;
  cells3 : list (list (list T))
}.

Definition shape3 (t : tensor3) : nat * nat * nat := (dim0 t, dim1 t, dim2 t).

(** The nested lists agree with the declared shape. *)
Definition wf2 (m : tensor2) : Prop :=
  length (rows2 m) = nrows m /\
  Forall (fun r => length r = ncols m) (rows2 m).

Definition wf3 (t : tensor3) : Prop :=
  length (cells3 t) = dim0 t /\
  Forall (fun p => length p = dim1 t /\
                   Forall (fun r => length r = dim2 t) p) (cells3 t).

(** [t[i, j, k]], [None] outside the tensor. *)
Definition get3 (t : tensor3) (i j k : nat) : option T :=
  match nth_error (cells3 t) i with
  | Some plane =>
      match nth_error plane j with
      | Some row => nth_error row k
      | None => None
      end
  | None => None
  end.

Definition get2 (m : tensor2) (i j : nat) : option T :=
  match nth_error (rows2 m) i with
  | Some row => nth_error row j
  | None => None
  end.

Definition opt_to_list {A} (o : option A) : list A :=
  match o with Some a => [a] | None => [] end.

(** [torch.roll(l, shifts, dims=0)] on a 1-D tensor: the element at
    position [i] moves to position [(i + shifts) mod n]; an empty tensor
    is returned as it is. *)
Definition torch_roll (l : list T) (shifts : Z) : list T :=
  match length l with
  | O => l
  | S _ as n =>
      let k := Z.to_nat (shifts mod Z.of_nat n) in
      skipn (n - k) l ++ firstn (n - k) l
  end.

(** [torch.stack(ts, dim=0)] of 1-D tensors. *)
Definition torch_stack (ts : list (list T)) : result tensor2 :=
  match ts with
  | [] => Raise (Exn "RuntimeError" "stack expects a non-empty TensorList")
  | t :: rest =>
      if forallb (fun u => length u =? length t) rest
      then Ok {| nrows := length ts; ncols := length t; rows2 := ts |}
      else Raise (Exn "RuntimeError"
                      "stack expects each tensor to be equal size")
  end.

(** [m.transpose(0, 1)] *)
Definition transpose01 (m : tensor2) : tensor2 :=
  {| nrows := ncols m;
     ncols := nrows m;
     rows2 := map (fun j =>
                     flat_map (fun r => opt_to_list (nth_error r j)) (rows2 m))
                  (seq 0 (ncols m)) |}.

(** [m.unsqueeze(2)] *)
Definition unsqueeze2 (m : tensor2) : tensor3 :=
  {| dim0 := nrows m;
     dim1 := ncols m;
     dim2 := 1;
     cells3 := map (map (fun v => [v])) (rows2 m) |}.

(** The elements [t[i, j, k]] for all [i]. *)
Definition column (t : tensor3) (j k : nat) : list T :=
  flat_map
    (fun plane =>
       match nth_error plane j with
       | Some row => opt_to_list (nth_error row k)
       | None => []
       end)
    (cells3 t).

(** [t[:, j, k]] with non-negative [j] and [k]. *)
Definition select_col (t : tensor3) (j k : nat) : result (list T) :=
  if (j <? dim1 t) && (k <? dim2 t)
  then Ok (column t j k)
  else Raise (Exn "IndexError" "index is out of bounds").

Definition cells_of (t : tensor3) : list T :=
  concat (concat (cells3 t)).

Definition numel3 (t : tensor3) : nat := dim0 t * dim1 t * dim2 t.

Context {F : Float T}.

(** [torch.linspace(start, stop, steps)]: [steps] points from [start] to
    [stop], both included; the first half is counted up from [start],
    the second half down from [stop]. *)
Definition torch_linspace (start stop : T) (steps : Z) : result (list T) :=
  if (steps <? 0)%Z
  then Raise (Exn "RuntimeError" "number of steps must be non-negative")
  else
    let n := Z.to_nat steps in
    if n =? 1 then Ok [start]
    else
      let step := f_div (f_sub stop start) (f_of_nat (n - 1)) in
      Ok (map (fun p =>
                 if p <? n / 2
                 then f_add start (f_mul step (f_of_nat p))
                 else f_sub stop (f_mul step (f_of_nat (n - p - 1))))
              (seq 0 n)).

(** [c * t] for a scalar [c]. *)
Definition tensor_scale (c : T) (t : list T) : list T :=
  map (f_mul c) t.

Fixpoint zip_add (a b : list T) : list T :=
  match a, b with
  | x :: a', y :: b' => f_add x y :: zip_add a' b'
  | _, _ => []
  end.

(** [a + b] on 1-D tensors, with torch's broadcasting of a size-1
    operand. *)
Definition tensor_add (a b : list T) : result (list T) :=
  if length a =? length b then Ok (zip_add a b)
  else
    match a, b with
    | _, [y] => Ok (map (fun x => f_add x y) a)
    | [x], _ => Ok (map (fun y => f_add x y) b)
    | _, _ => Raise (Exn "RuntimeError"
                         "The size of tensor a must match the size of tensor b")
    end.

End Tensors.

Arguments get3 {T} t i j k.
Arguments get2 {T} m i j.
Arguments shape3 {T} t.
Arguments wf2 {T} m.
Arguments wf3 {T} t.
Arguments torch_roll {T} l shifts.
Arguments torch_stack {T} ts.
Arguments transpose01 {T} m.
Arguments unsqueeze2 {T} m.
Arguments column {T} t j k.
Arguments select_col {T} t j k.
Arguments cells_of {T} t.
Arguments numel3 {T} t.
Arguments torch_linspace {T F} start stop steps.
Arguments tensor_scale {T F} c t.
Arguments tensor_add {T F} a b.
Arguments zip_add {T F} a b.

(** ** The script's constants (lines 43-58) *)

Definition LEARNING_RATE : Q := 5 # 100.
Definition NUM_LAYERS : nat := 1.
Definition INPUT_SIZE : nat := 1.
Definition EMBED_SIZE : nat := 20.
Definition HIDDEN_SIZE : nat := 50.
Definition OUTPUT_SIZE : nat := 1.
Definition DROPOUT_RATIO : Q := 0.

Inductive rnn_cell : Type :=
| AnalogLSTMCell
| AnalogGRUCell
| AnalogVanillaRNNCell.

Definition RNN_CELL : rnn_cell := AnalogVanillaRNNCell.

(** The constants the properties range over are gathered in a record;
    [script_config] holds the values written in the script. *)
Record config (T : Type) : Type := {
  NOISE : T;
  EPOCHS : Z;
  BATCH_SIZE : Z;
  SEQ_LEN : Z;
  WITH_EMBEDDING : bool;
  WITH_BIDIR : bool;
  USE_ANALOG_TRAINING : bool
}.

Definition script_config {T} {F : Float T} : config T :=
  {| NOISE := f_zero;
     EPOCHS := 100;
     BATCH_SIZE := 5;
     SEQ_LEN := 501;
     WITH_EMBEDDING := true;
     WITH_BIDIR := true;
     USE_ANALOG_TRAINING := false |}.

(** ** The RPU configuration (lines 60-82) *)

Record inference_settings : Type := {
  forward_out_res : Q;
  forward_w_noise_type : string;
  forward_w_noise : Q;
  clip_type : string;
  clip_fixed_value : Q;
  modifier_pdrop : Q;
  modifier_type : string;
  modifier_std_dev : Q;
  modifier_rel_to_actual_wmax : bool;
  noise_model_g_max : Q;              (* PCMLikeNoiseModel(g_max=25.0) *)
  drift_compensation : string
}.

Inductive rpu_config_t : Type :=
| SingleRPUConfig_GokmenVlasov
| InferenceRPUConfig (s : inference_settings).

Definition make_rpu_config (analog_training : bool) : rpu_config_t :=
  if analog_training then SingleRPUConfig_GokmenVlasov
  else InferenceRPUConfig
         {| forward_out_res := -1;
            forward_w_noise_type := "ADDITIVE_CONSTANT";
            forward_w_noise := 2 # 100;
            clip_type := "FIXED_VALUE";
            clip_fixed_value := 1;
            modifier_pdrop := 3 # 100;
            modifier_type := "ADD_NORMAL";
            modifier_std_dev := 1 # 10;
            modifier_rel_to_actual_wmax := true;
            noise_model_g_max := 25;
            drift_compensation := "GlobalDriftCompensation" |}.

(** ** The four network classes: what [__init__] builds *)

Inductive model_class : Type :=
| AnalogBidirRNNNetwork
| AnalogBidirRNNNetwork_noEmbedding
| AnalogRNNNetwork
| AnalogRNNNetwork_noEmbedding.

(** The attributes a network holds its layers in. *)
Inductive attr : Type :=
| self_dropout
| self_embedding
| self_rnn
| self_decoder.

(** [AnalogLinear(in_features, out_features, bias, rpu_config)];
    [None] is the library's default RPU configuration. *)
Record linear_cfg : Type := {
  in_features : nat;
  out_features : nat;
  linear_bias : bool;
  linear_rpu : option rpu_config_t
}.

(** [AnalogRNN(cell, input_size, hidden_size, bidir, num_layers, dropout,
    bias, rpu_config)] *)
Record rnn_cfg : Type := {
  cell : rnn_cell;
  input_size : nat;
  hidden_size : nat;
  bidir : bool;
  num_layers : nat;
  rnn_dropout : Q;
  rnn_bias : bool;
  rnn_rpu : rpu_config_t
}.

Record network : Type := {
  class_of : model_class;
  dropout : Q;                         (* nn.Dropout(DROPOUT_RATIO) *)
  embedding : option linear_cfg;       (* absent in the noEmbedding classes *)
  rnn : rnn_cfg;
  decoder : linear_cfg
}.

Definition make_rnn (rpu : rpu_config_t) (input : nat) (bi : bool) : rnn_cfg :=
  {| cell := RNN_CELL; input_size := input; hidden_size := HIDDEN_SIZE;
     bidir := bi; num_layers := 1; rnn_dropout := DROPOUT_RATIO;
     rnn_bias := true; rnn_rpu := rpu |}.

Definition init (rpu : rpu_config_t) (c : model_class) : network :=
  match c with
  | AnalogBidirRNNNetwork =>
      {| class_of := c;
         dropout := DROPOUT_RATIO;
         embedding := Some {| in_features := INPUT_SIZE; out_features := EMBED_SIZE;
                              linear_bias := true; linear_rpu := Some rpu |};
         rnn := make_rnn rpu EMBED_SIZE true;
         decoder := {| in_features := 2 * HIDDEN_SIZE; out_features := OUTPUT_SIZE;
                       linear_bias := true; linear_rpu := None |} |}
  | AnalogBidirRNNNetwork_noEmbedding =>
      {| class_of := c;
         dropout := DROPOUT_RATIO;
         embedding := None;
         rnn := make_rnn rpu INPUT_SIZE true;
         decoder := {| in_features := 2 * HIDDEN_SIZE; out_features := OUTPUT_SIZE;
                       linear_bias := true; linear_rpu := Some rpu |} |}
  | AnalogRNNNetwork =>
      {| class_of := c;
         dropout := DROPOUT_RATIO;
         embedding := Some {| in_features := INPUT_SIZE; out_features := EMBED_SIZE;
                              linear_bias := true; linear_rpu := Some rpu |};
         rnn := make_rnn rpu EMBED_SIZE false;
         decoder := {| in_features := HIDDEN_SIZE; out_features := OUTPUT_SIZE;
                       linear_bias := true; linear_rpu := None |} |}
  | AnalogRNNNetwork_noEmbedding =>
      {| class_of := c;
         dropout := DROPOUT_RATIO;
         embedding := None;
         rnn := make_rnn rpu INPUT_SIZE false;
         decoder := {| in_features := HIDDEN_SIZE; out_features := OUTPUT_SIZE;
                       linear_bias := true; linear_rpu := Some rpu |} |}
  end.

(** The selection of lines 178-187. *)
Definition select_class (with_embedding with_bidir : bool) : model_class :=
  if with_embedding then
    if with_bidir then AnalogBidirRNNNetwork else AnalogRNNNetwork
  else
    if with_bidir then AnalogBidirRNNNetwork_noEmbedding
    else AnalogRNNNetwork_noEmbedding.

(** ** The external libraries

    [Lib] is the mutable state the libraries keep: the parameters and
    gradients of the model, the analog tiles, the optimizer, the autograd
    graph and torch's random generator.  [St] is the type of the recurrent
    states.  A library call takes the state and returns the new one; it
    does not write to the tensors it is given. *)
Class Library (T Lib St : Type) : Type := {
  rand1 : Lib -> T * Lib;                          (* one draw of torch.rand *)
  construct : network -> Lib -> Lib;               (* the class's constructor *)
  AnalogSGD : Q -> Lib -> Lib;                     (* AnalogSGD(model.parameters(), lr) *)
  regroup_param_groups : Lib -> Lib;
  linear_forward : attr -> linear_cfg -> tensor3 T -> Lib -> tensor3 T * Lib;
  rnn_forward : rnn_cfg -> tensor3 T -> option St -> Lib -> (tensor3 T * St) * Lib;
  dropout_forward : Q -> tensor3 T -> Lib -> tensor3 T * Lib;
  mse_loss : tensor3 T -> tensor3 T -> T;          (* nn.MSELoss() *)
  zero_grad : Lib -> Lib;                          (* optimizer.zero_grad() *)
  backward : T -> Lib -> Lib;                      (* loss.backward() *)
  step : Lib -> Lib;                               (* optimizer.step() *)
  eval_mode : Lib -> Lib;                          (* model.eval() *)
  drift_analog_weights : Z -> Lib -> Lib           (* model.drift_analog_weights(t) *)
}.

(** ** Effects: the log of calls and the world *)

(** A line printed on the standard output, before [%d] and [%f] format
    it. *)
Inductive line (T : Type) : Type :=
| epoch_line (i : Z) (perplexity : T)    (* 'Epoch = %d: Train Perplexity = %f' *)
| test_line (perplexity : T).            (* 'Test Perplexity = %f' *)

Arguments epoch_line {T} i perplexity.
Arguments test_line {T} perplexity.

Inductive event (T : Type) : Type :=
| ev_makedirs (name : string) (exist_ok : bool)
| ev_rand (n : nat)
| ev_construct (c : model_class)
| ev_optimizer (lr : Q)
| ev_regroup
| ev_zero_grad
| ev_model (x : tensor3 T)                       (* model(x) *)
| ev_layer (a : attr)                            (* a layer of the model is applied *)
| ev_criterion (pred target : tensor3 T)
| ev_print (l : line T)
| ev_backward (loss : T)
| ev_step
| ev_append (loss : T)                           (* losses.append(loss) *)
| ev_eval
| ev_drift (t : Z)
| ev_figure
| ev_plot (data : list T) (fmt : option string) (label : option string)
| ev_xlabel (s : string)
| ev_ylabel (s : string)
| ev_ylim (lo hi : Q)
| ev_legend (labels : option (list string))
| ev_savefig (fname : string)
| ev_close.

Arguments ev_makedirs {T} name exist_ok.
Arguments ev_rand {T} n.
Arguments ev_construct {T} c.
Arguments ev_optimizer {T} lr.
Arguments ev_regroup {T}.
Arguments ev_zero_grad {T}.
Arguments ev_model {T} x.
Arguments ev_layer {T} a.
Arguments ev_criterion {T} pred target.
Arguments ev_print {T} l.
Arguments ev_backward {T} loss.
Arguments ev_step {T}.
Arguments ev_append {T} loss.
Arguments ev_eval {T}.
Arguments ev_drift {T} t.
Arguments ev_figure {T}.
Arguments ev_plot {T} data fmt label.
Arguments ev_xlabel {T} s.
Arguments ev_ylabel {T} s.
Arguments ev_ylim {T} lo hi.
Arguments ev_legend {T} labels.
Arguments ev_savefig {T} fname.
Arguments ev_close {T}.

Record world (T Lib : Type) : Type := {
  lib : Lib;                 (* state of the external libraries *)
  cwd : string;              (* os.getcwd() *)
  trace : list (event T)     (* the calls made so far, oldest first *)
}.

(** ** The monad of the script: state and exceptions

    A computation takes the world and returns a value or a raised
    exception, together with the world it leaves: what was done before an
    exception stays done. *)
Section Monad.

Variables T Lib : Type.

Definition Run (A : Type) : Type :=
  world T Lib -> result A * world T Lib.

Definition ret {A} (a : A) : Run A :=
  fun w => (Ok a, w).

Definition bind {A B} (m : Run A) (f : A -> Run B) : Run B :=
  fun w =>
    match m w with
    | (Ok a, w') => f a w'
    | (Raise e, w') => (Raise e, w')
    end.

Definition of_result {A} (r : result A) : Run A :=
  fun w => (r, w).

(** Append a call to the log. *)
Definition emit (e : event T) : Run unit :=
  fun w => (Ok tt, {| lib := lib w; cwd := cwd w; trace := trace w ++ [e] |}).

(** A library call with a result. *)
Definition call {A} (f : Lib -> A * Lib) : Run A :=
  fun w =>
    (Ok (fst (f (lib w))),
     {| lib := snd (f (lib w)); cwd := cwd w; trace := trace w |}).

(** A library call for its effect only. *)
Definition update (f : Lib -> Lib) : Run unit :=
  fun w => (Ok tt, {| lib := f (lib w); cwd := cwd w; trace := trace w |}).

Definition getcwd : Run string :=
  fun w => (Ok (cwd w), w).

End Monad.

Arguments ret {T Lib A} a.
Arguments bind {T Lib A B} m f.
Arguments of_result {T Lib A} r.
Arguments emit {T Lib} e.
Arguments call {T Lib A} f.
Arguments update {T Lib} f.
Arguments getcwd {T Lib}.

Declare Scope run_scope.
Delimit Scope run_scope with run.
Notation "x <- m ;; k" := (bind m (fun x => k))
  (at level 61, m at next level, right associativity) : run_scope.
Notation "' p <- m ;; k" := (bind m (fun p => k))
  (at level 61, p pattern, m at next level, right associativity) : run_scope.
Notation "m ;; k" := (bind m (fun _ => k))
  (at level 61, right associativity) : run_scope.

(** ** Paths *)

Definition starts_with_slash (s : string) : bool :=
  match s with
  | String c _ => Ascii.eqb c "/"%char
  | EmptyString => false
  end.

Fixpoint ends_with_slash (s : string) : bool :=
  match s with
  | EmptyString => false
  | String c EmptyString => Ascii.eqb c "/"%char
  | String _ rest => ends_with_slash rest
  end.

(** [posixpath.join(a, b)] for two components. *)
Definition join2 (a b : string) : string :=
  if starts_with_slash b then b
  else if (String.eqb a EmptyString || ends_with_slash a)%bool then (a ++ b)%string
  else (a ++ "/" ++ b)%string.

(** [os.path.join(a, *p)] *)
Definition os_path_join (a : string) (p : list string) : string :=
  fold_left join2 p a.

(** ** The script *)
Section Script.

Context {T Lib St : Type} {F : Float T} {L : Library T Lib St}.

Local Open Scope run_scope.

Local Abbreviation Run := (Run T Lib).

(** *** Dataset (lines 89-100) *)

Fixpoint draw (n : nat) (l : Lib) : list T * Lib :=
  match n with
  | O => ([], l)
  | S n' =>
      let (v, l1) := rand1 l in
      let (vs, l2) := draw n' l1 in
      (v :: vs, l2)
  end.

(** [torch.rand(t.shape)] for a 1-D tensor of [n] elements. *)
Definition torch_rand (n : nat) : Run (list T) :=
  emit (ev_rand n) ;; call (draw n).

(** The signal of line 91, per element. *)
Definition signal (x : T) : T :=
  f_add (f_mul (f_sin x) (f_cos (f_mul f_half x))) f_half.

(** One operand of lines 97 and 98:
    [torch.roll(t, shifts=100*i, dims=0) + NOISE*torch.rand(t.shape)]. *)
Definition rolled_with_noise (noise : T) (t : list T) (i : Z) : Run (list T) :=
  let rolled := torch_roll t (100 * i) in
  r <- torch_rand (length t) ;;
  of_result (tensor_add rolled (tensor_scale noise r)).

(** The loop of lines 96-98 over the remaining indices. *)
Fixpoint batch_loop (noise : T) (y_in_1d y_out_1d : list T) (indices : list Z)
         (y_in_2d y_out_2d : list (list T))
  : Run (list (list T) * list (list T)) :=
  match indices with
  | [] => ret (y_in_2d, y_out_2d)
  | i :: rest =>
      a <- rolled_with_noise noise y_in_1d i ;;
      b <- rolled_with_noise noise y_out_1d i ;;
      batch_loop noise y_in_1d y_out_1d rest (y_in_2d ++ [a]) (y_out_2d ++ [b])
  end.

Definition make_dataset (cfg : config T) : Run (tensor3 T * tensor3 T) :=
  x <- of_result (torch_linspace f_zero f_8pi (SEQ_LEN cfg)) ;;
  let y := map signal x in
  let y_in_1d := py_slice y 0 (SEQ_LEN cfg - 1) in
  let y_out_1d := py_slice y 1 (SEQ_LEN cfg) in
  '(y_in_2d, y_out_2d) <-
    batch_loop (NOISE cfg) y_in_1d y_out_1d (py_range (BATCH_SIZE cfg)) [] [] ;;
  s_in <- of_result (torch_stack y_in_2d) ;;
  let y_in := unsqueeze2 (transpose01 s_in) in
  s_out <- of_result (torch_stack y_out_2d) ;;
  let y_out := unsqueeze2 (transpose01 s_out) in
  ret (y_in, y_out).

(** *** The forward methods (lines 117-121, 135-139, 153-157, 172-176)

    Applying a layer logs which attribute of the network is applied and
    calls the library. *)

Definition apply_linear (a : attr) (c : linear_cfg) (x : tensor3 T) : Run (tensor3 T) :=
  emit (ev_layer a) ;; call (linear_forward a c x).

Definition apply_dropout (p : Q) (x : tensor3 T) : Run (tensor3 T) :=
  emit (ev_layer self_dropout) ;; call (dropout_forward p x).

Definition apply_rnn (c : rnn_cfg) (x : tensor3 T) (in_states : option St)
  : Run (tensor3 T * St) :=
  emit (ev_layer self_rnn) ;; call (rnn_forward c x in_states).

(** [self.embedding]; the attribute exists in the classes that set it. *)
Definition get_embedding (self : network) : Run linear_cfg :=
  match embedding self with
  | Some c => ret c
  | None => of_result (Raise (Exn "AttributeError"
                                  "object has no attribute 'embedding'"))
  end.

Definition forward_AnalogBidirRNNNetwork
           (self : network) (x_in : tensor3 T) (in_states : option St)
  : Run (tensor3 T * St) :=
  c <- get_embedding self ;;
  e <- apply_linear self_embedding c x_in ;;
  embed <- apply_dropout (dropout self) e ;;
  '(out, out_states) <- apply_rnn (rnn self) embed in_states ;;
  d <- apply_linear self_decoder (decoder self) out ;;
  out <- apply_dropout (dropout self) d ;;
  ret (out, out_states).

Definition forward_AnalogBidirRNNNetwork_noEmbedding
           (self : network) (x_in : tensor3 T) (in_states : option St)
  : Run (tensor3 T * St) :=
  '(out, out_states) <- apply_rnn (rnn self) x_in in_states ;;
  d <- apply_linear self_decoder (decoder self) out ;;
  out <- apply_dropout (dropout self) d ;;
  ret (out, out_states).

Definition forward_AnalogRNNNetwork
           (self : network) (x_in : tensor3 T) (in_states : option St)
  : Run (tensor3 T * St) :=
  c <- get_embedding self ;;
  e <- apply_linear self_embedding c x_in ;;
  embed <- apply_dropout (dropout self) e ;;
  '(out, out_states) <- apply_rnn (rnn self) embed in_states ;;
  d <- apply_linear self_decoder (decoder self) out ;;
  out <- apply_dropout (dropout self) d ;;
  ret (out, out_states).

Definition forward_AnalogRNNNetwork_noEmbedding
           (self : network) (x_in : tensor3 T) (in_states : option St)
  : Run (tensor3 T * St) :=
  '(out, out_states) <- apply_rnn (rnn self) x_in in_states ;;
  d <- apply_linear self_decoder (decoder self) out ;;
  out <- apply_dropout (dropout self) d ;;
  ret (out, out_states).

(** Method dispatch on the class of the object. *)
Definition forward (self : network) (x_in : tensor3 T) (in_states : option St)
  : Run (tensor3 T * St) :=
  match class_of self with
  | AnalogBidirRNNNetwork => forward_AnalogBidirRNNNetwork self x_in in_states
  | AnalogBidirRNNNetwork_noEmbedding =>
      forward_AnalogBidirRNNNetwork_noEmbedding self x_in in_states
  | AnalogRNNNetwork => forward_AnalogRNNNetwork self x_in in_states
  | AnalogRNNNetwork_noEmbedding =>
      forward_AnalogRNNNetwork_noEmbedding self x_in in_states
  end.

(** [model(x)]: the forward method with [in_states] left at its default
    [None]. *)
Definition model_call (model : network) (x : tensor3 T) : Run (tensor3 T * St) :=
  emit (ev_model x) ;; forward model x None.

(** The pipeline in the words of the specification: optional embedding
    projection, then the recurrent layer, then dropout, then the linear
    decoder.  It is compared with [forward] below. *)
Definition pipeline_of_spec (self : network) (x_in : tensor3 T) (in_states : option St)
  : Run (tensor3 T * St) :=
  embed <- match embedding self with
           | Some c => apply_linear self_embedding c x_in
           | None => ret x_in
           end ;;
  '(out, out_states) <- apply_rnn (rnn self) embed in_states ;;
  dropped <- apply_dropout (dropout self) out ;;
  d <- apply_linear self_decoder (decoder self) dropped ;;
  ret (d, out_states).

(** *** Training (lines 189-205) *)

(** [criterion(pred, target)] with [criterion = nn.MSELoss()]. *)
Definition criterion (pred target : tensor3 T) : Run T :=
  emit (ev_criterion pred target) ;; ret (mse_loss pred target).

Definition print (l : line T) : Run unit :=
  emit (ev_print l).

(** The body of the loop, lines 196-205, for epoch [i]. *)
Definition epoch (model : network) (y_in y_out : tensor3 T) (i : Z) (losses : list T)
  : Run (list T) :=
  emit ev_zero_grad ;; update zero_grad ;;
  '(pred, states) <- model_call model y_in ;;
  loss <- criterion pred y_out ;;
  print (epoch_line i (f_exp loss)) ;;
  emit (ev_backward loss) ;; update (backward loss) ;;
  emit ev_step ;; update step ;;
  emit (ev_append loss) ;; ret (losses ++ [loss]).

Fixpoint train_loop (model : network) (y_in y_out : tensor3 T)
         (epochs : list Z) (losses : list T) : Run (list T) :=
  match epochs with
  | [] => ret losses
  | i :: rest =>
      losses' <- epoch model y_in y_out i losses ;;
      train_loop model y_in y_out rest losses'
  end.

(** [losses = []; for i in range(EPOCHS): ...] *)
Definition train (model : network) (y_in y_out : tensor3 T) (epochs : Z)
  : Run (list T) :=
  train_loop model y_in y_out (py_range epochs) [].

(** *** Plots *)

Definition plt_plot (data : list T) (fmt label : option string) : Run unit :=
  emit (ev_plot data fmt label).

Definition plt_savefig (fname : string) : Run unit :=
  emit (ev_savefig fname).

(** Lines 207-213. *)
Definition plot_perplexity (RESULTS : string) (losses : list T) : Run unit :=
  emit ev_figure ;;
  plt_plot (map f_exp losses) (Some "-b") None ;;
  emit (ev_xlabel "# Epochs") ;;
  emit (ev_ylabel "Perplexity [1]") ;;
  emit (ev_ylim 1 (14 # 10)) ;;
  plt_savefig (os_path_join RESULTS ["train_perplexity"]) ;;
  emit ev_close.

(** *** Test (lines 215-226) *)

Definition test (RESULTS : string) (model : network) (y_in y_out : tensor3 T)
  : Run (tensor3 T) :=
  emit ev_eval ;; update eval_mode ;;
  '(pred, states) <- model_call model y_in ;;
  loss <- criterion pred y_out ;;
  print (test_line (f_exp loss)) ;;
  emit ev_figure ;;
  truth <- of_result (select_col y_out 0 0) ;;
  plt_plot truth (Some "-b") None ;;
  p <- of_result (select_col pred 0 0) ;;
  plt_plot p (Some "-g") None ;;
  emit (ev_legend (Some ["truth"; "prediction"])) ;;
  plt_savefig (os_path_join RESULTS ["test"]) ;;
  emit ev_close ;;
  ret pred.

(** *** Drift test (lines 228-237) *)

(** [str(t)] for a float [t] with an integral value below 1e16. *)
Definition str_float (t : Z) : string :=
  (NilZero.string_of_int (Z.to_int t) ++ ".0")%string.

(** ['t = ' + str(t) + ' s'], the label of a sweep point in the plot. *)
Definition drift_label (t : Z) : string :=
  ("t = " ++ str_float t ++ " s")%string.

(** The elapsed times of line 231: [0., 1., 20., 1000., 1e5]. *)
Definition t_inference_values : list Z := [0; 1; 20; 1000; 100000]%Z.

(** The body of the loop, lines 232-234; the prediction is returned to
    the loop, which keeps the pairs of elapsed time and prediction. *)
Definition drift_point (model : network) (y_in : tensor3 T) (t_inference : Z)
  : Run (tensor3 T) :=
  emit (ev_drift t_inference) ;; update (drift_analog_weights t_inference) ;;
  '(pred_drift, states) <- model_call model y_in ;;
  p <- of_result (select_col pred_drift 0 0) ;;
  plt_plot p None (Some (drift_label t_inference)) ;;
  ret pred_drift.

Fixpoint drift_loop (model : network) (y_in : tensor3 T) (times : list Z)
  : Run (list (Z * tensor3 T)) :=
  match times with
  | [] => ret []
  | t :: rest =>
      pred_drift <- drift_point model y_in t ;;
      observations <- drift_loop model y_in rest ;;
      ret ((t, pred_drift) :: observations)
  end.

Definition drift_test (RESULTS : string) (model : network) (y_in y_out : tensor3 T)
  : Run (list (Z * tensor3 T)) :=
  emit ev_figure ;;
  truth <- of_result (select_col y_out 0 0) ;;
  plt_plot truth (Some "-b") (Some "truth") ;;
  observations <- drift_loop model y_in t_inference_values ;;
  emit (ev_legend None) ;;
  plt_savefig (os_path_join RESULTS ["drift"]) ;;
  emit ev_close ;;
  ret observations.

(** *** The whole script *)

Record outcome : Type := {
  out_y_in : tensor3 T;
  out_y_out : tensor3 T;
  out_model : network;
  out_losses : list T;
  out_pred : tensor3 T;
  out_drift : list (Z * tensor3 T)
}.

Definition main (cfg : config T) : Run outcome :=
  let rpu_config := make_rpu_config (USE_ANALOG_TRAINING cfg) in
  here <- getcwd ;;
  let RESULTS := os_path_join here ["results"; "RNN"] in
  emit (ev_makedirs RESULTS true) ;;
  '(y_in, y_out) <- make_dataset cfg ;;
  let model := init rpu_config (select_class (WITH_EMBEDDING cfg) (WITH_BIDIR cfg)) in
  emit (ev_construct (class_of model)) ;; update (construct model) ;;
  emit (ev_optimizer LEARNING_RATE) ;; update (AnalogSGD LEARNING_RATE) ;;
  emit ev_regroup ;; update regroup_param_groups ;;
  losses <- train model y_in y_out (EPOCHS cfg) ;;
  plot_perplexity RESULTS losses ;;
  pred <- test RESULTS model y_in y_out ;;
  observations <- drift_test RESULTS model y_in y_out ;;
  ret {| out_y_in := y_in; out_y_out := y_out; out_model := model;
         out_losses := losses; out_pred := pred; out_drift := observations |}.

(** *** What the script computes, as functions of the library state

    The value and the library state a forward pass leaves, the loss and
    the state an epoch leaves, and the calls they log.  The theorems below
    relate the monadic code above to these functions. *)

(** Embedding followed by dropout, in the classes with an embedding. *)
Definition embed_result (self : network) (x : tensor3 T) (l : Lib) : tensor3 T * Lib :=
  match embedding self with
  | Some c =>
      let e := linear_forward self_embedding c x l in
      dropout_forward (dropout self) (fst e) (snd e)
  | None => (x, l)
  end.

(** Decoder followed by dropout. *)
Definition decode_result (self : network) (out : tensor3 T) (l : Lib) : tensor3 T * Lib :=
  let d := linear_forward self_decoder (decoder self) out l in
  dropout_forward (dropout self) (fst d) (snd d).

Definition forward_result (self : network) (x : tensor3 T) (in_states : option St)
           (l : Lib) : (tensor3 T * St) * Lib :=
  let e := embed_result self x l in
  let r := rnn_forward (rnn self) (fst e) in_states (snd e) in
  let o := decode_result self (fst (fst r)) (snd r) in
  ((fst o, snd (fst r)), snd o).

(** The layers in the order [forward] applies them. *)
Definition layer_order (self : network) : list attr :=
  match embedding self with
  | Some _ => [self_embedding; self_dropout; self_rnn; self_decoder; self_dropout]
  | None => [self_rnn; self_decoder; self_dropout]
  end.

Definition model_events (model : network) (x : tensor3 T) : list (event T) :=
  ev_model x :: map ev_layer (layer_order model).

(** The prediction of [model(y_in)] in library state [l]. *)
Definition prediction (model : network) (y_in : tensor3 T) (l : Lib) : tensor3 T :=
  fst (fst (forward_result model y_in None l)).

(** The loss of an epoch that starts in library state [l]: the gradients
    are cleared, then the model is run. *)
Definition epoch_loss (model : network) (y_in y_out : tensor3 T) (l : Lib) : T :=
  mse_loss (prediction model y_in (zero_grad l)) y_out.

(** The library state an epoch leaves. *)
Definition epoch_lib (model : network) (y_in y_out : tensor3 T) (l : Lib) : Lib :=
  step (backward (epoch_loss model y_in y_out l)
                 (snd (forward_result model y_in None (zero_grad l)))).

(** The library state after [k] epochs. *)
Fixpoint lib_after_epochs (model : network) (y_in y_out : tensor3 T)
         (k : nat) (l : Lib) : Lib :=
  match k with
  | O => l
  | S k' => lib_after_epochs model y_in y_out k' (epoch_lib model y_in y_out l)
  end.

(** The calls epoch [i] logs when it starts in library state [l]. *)
Definition epoch_events (model : network) (y_in y_out : tensor3 T) (i : Z) (l : Lib)
  : list (event T) :=
  let loss := epoch_loss model y_in y_out l in
  [ev_zero_grad] ++ model_events model y_in ++
  [ev_criterion (prediction model y_in (zero_grad l)) y_out;
   ev_print (epoch_line i (f_exp loss));
   ev_backward loss;
   ev_step;
   ev_append loss].

(** Losses and calls of [count] epochs numbered from [first], starting in
    library state [l]. *)
Fixpoint losses_from (model : network) (y_in y_out : tensor3 T)
         (count : nat) (l : Lib) : list T :=
  match count with
  | O => []
  | S c => epoch_loss model y_in y_out l ::
           losses_from model y_in y_out c (epoch_lib model y_in y_out l)
  end.

Fixpoint events_from (model : network) (y_in y_out : tensor3 T)
         (first count : nat) (l : Lib) : list (event T) :=
  match count with
  | O => []
  | S c => epoch_events model y_in y_out (Z.of_nat first) l ++
           events_from model y_in y_out (S first) c (epoch_lib model y_in y_out l)
  end.

(** The library state a sweep point leaves, the state after the sweep
    over [times], and the predictions of the sweep. *)
Definition drift_lib (model : network) (y_in : tensor3 T) (t : Z) (l : Lib) : Lib :=
  snd (forward_result model y_in None (drift_analog_weights t l)).

Fixpoint sweep_lib (model : network) (y_in : tensor3 T) (times : list Z) (l : Lib) : Lib :=
  match times with
  | [] => l
  | t :: rest => sweep_lib model y_in rest (drift_lib model y_in t l)
  end.

Fixpoint sweep_predictions (model : network) (y_in : tensor3 T) (times : list Z) (l : Lib)
  : list (Z * tensor3 T) :=
  match times with
  | [] => []
  | t :: rest =>
      (t, prediction model y_in (drift_analog_weights t l)) ::
      sweep_predictions model y_in rest (drift_lib model y_in t l)
  end.

(** The calls the sweep over [times] logs, starting in library state
    [l]. *)
Fixpoint sweep_events (model : network) (y_in : tensor3 T) (times : list Z) (l : Lib)
  : list (event T) :=
  match times with
  | [] => []
  | t :: rest =>
      [ev_drift t] ++ model_events model y_in ++
      [ev_plot (column (prediction model y_in (drift_analog_weights t l)) 0 0)
               None (Some (drift_label t))] ++
      sweep_events model y_in rest (drift_lib model y_in t l)
  end.

(** The calls of the perplexity plot, of the test and of the drift test. *)
Definition perplexity_events (RESULTS : string) (losses : list T) : list (event T) :=
  [ev_figure;
   ev_plot (map f_exp losses) (Some "-b") None;
   ev_xlabel "# Epochs";
   ev_ylabel "Perplexity [1]";
   ev_ylim 1 (14 # 10);
   ev_savefig (os_path_join RESULTS ["train_perplexity"]);
   ev_close].

Definition test_events (RESULTS : string) (model : network) (y_in y_out : tensor3 T)
           (l : Lib) : list (event T) :=
  let pred := prediction model y_in (eval_mode l) in
  [ev_eval] ++ model_events model y_in ++
  [ev_criterion pred y_out;
   ev_print (test_line (f_exp (mse_loss pred y_out)));
   ev_figure;
   ev_plot (column y_out 0 0) (Some "-b") None;
   ev_plot (column pred 0 0) (Some "-g") None;
   ev_legend (Some ["truth"; "prediction"]);
   ev_savefig (os_path_join RESULTS ["test"]);
   ev_close].

Definition drift_events (RESULTS : string) (model : network) (y_in y_out : tensor3 T)
           (l : Lib) : list (event T) :=
  [ev_figure; ev_plot (column y_out 0 0) (Some "-b") (Some "truth")] ++
  sweep_events model y_in t_inference_values l ++
  [ev_legend None; ev_savefig (os_path_join RESULTS ["drift"]); ev_close].

(** The calls the dataset construction logs: two draws of [n] random
    numbers for each batch index. *)
Definition dataset_events (n : nat) (indices : list Z) : list (event T) :=
  flat_map (fun _ => [ev_rand n; ev_rand n]) indices.

(** Projections of the log. *)
Definition is_print (e : event T) : bool :=
  match e with ev_print _ => true | _ => false end.

Definition is_filesystem (e : event T) : bool :=
  match e with ev_makedirs _ _ | ev_savefig _ => true | _ => false end.

Definition without_prints (tr : list (event T)) : list (event T) :=
  filter (fun e => negb (is_print e)) tr.

Definition printed (tr : list (event T)) : list (line T) :=
  flat_map (fun e => match e with ev_print l => [l] | _ => [] end) tr.

Definition filesystem_calls (tr : list (event T)) : list (event T) :=
  filter is_filesystem tr.

Definition model_inputs (tr : list (event T)) : list (tensor3 T) :=
  flat_map (fun e => match e with ev_model x => [x] | _ => [] end) tr.

Definition criterion_targets (tr : list (event T)) : list (tensor3 T) :=
  flat_map (fun e => match e with ev_criterion _ t => [t] | _ => [] end) tr.

Definition drift_times (tr : list (event T)) : list Z :=
  flat_map (fun e => match e with ev_drift t => [t] | _ => [] end) tr.

Definition plot_labels (tr : list (event T)) : list string :=
  flat_map (fun e => match e with ev_plot _ _ (Some s) => [s] | _ => [] end) tr.

Definition is_rand (e : event T) : bool :=
  match e with ev_rand _ => true | _ => false end.

(** The model is built, or put back to another state than the one the
    calls before left: nothing but the constructor does that. *)
Definition is_construct (e : event T) : bool :=
  match e with ev_construct _ => true | _ => false end.

(** *** Contracts of the external layers

    The shape of what a layer returns, as torch documents it: a linear
    layer replaces the last dimension, the recurrent layer returns
    [hidden_size] features per direction, dropout keeps the shape. *)
Record shape_contract : Prop := {
  linear_shape :
    forall a c x l,
      dim2 x = in_features c ->
      shape3 (fst (linear_forward a c x l)) = (dim0 x, dim1 x, out_features c);
  rnn_shape :
    forall c x s l,
      dim2 x = input_size c ->
      shape3 (fst (fst (rnn_forward c x s l))) =
      (dim0 x, dim1 x, hidden_size c * (if bidir c then 2 else 1));
  dropout_shape :
    forall p x l, shape3 (fst (dropout_forward p x l)) = shape3 x
}.

(** The numerical contract the loss relies on, for a notion [finite] of
    well-formed number and a notion [ok_loss] of non-negative finite loss:
    the mean squared error of two finite tensors of one non-empty shape is
    a non-negative finite number, and the model maps finite inputs to
    finite predictions. *)
Record loss_contract (finite ok_loss : T -> Prop) : Prop := {
  mse_well_formed :
    forall p t,
      shape3 p = shape3 t ->
      0 < numel3 t ->
      Forall finite (cells_of p) ->
      Forall finite (cells_of t) ->
      ok_loss (mse_loss p t);
  model_finite :
    forall self x l,
      Forall finite (cells_of x) ->
      Forall finite (cells_of (prediction self x l))
}.

End Script.

(** ** Implementations of the interfaces, for running the script

    [toy_library] is a small deterministic library over any arithmetic:
    its state is one number, which a random draw and an optimizer step
    increase by one and a drift by the elapsed time; its layers return
    tensors filled with that number, of the shape torch's layers return;
    its loss is the mean squared error. *)
Section Toy.

Context {T : Type} {F : Float T}.

Definition fill (d0 d1 d2 : nat) (v : T) : tensor3 T :=
  {| dim0 := d0; dim1 := d1; dim2 := d2;
     cells3 := repeat (repeat (repeat v d2) d1) d0 |}.

Definition directions (c : rnn_cfg) : nat :=
  if bidir c then 2 else 1.

Definition mean_squared_error (p t : tensor3 T) : T :=
  let squares := map (fun ab => f_mul (f_sub (fst ab) (snd ab))
                                      (f_sub (fst ab) (snd ab)))
                     (combine (cells_of p) (cells_of t)) in
  f_div (fold_left f_add squares f_zero) (f_of_nat (length squares)).

Definition toy_library : Library T nat unit :=
  {| rand1 := fun l => (f_of_nat l, S l);
     construct := fun _ l => l;
     AnalogSGD := fun _ l => l;
     regroup_param_groups := fun l => l;
     linear_forward := fun _ c x l =>
       (fill (dim0 x) (dim1 x) (out_features c) (f_of_nat l), l);
     rnn_forward := fun c x _ l =>
       ((fill (dim0 x) (dim1 x) (hidden_size c * directions c) (f_of_nat l), tt), l);
     dropout_forward := fun _ x l => (x, l);
     mse_loss := mean_squared_error;
     zero_grad := fun l => l;
     backward := fun _ l => l;
     step := fun l => S l;
     eval_mode := fun l => l;
     drift_analog_weights := fun t l => l + Z.to_nat t |}.

Definition start : world T nat :=
  {| lib := 0; cwd := "/home/user"; trace := [] |}.

(** The dataset the script builds for a configuration. *)
Definition dataset (cfg : config T) : result (tensor3 T * tensor3 T) :=
  fst (@make_dataset T nat unit F toy_library cfg start).

End Toy.

(** [tagged_float] interprets the arithmetic in the integers in such a way
    that, with [f_8pi] set to [L - 1], sample number [k] of the signal is
    the integer [k]: an element of the dataset then tells which sample of
    the signal it is. *)
Module Tagged.

Definition tagged_float (last : Z) : Float Z :=
  {| f_zero := 0%Z;
     f_half := 0%Z;
     f_8pi := last;
     f_of_nat := Z.of_nat;
     f_add := Z.add;
     f_sub := Z.sub;
     f_mul := Z.mul;
     f_div := Z.div;
     f_sin := fun x => x;
     f_cos := fun _ => 1%Z;
     f_exp := fun x => x |}.

Definition library (last : Z) : Library Z nat unit :=
  @toy_library Z (tagged_float last).

(** The configuration of the script. *)
Definition script : config Z := @script_config Z (tagged_float 500).

(** The script's configuration with another sequence length. *)
Definition with_length (len : Z) : config Z :=
  let cfg := @script_config Z (tagged_float (len - 1)) in
  {| NOISE := NOISE cfg; EPOCHS := EPOCHS cfg; BATCH_SIZE := BATCH_SIZE cfg;
     SEQ_LEN := len;
     WITH_EMBEDDING := WITH_EMBEDDING cfg; WITH_BIDIR := WITH_BIDIR cfg;
     USE_ANALOG_TRAINING := USE_ANALOG_TRAINING cfg |}.

(** A small configuration and two small tensors. *)
Definition small : config Z :=
  {| NOISE := 0%Z; EPOCHS := 3; BATCH_SIZE := 2; SEQ_LEN := 5;
     WITH_EMBEDDING := true; WITH_BIDIR := true; USE_ANALOG_TRAINING := false |}.

Definition inputs : tensor3 Z := @fill Z 4 2 1 1%Z.

Definition targets : tensor3 Z := @fill Z 4 2 1 3%Z.

End Tagged.

(** A decimal floating-point arithmetic with seven significant digits,
    about the precision of the script's 32-bit numbers: every operation
    returns the exact result rounded to seven digits, and a sum with zero
    is the other operand.  Sine, cosine and exponential are computed in
    fixed point with twenty decimals before they are rounded. *)
Module Decimal.

Record dfloat : Type := {
  mantissa : Z;
  exponent : Z                 (* the value is mantissa * 10 ^ exponent *)
}.

Definition zero : dfloat := {| mantissa := 0; exponent := 0 |}.

Definition is_zero (a : dfloat) : bool := (mantissa a =? 0)%Z.

(** Seven digits of the positive quotient [n / d], times [10 ^ e]. *)
Fixpoint scale (fuel : nat) (n d e : Z) : Z * Z :=
  match fuel with
  | O => ((n / d)%Z, e)
  | S fuel' =>
      if (10 ^ 7 * d <=? n)%Z then scale fuel' n (d * 10)%Z (e + 1)%Z
      else if (n <? 10 ^ 6 * d)%Z then scale fuel' (n * 10)%Z d (e - 1)%Z
      else
        let m := ((2 * n + d) / (2 * d))%Z in
        if (m =? 10 ^ 7)%Z then ((10 ^ 6)%Z, (e + 1)%Z) else (m, e)
  end.

(** The quotient [n / d] rounded to seven digits, for [d > 0]. *)
Definition round (n d : Z) : dfloat :=
  if (n =? 0)%Z then zero
  else
    let me := scale 200 (Z.abs n) d 0 in
    {| mantissa := Z.sgn n * fst me; exponent := snd me |}.

(** A number as a quotient of two integers. *)
Definition numerator (a : dfloat) : Z :=
  if (0 <=? exponent a)%Z then (mantissa a * 10 ^ exponent a)%Z else mantissa a.

Definition denominator (a : dfloat) : Z :=
  if (0 <=? exponent a)%Z then 1%Z else (10 ^ (- exponent a))%Z.

Definition add (a b : dfloat) : dfloat :=
  if is_zero b then a
  else if is_zero a then b
  else round (numerator a * denominator b + numerator b * denominator a)
             (denominator a * denominator b).

Definition opp (a : dfloat) : dfloat :=
  {| mantissa := - mantissa a; exponent := exponent a |}.

Definition sub (a b : dfloat) : dfloat := add a (opp b).

Definition mul (a b : dfloat) : dfloat :=
  if is_zero a || is_zero b then zero
  else round (numerator a * numerator b) (denominator a * denominator b).

Definition div (a b : dfloat) : dfloat :=
  if is_zero a || is_zero b then zero
  else round (Z.sgn (numerator b) * numerator a * denominator b)
             (denominator a * Z.abs (numerator b)).

(** Fixed point with twenty decimals. *)
Definition unit_fix : Z := (10 ^ 20)%Z.

Definition two_pi_fix : Z := 628318530717958647693%Z.

Definition to_fix (a : dfloat) : Z :=
  (numerator a * unit_fix / denominator a)%Z.

(** The argument less the nearest multiple of two pi. *)
Definition reduce (x : Z) : Z :=
  (x - (2 * x + two_pi_fix) / (2 * two_pi_fix) * two_pi_fix)%Z.

(** [count] more terms of an alternating power series in [r2], the square
    of the argument: each term is the one before times [- r2 / ((j+1)(j+2))]. *)
Fixpoint alternating (count : nat) (j term acc r2 : Z) : Z :=
  match count with
  | O => acc
  | S count' =>
      let term' := (- (term * r2 / unit_fix) / ((j + 1) * (j + 2)))%Z in
      alternating count' (j + 2)%Z term' (acc + term')%Z r2
  end.

Definition sin (a : dfloat) : dfloat :=
  let r := reduce (to_fix a) in
  round (alternating 16 1 r r (r * r / unit_fix)) unit_fix.

Definition cos (a : dfloat) : dfloat :=
  let r := reduce (to_fix a) in
  round (alternating 16 0 unit_fix unit_fix (r * r / unit_fix)) unit_fix.

Fixpoint power_series (count : nat) (j term acc x : Z) : Z :=
  match count with
  | O => acc
  | S count' =>
      let term' := (term * x / unit_fix / (j + 1))%Z in
      power_series count' (j + 1)%Z term' (acc + term')%Z x
  end.

Definition exp (a : dfloat) : dfloat :=
  round (power_series 60 0 unit_fix unit_fix (to_fix a)) unit_fix.

Definition decimal_float : Float dfloat :=
  {| f_zero := zero;
     f_half := {| mantissa := 5000000; exponent := -7 |};
     f_8pi := round (4 * two_pi_fix) unit_fix;
     f_of_nat := fun n => round (Z.of_nat n) 1;
     f_add := add;
     f_sub := sub;
     f_mul := mul;
     f_div := div;
     f_sin := sin;
     f_cos := cos;
     f_exp := exp |}.

Definition library : Library dfloat nat unit :=
  @toy_library dfloat decimal_float.

(** The configuration of the script. *)
Definition script : config dfloat := @script_config dfloat decimal_float.

End Decimal.

(** ** Observations of a run

    The state of torch's random generator between the draws of the
    dataset construction, and the calls of a log sorted by the library
    they go to. *)
Section Observations.

Context {T Lib St : Type} {F : Float T} {L : Library T Lib St}.

(** The library state after [k] calls of [torch.rand], each of them for
    [n] numbers. *)
Fixpoint after_draws (n k : nat) (l : Lib) : Lib :=
  match k with
  | O => l
  | S k' => after_draws n k' (snd (draw n l))
  end.

(** The numbers that call number [k], counted from 0, of [torch.rand]
    returns. *)
Definition noise_of (n k : nat) (l : Lib) : list T :=
  fst (draw n (after_draws n k l)).

(** The rows lines 97 and 98 append for the batch indices below [count]:
    row [k] is the slice [t] of the signal rolled by [100*k], plus [noise]
    times the numbers of draw [2*k + offset]; the draws for the inputs
    have the offset 0, those for the targets the offset 1. *)
Definition noisy_rows (noise : T) (t : list T) (offset count : nat) (l : Lib)
  : list (list T) :=
  map (fun k => zip_add (torch_roll t (100 * Z.of_nat k))
                        (tensor_scale noise (noise_of (length t) (2 * k + offset) l)))
      (seq 0 count).

(** The functions of [matplotlib.pyplot] a log calls, in order. *)
Definition pyplot_calls (tr : list (event T)) : list string :=
  flat_map (fun e =>
              match e with
              | ev_figure => ["figure"]
              | ev_plot _ _ _ => ["plot"]
              | ev_xlabel _ => ["xlabel"]
              | ev_ylabel _ => ["ylabel"]
              | ev_ylim _ _ => ["ylim"]
              | ev_legend _ => ["legend"]
              | ev_savefig _ => ["savefig"]
              | ev_close => ["close"]
              | _ => []
              end) tr.

(** The calls of eleven kinds that a log holds, in order: [torch.rand],
    the constructor of the model class, [AnalogSGD], [regroup_param_groups],
    [zero_grad], [model(...)], [criterion(...)], [backward], [step],
    [eval] and [drift_analog_weights].  These are the calls that draw
    random numbers, that build, run, train or drift the model, and that
    evaluate the loss.  The other calls of torch the script makes
    ([torch.linspace], [torch.sin], [torch.roll], [torch.stack],
    [model.parameters()], [nn.MSELoss()], [detach]) are not logged and are
    not among them. *)
Definition library_calls (tr : list (event T)) : list string :=
  flat_map (fun e =>
              match e with
              | ev_rand _ => ["torch.rand"]
              | ev_construct _ => ["model.__init__"]
              | ev_optimizer _ => ["AnalogSGD"]
              | ev_regroup => ["optimizer.regroup_param_groups"]
              | ev_zero_grad => ["optimizer.zero_grad"]
              | ev_model _ => ["model"]
              | ev_criterion _ _ => ["criterion"]
              | ev_backward _ => ["loss.backward"]
              | ev_step => ["optimizer.step"]
              | ev_eval => ["model.eval"]
              | ev_drift _ => ["model.drift_analog_weights"]
              | _ => []
              end) tr.

End Observations.

(** A small configuration with noise, for running the dataset
    construction on the toy library. *)
Definition noisy_config : config Z :=
  {| NOISE := 1%Z; EPOCHS := 2; BATCH_SIZE := 2; SEQ_LEN := 4;
     WITH_EMBEDDING := false; WITH_BIDIR := false; USE_ANALOG_TRAINING := false |}.

(** The separator [os.path.join] puts between a first component and a
    relative one: none after an empty component or one that ends with a
    slash. *)
Definition separator_after (a : string) : string :=
  if (String.eqb a EmptyString || ends_with_slash a)%bool then EmptyString else "/".

(** A library whose analog tiles have the short-term weight noise the
    script configures at lines 68-69.  [Noisy.library] is the toy library
    with one difference: a layer built with an RPU configuration whose
    [forward.w_noise] is not zero draws a number from the generator in
    every forward pass, in evaluation mode as in training.  Its state is
    the count of the numbers drawn and of the optimizer steps; a layer
    returns a tensor filled with the count it finds.  A drift adds the
    elapsed time to the state, so that a drift by the elapsed time 0 leaves
    the state as it is. *)
Module Noisy.

Definition w_noise (r : option rpu_config_t) : Q :=
  match r with
  | Some (InferenceRPUConfig s) => forward_w_noise s
  | _ => 0
  end.

(** The numbers a layer draws in one forward pass. *)
Definition draws (r : option rpu_config_t) : Z :=
  if Qeq_bool (w_noise r) 0 then 0%Z else 1%Z.

Definition library : Library Z Z unit :=
  {| rand1 := fun l => (l, (l + 1)%Z);
     construct := fun _ l => l;
     AnalogSGD := fun _ l => l;
     regroup_param_groups := fun l => l;
     linear_forward := fun _ c x l =>
       (fill (dim0 x) (dim1 x) (out_features c) l, (l + draws (linear_rpu c))%Z);
     rnn_forward := fun c x _ l =>
       ((fill (dim0 x) (dim1 x) (hidden_size c * directions c) l, tt),
        (l + draws (Some (rnn_rpu c)))%Z);
     dropout_forward := fun _ x l => (x, l);
     mse_loss := @mean_squared_error Z (Tagged.tagged_float 4);
     zero_grad := fun l => l;
     backward := fun _ l => l;
     step := fun l => (l + 1)%Z;
     eval_mode := fun l => l;
     drift_analog_weights := fun t l => (l + t)%Z |}.

Definition begin : world Z Z :=
  {| lib := 0%Z; cwd := "/home/user"; trace := [] |}.

End Noisy.

(** * Properties *)

(** ** Lists, slices and rolls *)

Lemma py_range_length (n : Z) : length (py_range n) = Z.to_nat n.
Proof. unfold py_range. now rewrite length_map, length_seq. Qed.

Lemma py_range_nth (n : Z) (i : nat) :
  i < Z.to_nat n -> nth_error (py_range n) i = Some (Z.of_nat i).
Proof.
  intros Hi. unfold py_range.
  rewrite nth_error_map, nth_error_seq.
  destruct (Nat.ltb_spec i (Z.to_nat n)); [reflexivity | lia].
Qed.

Lemma slice_index_nonneg (i len : Z) :
  (0 <= i)%Z -> slice_index i len = Z.min i len.
Proof.
  intros Hi. unfold slice_index.
  destruct (Z.ltb_spec i 0); [lia | reflexivity].
Qed.

Lemma slice_index_neg (i len : Z) :
  (i < 0)%Z -> slice_index i len = Z.max (i + len) 0.
Proof.
  intros Hi. unfold slice_index.
  destruct (Z.ltb_spec i 0); [reflexivity | lia].
Qed.

(** [y[0:L-1]] drops the last element and [y[1:L]] the first one, for a
    sequence of [L] elements. *)
Lemma slice_init {A} (y : list A) :
  py_slice y 0 (Z.of_nat (length y) - 1) = firstn (length y - 1) y.
Proof.
  unfold py_slice.
  rewrite (slice_index_nonneg (i := 0)) by lia.
  rewrite Z.min_l by lia. change (Z.to_nat 0) with 0. rewrite skipn_O.
  destruct (Z.ltb_spec (Z.of_nat (length y) - 1) 0) as [Hneg | Hpos].
  - rewrite slice_index_neg by lia.
    replace (length y) with 0 by lia. reflexivity.
  - rewrite slice_index_nonneg by lia. rewrite Z.min_l by lia.
    f_equal. lia.
Qed.

Lemma slice_tail {A} (y : list A) :
  py_slice y 1 (Z.of_nat (length y)) = skipn 1 y.
Proof.
  unfold py_slice.
  rewrite !slice_index_nonneg by lia. rewrite Z.min_id.
  destruct y as [| a y]; [reflexivity |].
  assert (Hlen : (1 <= Z.of_nat (length (a :: y)))%Z)
    by (change (length (a :: y)) with (S (length y)); lia).
  rewrite Z.min_l by lia.
  replace (Z.to_nat (Z.of_nat (length (a :: y)) - 1)) with (length (skipn 1 (a :: y)))
    by (rewrite length_skipn; lia).
  change (Z.to_nat 1) with 1. apply firstn_all.
Qed.

Section Roll.

Variable A : Type.

Lemma torch_roll_length (l : list A) (s : Z) :
  length (torch_roll l s) = length l.
Proof.
  unfold torch_roll. destruct (length l) as [| n] eqn:Hn; [exact Hn |].
  rewrite length_app, length_skipn, length_firstn.
  assert (0 <= s mod Z.of_nat (S n) < Z.of_nat (S n))%Z
    by (apply Z.mod_pos_bound; lia).
  lia.
Qed.

(** The element at position [t] of the rolled sequence comes from
    position [(t - s) mod n]. *)
Lemma torch_roll_nth (l : list A) (s : Z) (t : nat) :
  t < length l ->
  nth_error (torch_roll l s) t =
  nth_error l (Z.to_nat ((Z.of_nat t - s) mod Z.of_nat (length l))).
Proof.
  intros Ht. unfold torch_roll.
  destruct (length l) as [| n] eqn:Hn; [lia |].
  set (N := Z.of_nat (S n)).
  assert (HN : (0 < N)%Z) by (unfold N; lia).
  assert (Hk : (0 <= s mod N < N)%Z) by (apply Z.mod_pos_bound; lia).
  rewrite <- Zminus_mod_idemp_r.
  set (k := (s mod N)%Z) in *.
  destruct (Nat.ltb_spec t (Z.to_nat k)) as [Hlt | Hge].
  - rewrite nth_error_app1 by (rewrite length_skipn; lia).
    rewrite nth_error_skipn. f_equal.
    replace (Z.of_nat t - k)%Z with ((Z.of_nat t - k + N) + (-1) * N)%Z by lia.
    rewrite Z.mod_add by lia.
    rewrite Z.mod_small by lia. unfold N. lia.
  - rewrite nth_error_app2 by (rewrite length_skipn; lia).
    rewrite length_skipn, nth_error_firstn.
    destruct (Nat.ltb_spec (t - (length l - (S n - Z.to_nat k))) (S n - Z.to_nat k));
      [| lia].
    f_equal. rewrite Z.mod_small by lia. lia.
Qed.

Lemma torch_roll_0 (l : list A) : torch_roll l 0 = l.
Proof.
  unfold torch_roll. destruct (length l) as [| n] eqn:Hn; [reflexivity |].
  rewrite Z.mod_0_l by lia. simpl (Z.to_nat 0). rewrite Nat.sub_0_r, <- Hn.
  rewrite skipn_all, firstn_all. reflexivity.
Qed.

End Roll.

(** ** Stacking, transposition and indexing *)

Section TensorFacts.

Variable T : Type.

Lemma torch_stack_ok (ts : list (list T)) (n : nat) :
  ts <> [] ->
  Forall (fun r => length r = n) ts ->
  torch_stack ts = Ok {| nrows := length ts; ncols := n; rows2 := ts |}.
Proof.
  intros Hne Hall. destruct ts as [| t rest]; [congruence |].
  unfold torch_stack. inversion Hall as [| ? ? Ht Hrest]; subst.
  replace (forallb (fun u => length u =? length t) rest) with true; [reflexivity |].
  symmetry. apply forallb_forall. intros u Hu.
  rewrite Forall_forall in Hrest. rewrite (Hrest u Hu). apply Nat.eqb_refl.
Qed.

(** Column [j] of a list of rows that all reach position [j]. *)
Lemma column_nth (rows : list (list T)) (j b : nat) :
  Forall (fun r => j < length r) rows ->
  nth_error (flat_map (fun r => opt_to_list (nth_error r j)) rows) b =
  match nth_error rows b with
  | Some r => nth_error r j
  | None => None
  end.
Proof.
  intros Hall. revert b. induction Hall as [| r rows Hr Hrows IH]; intros b.
  - destruct b; reflexivity.
  - simpl flat_map. destruct (nth_error r j) as [v |] eqn:Hv.
    + destruct b as [| b]; simpl; [now rewrite Hv | apply IH].
    + apply nth_error_None in Hv. lia.
Qed.

Lemma column_length (rows : list (list T)) (j : nat) :
  Forall (fun r => j < length r) rows ->
  length (flat_map (fun r => opt_to_list (nth_error r j)) rows) = length rows.
Proof.
  induction 1 as [| r rows Hr Hrows IH]; [reflexivity |].
  simpl flat_map. rewrite length_app, IH.
  destruct (nth_error r j) eqn:Hv; [reflexivity |].
  apply nth_error_None in Hv. lia.
Qed.

Lemma wf2_transpose (m : tensor2 T) : wf2 m -> wf2 (transpose01 m).
Proof.
  intros [Hlen Hrows]. split; simpl.
  - now rewrite length_map, length_seq.
  - apply Forall_forall. intros c Hc.
    apply in_map_iff in Hc. destruct Hc as [j [<- Hj]].
    apply in_seq in Hj. rewrite column_length; [exact Hlen |].
    eapply Forall_impl; [| exact Hrows]. simpl. intros r Hr. lia.
Qed.

Lemma wf3_unsqueeze (m : tensor2 T) : wf2 m -> wf3 (unsqueeze2 m).
Proof.
  intros [Hlen Hrows]. split; simpl.
  - now rewrite length_map.
  - apply Forall_forall. intros p Hp.
    apply in_map_iff in Hp. destruct Hp as [r [<- Hr]].
    rewrite Forall_forall in Hrows. split.
    + rewrite length_map. now apply Hrows.
    + apply Forall_forall. intros c Hc.
      apply in_map_iff in Hc. destruct Hc as [v [<- _]]. reflexivity.
Qed.

(** Element [t, b, 0] of [m.transpose(0, 1).unsqueeze(2)] is element
    [b, t] of [m]. *)
Lemma get3_unsqueeze_transpose (m : tensor2 T) (t b : nat) :
  wf2 m ->
  get3 (unsqueeze2 (transpose01 m)) t b 0 = get2 m b t.
Proof.
  intros [Hlen Hrows]. unfold get3, get2. simpl.
  rewrite nth_error_map, nth_error_map, nth_error_seq.
  destruct (Nat.ltb_spec t (ncols m)) as [Ht | Ht]; simpl.
  - rewrite nth_error_map, column_nth
      by (eapply Forall_impl; [| exact Hrows]; simpl; intros; lia).
    destruct (nth_error (rows2 m) b) as [r |] eqn:Hb; simpl; [| reflexivity].
    destruct (nth_error r t); reflexivity.
  - destruct (nth_error (rows2 m) b) as [r |] eqn:Hb; [| reflexivity].
    symmetry. apply nth_error_None.
    rewrite Forall_forall in Hrows. rewrite (Hrows r); [lia |].
    eapply nth_error_In; eassumption.
Qed.

Lemma skipn_nth_cons (r : list T) (s : nat) (v : T) :
  nth_error r s = Some v -> skipn s r = v :: skipn (S s) r.
Proof.
  revert r. induction s as [| s IH]; intros [| a r] Hv; try discriminate.
  - injection Hv as ->. reflexivity.
  - simpl in Hv. change (skipn (S s) (a :: r)) with (skipn s r).
    rewrite (IH r Hv). reflexivity.
Qed.

Lemma read_all (r : list T) (s n : nat) :
  s + n = length r ->
  flat_map (fun j => opt_to_list (nth_error r j)) (seq s n) = skipn s r.
Proof.
  revert s. induction n as [| n IH]; intros s Hs.
  - symmetry. apply skipn_all2. lia.
  - cbn [seq flat_map]. rewrite IH by lia.
    destruct (nth_error r s) as [v |] eqn:Hv.
    + rewrite (skipn_nth_cons _ _ Hv). reflexivity.
    + apply nth_error_None in Hv. lia.
Qed.

(** [t[:, b, 0]] of [m.transpose(0, 1).unsqueeze(2)] is row [b] of [m]. *)
Lemma select_col_unsqueeze_transpose (m : tensor2 T) (b : nat) (r : list T) :
  wf2 m ->
  nth_error (rows2 m) b = Some r ->
  select_col (unsqueeze2 (transpose01 m)) b 0 = Ok r.
Proof.
  intros Hwf Hb. destruct Hwf as [Hlen Hrows].
  assert (Hbn : b < nrows m)
    by (rewrite <- Hlen; apply nth_error_Some; congruence).
  assert (Hr : length r = ncols m).
  { rewrite Forall_forall in Hrows. apply Hrows.
    eapply nth_error_In; eassumption. }
  unfold select_col, column.
  cbn [unsqueeze2 transpose01 dim1 dim2 cells3 nrows ncols rows2].
  destruct (Nat.ltb_spec b (nrows m)); [| lia].
  change (0 <? 1) with true. cbn [andb]. f_equal.
  transitivity (flat_map (fun j => opt_to_list (nth_error r j)) (seq 0 (ncols m)));
    [| now rewrite read_all by lia].
  rewrite !flat_map_concat_map, !map_map. f_equal.
  apply map_ext_in. intros j Hj. apply in_seq in Hj.
  rewrite nth_error_map, column_nth
    by (eapply Forall_impl; [| exact Hrows]; simpl; intros; lia).
  rewrite Hb. destruct (nth_error r j); reflexivity.
Qed.

End TensorFacts.

(** ** The dataset *)

Section Dataset.

Context {T Lib St : Type} {F : Float T} {L : Library T Lib St}.

Lemma torch_linspace_ok (a b : T) (n : Z) :
  (0 <= n)%Z ->
  exists x, torch_linspace a b n = Ok x /\ length x = Z.to_nat n.
Proof.
  intros Hn. unfold torch_linspace.
  destruct (Z.ltb_spec n 0); [lia |].
  destruct (Nat.eqb_spec (Z.to_nat n) 1) as [H1 | H1].
  - exists [a]. split; [reflexivity | now rewrite H1].
  - eexists. split; [reflexivity |]. now rewrite length_map, length_seq.
Qed.

Lemma torch_linspace_negative (a b : T) (n : Z) :
  (n < 0)%Z ->
  torch_linspace a b n =
  Raise (Exn "RuntimeError" "number of steps must be non-negative").
Proof.
  intros Hn. unfold torch_linspace.
  destruct (Z.ltb_spec n 0); [reflexivity | lia].
Qed.

Lemma draw_length (n : nat) (l : Lib) : length (fst (draw n l)) = n.
Proof.
  revert l. induction n as [| n IH]; intros l; simpl; [reflexivity |].
  destruct (rand1 l) as [v l1]. specialize (IH l1).
  destruct (draw n l1) as [vs l2]. simpl in *. now rewrite IH.
Qed.

Lemma zip_add_length (a b : list T) :
  length a = length b -> length (zip_add a b) = length a.
Proof.
  revert b. induction a as [| x a IH]; intros [| y b] Hl; simpl in *;
    try reflexivity; try discriminate.
  rewrite IH; [reflexivity | lia].
Qed.

Lemma zip_add_zero (a r : list T) :
  zero_laws T ->
  length a = length r ->
  zip_add a (tensor_scale f_zero r) = a.
Proof.
  intros [Hmul Hadd]. revert r.
  induction a as [| x a IH]; intros [| y r] Hl; simpl in *;
    try reflexivity; try discriminate.
  rewrite Hmul, Hadd, IH; [reflexivity | lia].
Qed.

(** One row of the batch: it has the length of the signal slice, and
    without noise it is the rolled slice. *)
Lemma rolled_with_noise_ok (noise : T) (t : list T) (i : Z) (w : world T Lib) :
  exists row w',
    rolled_with_noise noise t i w = (Ok row, w') /\
    (cwd w' = cwd w /\ trace w' = trace w ++ [ev_rand (length t)]) /\
    length row = length t /\
    (noise = f_zero -> zero_laws T -> row = torch_roll t (100 * i)).
Proof.
  unfold rolled_with_noise, torch_rand, bind, emit, call, of_result.
  cbn [lib cwd trace].
  pose proof (draw_length (length t) (lib w)) as Hd.
  set (r := fst (draw (length t) (lib w))) in *.
  assert (Hlen : length (torch_roll t (100 * i)) = length (tensor_scale noise r)).
  { unfold tensor_scale. now rewrite torch_roll_length, length_map, Hd. }
  unfold tensor_add. rewrite Hlen, Nat.eqb_refl.
  eexists. eexists. split; [reflexivity |].
  split; [split; reflexivity |]. split.
  - rewrite zip_add_length by exact Hlen.
    apply torch_roll_length.
  - intros -> Hz. apply zip_add_zero; [exact Hz |].
    now rewrite torch_roll_length, Hd.
Qed.

Lemma batch_loop_ok (noise : T) (y_in_1d y_out_1d : list T) (indices : list Z) :
  forall (acc_in acc_out : list (list T)) (w : world T Lib),
  exists ins outs w',
    batch_loop noise y_in_1d y_out_1d indices acc_in acc_out w =
      (Ok (acc_in ++ ins, acc_out ++ outs), w') /\
    (cwd w' = cwd w /\
     trace w' = trace w ++
                flat_map (fun _ => [ev_rand (length y_in_1d); ev_rand (length y_out_1d)])
                         indices) /\
    length ins = length indices /\
    length outs = length indices /\
    Forall (fun r => length r = length y_in_1d) ins /\
    Forall (fun r => length r = length y_out_1d) outs /\
    (noise = f_zero -> zero_laws T ->
     ins = map (fun i => torch_roll y_in_1d (100 * i)) indices /\
     outs = map (fun i => torch_roll y_out_1d (100 * i)) indices).
Proof.
  induction indices as [| i rest IH]; intros acc_in acc_out w.
  - exists [], [], w. cbn [batch_loop flat_map]. unfold ret. rewrite !app_nil_r.
    repeat split; constructor.
  - cbn [batch_loop]. unfold bind at 1.
    destruct (rolled_with_noise_ok noise y_in_1d i w)
      as [a [w1 [Ha [[Hc1 Ht1] [Hla Hza]]]]].
    rewrite Ha. unfold bind at 1.
    destruct (rolled_with_noise_ok noise y_out_1d i w1)
      as [b [w2 [Hb [[Hc2 Ht2] [Hlb Hzb]]]]].
    rewrite Hb.
    destruct (IH (acc_in ++ [a]) (acc_out ++ [b]) w2)
      as [ins [outs [w' [Hrun [[Hc Ht] [Hli [Hlo [Hfi [Hfo Hz]]]]]]]]].
    exists (a :: ins), (b :: outs), w'.
    rewrite Hrun, <- !app_assoc. cbn [app length map flat_map].
    repeat split; try congruence; try (constructor; assumption).
    + rewrite Ht, Ht2, Ht1, <- !app_assoc. reflexivity.
    + destruct (Hz H H0) as [-> _]. now rewrite (Hza H H0).
    + destruct (Hz H H0) as [_ ->]. now rewrite (Hzb H H0).
Qed.

(** The dataset construction returns for every non-negative sequence
    length and every positive batch size: the two arrays are the
    transposed, unsqueezed stacks of [B] rows of [L - 1] elements, and
    without noise the rows are the rolled slices of the signal. *)
Lemma make_dataset_ok (cfg : config T) (w : world T Lib) :
  (0 <= SEQ_LEN cfg)%Z ->
  (1 <= BATCH_SIZE cfg)%Z ->
  exists x ins outs w',
    torch_linspace f_zero f_8pi (SEQ_LEN cfg) = Ok x /\
    length x = Z.to_nat (SEQ_LEN cfg) /\
    make_dataset cfg w =
      (Ok (unsqueeze2 (transpose01 {| nrows := Z.to_nat (BATCH_SIZE cfg);
                                      ncols := Z.to_nat (SEQ_LEN cfg) - 1;
                                      rows2 := ins |}),
           unsqueeze2 (transpose01 {| nrows := Z.to_nat (BATCH_SIZE cfg);
                                      ncols := Z.to_nat (SEQ_LEN cfg) - 1;
                                      rows2 := outs |})), w') /\
    (cwd w' = cwd w /\
     trace w' = trace w ++ dataset_events (Z.to_nat (SEQ_LEN cfg) - 1)
                                          (py_range (BATCH_SIZE cfg))) /\
    length ins = Z.to_nat (BATCH_SIZE cfg) /\
    length outs = Z.to_nat (BATCH_SIZE cfg) /\
    Forall (fun r => length r = Z.to_nat (SEQ_LEN cfg) - 1) ins /\
    Forall (fun r => length r = Z.to_nat (SEQ_LEN cfg) - 1) outs /\
    (NOISE cfg = f_zero -> zero_laws T ->
     ins = map (fun i => torch_roll (firstn (Z.to_nat (SEQ_LEN cfg) - 1) (map signal x))
                                    (100 * i))
               (py_range (BATCH_SIZE cfg)) /\
     outs = map (fun i => torch_roll (skipn 1 (map signal x)) (100 * i))
                (py_range (BATCH_SIZE cfg))).
Proof.
  intros HL HB.
  destruct (torch_linspace_ok f_zero f_8pi HL) as [x [Hx Hlx]].
  unfold make_dataset. rewrite Hx. unfold bind at 1, of_result at 1.
  assert (Hy : length (map signal x) = Z.to_nat (SEQ_LEN cfg))
    by now rewrite length_map.
  pose proof (slice_init (map signal x)) as Hs1.
  pose proof (slice_tail (map signal x)) as Hs2.
  rewrite Hy, Z2Nat.id in Hs1, Hs2 by lia.
  rewrite Hs1, Hs2. clear Hs1 Hs2.
  set (y_in_1d := firstn (Z.to_nat (SEQ_LEN cfg) - 1) (map signal x)).
  set (y_out_1d := skipn 1 (map signal x)).
  assert (Hin : length y_in_1d = Z.to_nat (SEQ_LEN cfg) - 1)
    by (unfold y_in_1d; rewrite length_firstn; lia).
  assert (Hout : length y_out_1d = Z.to_nat (SEQ_LEN cfg) - 1)
    by (unfold y_out_1d; rewrite length_skipn; lia).
  destruct (batch_loop_ok (NOISE cfg) y_in_1d y_out_1d (py_range (BATCH_SIZE cfg)) [] [] w)
    as [ins [outs [w' [Hrun [[Hc Ht] [Hli [Hlo [Hfi [Hfo Hz]]]]]]]]].
  rewrite py_range_length in Hli, Hlo. rewrite Hin in Hfi. rewrite Hout in Hfo.
  rewrite Hin, Hout in Ht.
  exists x, ins, outs, w'.
  unfold bind at 1. rewrite Hrun. cbn [app].
  assert (Hni : ins <> []) by (intros ->; simpl in Hli; lia).
  assert (Hno : outs <> []) by (intros ->; simpl in Hlo; lia).
  rewrite (torch_stack_ok Hni Hfi), (torch_stack_ok Hno Hfo).
  unfold bind, of_result, ret. rewrite Hli, Hlo.
  repeat split; try assumption; try reflexivity.
  - now destruct (Hz H H0).
  - now destruct (Hz H H0).
Qed.

End Dataset.

(** ** Shape of the dataset and the one-step shift (C1) *)

Section DatasetClaims.

Context {T Lib St : Type} {F : Float T} {L : Library T Lib St}.

(** Advancing the position by one advances the source position of a
    rolled sequence by one, unless the position reached is the one the
    roll moved the start of the sequence to. *)
Lemma roll_source_succ (t s n : Z) :
  (0 < n)%Z -> (0 <= t)%Z -> (t + 1 < n)%Z ->
  (t + 1 <> s mod n)%Z ->
  ((t + 1 - s) mod n = (t - s) mod n + 1)%Z.
Proof.
  intros Hn Ht Htn Hseam.
  assert (Hr : (0 <= (t - s) mod n < n)%Z) by (apply Z.mod_pos_bound; lia).
  replace (t + 1 - s)%Z with ((t - s) + 1)%Z by lia.
  rewrite <- Zplus_mod_idemp_l.
  destruct (Z.eq_dec ((t - s) mod n + 1) n) as [Heq | Hne].
  - exfalso. apply Hseam.
    assert (Hdiv : ((t + 1 - s) mod n = 0)%Z).
    { replace (t + 1 - s)%Z with ((t - s) + 1)%Z by lia.
      rewrite <- Zplus_mod_idemp_l, Heq. apply Z_mod_same_full. }
    apply Z.mod_divide in Hdiv; [| lia]. destruct Hdiv as [q Hq].
    replace s with ((t + 1) + (- q) * n)%Z by lia.
    rewrite Z.mod_add by lia. rewrite Z.mod_small by lia. reflexivity.
  - apply Z.mod_small. lia.
Qed.

Lemma roll_source_seam (t s n : Z) :
  (0 < n)%Z -> (0 <= t)%Z -> (t + 1 < n)%Z ->
  (t + 1 = s mod n)%Z ->
  ((t - s) mod n = n - 1 /\ (t + 1 - s) mod n = 0)%Z.
Proof.
  intros Hn Ht Htn Hseam.
  assert (H0 : ((t + 1 - s) mod n = 0)%Z).
  { rewrite Zminus_mod, <- Hseam.
    rewrite (Z.mod_small (t + 1) n) by lia.
    rewrite Z.sub_diag. apply Z.mod_0_l. lia. }
  split; [| exact H0].
  replace (t - s)%Z with ((t + 1 - s) + (n - 1) + (-1) * n)%Z by lia.
  rewrite Z.mod_add by lia.
  rewrite <- Zplus_mod_idemp_l, H0. apply Z.mod_small. lia.
Qed.

(** Row [b] of the stacked batch, read at time [t]. *)
Lemma rolled_row_nth (l : list T) (B : Z) (b t : nat) :
  b < Z.to_nat B ->
  t < length l ->
  get2 {| nrows := Z.to_nat B; ncols := length l;
          rows2 := map (fun i => torch_roll l (100 * i)) (py_range B) |} b t =
  nth_error l (Z.to_nat ((Z.of_nat t - 100 * Z.of_nat b) mod Z.of_nat (length l))).
Proof.
  intros Hb Ht. unfold get2. cbn [rows2].
  rewrite nth_error_map, py_range_nth by exact Hb. cbn [option_map].
  apply torch_roll_nth. exact Ht.
Qed.

(** Where the elements of the dataset come from.  Without noise, the
    input of batch element [b] at time [t] is the sample of the signal at
    position [(t - 100*b) mod (L-1)], and the target is the sample that
    follows it. *)
Lemma dataset_elements (cfg : config T) (w : world T Lib) :
  (1 < SEQ_LEN cfg)%Z ->
  (1 <= BATCH_SIZE cfg)%Z ->
  exists x y_in y_out w',
    torch_linspace f_zero f_8pi (SEQ_LEN cfg) = Ok x /\
    length x = Z.to_nat (SEQ_LEN cfg) /\
    make_dataset cfg w = (Ok (y_in, y_out), w') /\
    shape3 y_in = (Z.to_nat (SEQ_LEN cfg - 1), Z.to_nat (BATCH_SIZE cfg), 1) /\
    shape3 y_out = (Z.to_nat (SEQ_LEN cfg - 1), Z.to_nat (BATCH_SIZE cfg), 1) /\
    wf3 y_in /\ wf3 y_out /\
    (NOISE cfg = f_zero -> zero_laws T ->
     forall b t : nat,
       b < Z.to_nat (BATCH_SIZE cfg) ->
       t < Z.to_nat (SEQ_LEN cfg - 1) ->
       let source :=
         Z.to_nat ((Z.of_nat t - 100 * Z.of_nat b) mod (SEQ_LEN cfg - 1)) in
       get3 y_in t b 0 = nth_error (map signal x) source /\
       get3 y_out t b 0 = nth_error (map signal x) (1 + source)).
Proof.
  intros HL HB.
  destruct (make_dataset_ok cfg w)
    as [x [ins [outs [w' [Hx [Hlx [Hrun [_ [Hli [Hlo [Hfi [Hfo Hz]]]]]]]]]]]];
    [lia | lia |].
  set (n := Z.to_nat (SEQ_LEN cfg) - 1) in *.
  assert (Hn : Z.to_nat (SEQ_LEN cfg - 1) = n) by (unfold n; lia).
  assert (Hwi : wf2 {| nrows := Z.to_nat (BATCH_SIZE cfg); ncols := n; rows2 := ins |})
    by (split; assumption).
  assert (Hwo : wf2 {| nrows := Z.to_nat (BATCH_SIZE cfg); ncols := n; rows2 := outs |})
    by (split; assumption).
  eexists x, _, _, w'. split; [exact Hx |]. split; [exact Hlx |].
  split; [exact Hrun |].
  rewrite Hn.
  split; [reflexivity |]. split; [reflexivity |].
  split; [apply wf3_unsqueeze, wf2_transpose, Hwi |].
  split; [apply wf3_unsqueeze, wf2_transpose, Hwo |].
  intros Hnoise Hlaws b t Hb Ht. cbv zeta.
  destruct (Hz Hnoise Hlaws) as [-> ->]. clear Hz.
  set (y := map signal x) in *.
  assert (Hy : length y = S n) by (unfold y, n; rewrite length_map; lia).
  assert (Hin : length (firstn n y) = n) by (rewrite length_firstn; lia).
  assert (Hout : length (skipn 1 y) = n) by (rewrite length_skipn; lia).
  rewrite !get3_unsqueeze_transpose by assumption.
  replace (SEQ_LEN cfg - 1)%Z with (Z.of_nat n) by lia.
  assert (Hr : (0 <= (Z.of_nat t - 100 * Z.of_nat b) mod Z.of_nat n < Z.of_nat n)%Z)
    by (apply Z.mod_pos_bound; lia).
  split.
  - pose proof (@rolled_row_nth (firstn n y) (BATCH_SIZE cfg) b t Hb) as H.
    rewrite Hin in H. rewrite H by exact Ht.
    rewrite nth_error_firstn.
    destruct (Nat.ltb_spec
                (Z.to_nat ((Z.of_nat t - 100 * Z.of_nat b) mod Z.of_nat n)) n);
      [reflexivity | lia].
  - pose proof (@rolled_row_nth (skipn 1 y) (BATCH_SIZE cfg) b t Hb) as H.
    rewrite Hout in H. rewrite H by exact Ht. apply nth_error_skipn.
Qed.

(** C1, as the code has it.  For every sequence length [L > 1] and batch
    size [B >= 1] the dataset construction returns an input and a target
    array of shape (L-1, B, 1).  Without noise, the target at time [t]
    equals the input at time [t+1] for every batch element [b] and every
    [t] with [t+1 < L-1], except at the one position [t+1 = (100*b) mod
    (L-1)] where the roll wraps around: there the target is the last sample
    of the signal and the input is its first sample. *)
Theorem dataset_shape_and_shift (cfg : config T) (w : world T Lib) :
  (1 < SEQ_LEN cfg)%Z ->
  (1 <= BATCH_SIZE cfg)%Z ->
  exists x y_in y_out w',
    torch_linspace f_zero f_8pi (SEQ_LEN cfg) = Ok x /\
    make_dataset cfg w = (Ok (y_in, y_out), w') /\
    shape3 y_in = (Z.to_nat (SEQ_LEN cfg - 1), Z.to_nat (BATCH_SIZE cfg), 1) /\
    shape3 y_out = (Z.to_nat (SEQ_LEN cfg - 1), Z.to_nat (BATCH_SIZE cfg), 1) /\
    wf3 y_in /\ wf3 y_out /\
    (NOISE cfg = f_zero -> zero_laws T ->
     forall b t : nat,
       b < Z.to_nat (BATCH_SIZE cfg) ->
       t + 1 < Z.to_nat (SEQ_LEN cfg - 1) ->
       (Z.of_nat t + 1 <> (100 * Z.of_nat b) mod (SEQ_LEN cfg - 1) ->
        exists v, get3 y_out t b 0 = Some v /\ get3 y_in (t + 1) b 0 = Some v)%Z /\
       (Z.of_nat t + 1 = (100 * Z.of_nat b) mod (SEQ_LEN cfg - 1) ->
        get3 y_out t b 0 = nth_error (map signal x) (Z.to_nat (SEQ_LEN cfg - 1)) /\
        get3 y_in (t + 1) b 0 = nth_error (map signal x) 0)%Z).
Proof.
  intros HL HB.
  destruct (dataset_elements cfg w HL HB)
    as [x [y_in [y_out [w' [Hx [Hlx [Hrun [Hsi [Hso [Hwi [Hwo Hel]]]]]]]]]]].
  exists x, y_in, y_out, w'. repeat (split; [assumption |]).
  intros Hnoise Hlaws b t Hb Ht.
  destruct (Hel Hnoise Hlaws b t Hb) as [_ Hout]; [lia |].
  destruct (Hel Hnoise Hlaws b (t + 1) Hb) as [Hin _]; [lia |].
  cbv zeta in Hout, Hin. rewrite Hout, Hin. clear Hout Hin Hel.
  set (n := (SEQ_LEN cfg - 1)%Z) in *.
  set (s := (100 * Z.of_nat b)%Z).
  assert (Hr : (0 <= (Z.of_nat t - s) mod n < n)%Z)
    by (apply Z.mod_pos_bound; lia).
  replace (Z.of_nat (t + 1)) with (Z.of_nat t + 1)%Z by lia.
  split; intros Hseam.
  - rewrite (@roll_source_succ (Z.of_nat t) s n) by lia.
    replace (Z.to_nat ((Z.of_nat t - s) mod n + 1))
      with (1 + Z.to_nat ((Z.of_nat t - s) mod n)) by lia.
    destruct (nth_error (map signal x) (1 + Z.to_nat ((Z.of_nat t - s) mod n)))
      as [v |] eqn:Hv.
    + exists v. split; reflexivity.
    + apply nth_error_None in Hv. rewrite length_map in Hv. lia.
  - destruct (@roll_source_seam (Z.of_nat t) s n) as [H1 H2]; try lia.
    rewrite H1, H2. split; f_equal; lia.
Qed.

(** The shift holds at the wrap-around position too exactly when the
    signal closes on itself, that is when its last sample equals its
    first one: the construction does not make it so, the arithmetic
    decides. *)
Remark shift_at_seam_iff_signal_closes (cfg : config T) (w : world T Lib) :
  (1 < SEQ_LEN cfg)%Z ->
  (1 <= BATCH_SIZE cfg)%Z ->
  NOISE cfg = f_zero ->
  zero_laws T ->
  exists x y_in y_out w',
    torch_linspace f_zero f_8pi (SEQ_LEN cfg) = Ok x /\
    make_dataset cfg w = (Ok (y_in, y_out), w') /\
    forall b t : nat,
      b < Z.to_nat (BATCH_SIZE cfg) ->
      t + 1 < Z.to_nat (SEQ_LEN cfg - 1) ->
      (Z.of_nat t + 1 = (100 * Z.of_nat b) mod (SEQ_LEN cfg - 1))%Z ->
      (get3 y_out t b 0 = get3 y_in (t + 1) b 0 <->
       nth_error (map signal x) (Z.to_nat (SEQ_LEN cfg - 1)) =
       nth_error (map signal x) 0).
Proof.
  intros HL HB Hnoise Hlaws.
  destruct (dataset_elements cfg w HL HB)
    as [x [y_in [y_out [w' [Hx [Hlx [Hrun [_ [_ [_ [_ Hel]]]]]]]]]]].
  exists x, y_in, y_out, w'. split; [exact Hx |]. split; [exact Hrun |].
  intros b t Hb Ht Hseam.
  destruct (Hel Hnoise Hlaws b t Hb) as [_ Hout]; [lia |].
  destruct (Hel Hnoise Hlaws b (t + 1) Hb) as [Hin _]; [lia |].
  cbv zeta in Hout, Hin. rewrite Hout, Hin.
  destruct (@roll_source_seam (Z.of_nat t) (100 * Z.of_nat b) (SEQ_LEN cfg - 1))
    as [H1 H2]; try lia.
  replace (Z.of_nat (t + 1)) with (Z.of_nat t + 1)%Z by lia.
  rewrite H1, H2.
  replace (1 + Z.to_nat (SEQ_LEN cfg - 1 - 1)) with (Z.to_nat (SEQ_LEN cfg - 1)) by lia.
  reflexivity.
Qed.

End DatasetClaims.

Lemma tagged_zero_laws (last : Z) : @zero_laws Z (Tagged.tagged_float last).
Proof. split; intros; simpl; lia. Qed.

Lemma decimal_zero_laws : @zero_laws Decimal.dfloat Decimal.decimal_float.
Proof. split; intros; reflexivity. Qed.

(** The theorem applied to the script's own configuration: the shapes are
    (500, 5, 1), and away from the wrap-around position the target is the
    next input. *)
Lemma dataset_shape_and_shift_witness :
  exists x y_in y_out w',
    @torch_linspace Z (Tagged.tagged_float 500) 0%Z 500%Z 501 = Ok x /\
    @make_dataset Z nat unit (Tagged.tagged_float 500) (Tagged.library 500)
                  Tagged.script start = (Ok (y_in, y_out), w') /\
    shape3 y_in = (500, 5, 1) /\
    shape3 y_out = (500, 5, 1) /\
    (exists v, get3 y_out 7 1 0 = Some v /\ get3 y_in 8 1 0 = Some v).
Proof.
  destruct (@dataset_shape_and_shift Z nat unit (Tagged.tagged_float 500)
              (Tagged.library 500) Tagged.script start)
    as [x [y_in [y_out [w' [Hx [Hrun [Hi [Ho [_ [_ Hshift]]]]]]]]]].
  - simpl. lia.
  - simpl. lia.
  - exists x, y_in, y_out, w'. repeat split; try assumption.
    destruct (Hshift eq_refl (tagged_zero_laws 500) 1 7) as [Hnext _].
    + simpl. lia.
    + simpl. lia.
    + apply Hnext. vm_compute. lia.
Defined.

(** C1 as stated fails in the script's own configuration (L = 501,
    B = 5, no noise), for batch element 1 at time 99.  With the samples
    tagged by their index, the target at time 99 is sample 500 of the
    signal, the last one, while the input at time 100 is sample 0.  In
    the seven-digit decimal arithmetic the two samples differ: the last
    one is the signal at the rounded value of 8*pi, 0.4999988, the first
    one is 0.5. *)
Lemma target_differs_from_next_input_at_seam :
  (1 < 5 /\ 99 + 1 < 501 - 1) /\
  match @dataset Z (Tagged.tagged_float 500) Tagged.script with
  | Ok (y_in, y_out) =>
      get3 y_out 99 1 0 = Some 500%Z /\
      get3 y_in (99 + 1) 1 0 = Some 0%Z
  | Raise _ => False
  end /\
  exists y_in y_out w',
    @make_dataset Decimal.dfloat nat unit Decimal.decimal_float Decimal.library
                  Decimal.script start = (Ok (y_in, y_out), w') /\
    get3 y_out 99 1 0 =
      Some {| Decimal.mantissa := 4999988; Decimal.exponent := -7 |} /\
    get3 y_in (99 + 1) 1 0 =
      Some {| Decimal.mantissa := 5000000; Decimal.exponent := -7 |} /\
    get3 y_out 99 1 0 <> get3 y_in (99 + 1) 1 0.
Proof.
  split; [lia |]. split; [vm_compute; split; reflexivity |].
  destruct (@dataset_elements Decimal.dfloat nat unit Decimal.decimal_float
              Decimal.library Decimal.script start)
    as [x [y_in [y_out [w' [Hx [_ [Hrun [_ [_ [_ [_ Hel]]]]]]]]]]].
  - reflexivity.
  - discriminate.
  - exists y_in, y_out, w'. split; [exact Hrun |].
    destruct (Hel eq_refl decimal_zero_laws 1 99) as [_ Hout];
      [vm_compute; lia | vm_compute; lia |].
    destruct (Hel eq_refl decimal_zero_laws 1 (99 + 1)) as [Hin _];
      [vm_compute; lia | vm_compute; lia |].
    clear Hel. cbv zeta in Hout, Hin.
    vm_compute in Hx. injection Hx as <-.
    rewrite nth_error_map in Hout, Hin.
    rewrite Hout, Hin. vm_compute. repeat split; discriminate.
Qed.

(** ** Batch elements are cyclic shifts of one another (C2) *)

Section BatchClaims.

Context {T Lib St : Type} {F : Float T} {L : Library T Lib St}.

(** C2.  Without noise, for every batch index [i] with [0 <= i < B], the
    input sequence of batch element [i] is the input sequence of batch
    element 0, which holds the first [L-1] samples of the signal, rolled
    by [100*i] positions with wrap-around: its element at time [t] is the
    element of batch element 0 at time [(t - 100*i) mod (L-1)]. *)
Theorem batch_element_is_rolled_base (cfg : config T) (w : world T Lib) :
  (0 <= SEQ_LEN cfg)%Z ->
  (1 <= BATCH_SIZE cfg)%Z ->
  NOISE cfg = f_zero ->
  zero_laws T ->
  exists x y_in y_out w',
    torch_linspace f_zero f_8pi (SEQ_LEN cfg) = Ok x /\
    make_dataset cfg w = (Ok (y_in, y_out), w') /\
    let base := firstn (Z.to_nat (SEQ_LEN cfg) - 1) (map signal x) in
    select_col y_in 0 0 = Ok base /\
    forall i : nat,
      i < Z.to_nat (BATCH_SIZE cfg) ->
      select_col y_in i 0 = Ok (torch_roll base (100 * Z.of_nat i)) /\
      forall t : nat,
        t < Z.to_nat (SEQ_LEN cfg) - 1 ->
        get3 y_in t i 0 =
        get3 y_in (Z.to_nat ((Z.of_nat t - 100 * Z.of_nat i)
                             mod (SEQ_LEN cfg - 1))) 0 0.
Proof.
  intros HL HB Hnoise Hlaws.
  destruct (make_dataset_ok cfg w HL HB)
    as [x [ins [outs [w' [Hx [Hlx [Hrun [_ [Hli [Hlo [Hfi [Hfo Hz]]]]]]]]]]]].
  destruct (Hz Hnoise Hlaws) as [-> ->]. clear Hz.
  set (n := Z.to_nat (SEQ_LEN cfg) - 1) in *.
  set (base := firstn n (map signal x)) in *.
  assert (Hbase : length base = n).
  { unfold base, n. rewrite length_firstn, length_map. lia. }
  assert (Hwf : wf2 {| nrows := Z.to_nat (BATCH_SIZE cfg); ncols := n;
                       rows2 := map (fun i => torch_roll base (100 * i))
                                    (py_range (BATCH_SIZE cfg)) |})
    by (split; assumption).
  assert (Hrow : forall i, i < Z.to_nat (BATCH_SIZE cfg) ->
            nth_error (map (fun i => torch_roll base (100 * i))
                           (py_range (BATCH_SIZE cfg))) i =
            Some (torch_roll base (100 * Z.of_nat i))).
  { intros i Hi. now rewrite nth_error_map, py_range_nth by exact Hi. }
  eexists x, _, _, w'. split; [exact Hx |]. split; [exact Hrun |].
  cbv zeta. split.
  - apply select_col_unsqueeze_transpose; [exact Hwf |]. cbn [rows2].
    rewrite (Hrow 0) by lia. f_equal. apply torch_roll_0.
  - intros i Hi. split.
    + apply select_col_unsqueeze_transpose; [exact Hwf |]. cbn [rows2].
      now apply Hrow.
    + intros t Ht.
      assert (Hr : (0 <= (Z.of_nat t - 100 * Z.of_nat i) mod Z.of_nat n < Z.of_nat n)%Z)
        by (apply Z.mod_pos_bound; lia).
      replace (SEQ_LEN cfg - 1)%Z with (Z.of_nat n) by lia.
      rewrite !get3_unsqueeze_transpose by exact Hwf.
      unfold get2. cbn [rows2].
      rewrite (Hrow i Hi), (Hrow 0) by lia.
      rewrite torch_roll_0, torch_roll_nth by lia.
      now rewrite Hbase.
Qed.

End BatchClaims.

(** The theorem applied to the script's own configuration, with the
    samples tagged by their index: batch element 1 is batch element 0
    rolled by 100 positions. *)
Lemma batch_element_is_rolled_base_witness :
  exists y_in y_out w' base,
    @make_dataset Z nat unit (Tagged.tagged_float 500) (Tagged.library 500)
                  Tagged.script start = (Ok (y_in, y_out), w') /\
    select_col y_in 0 0 = Ok base /\
    select_col y_in 1 0 = Ok (torch_roll base 100).
Proof.
  destruct (@batch_element_is_rolled_base Z nat unit (Tagged.tagged_float 500)
              (Tagged.library 500) Tagged.script start)
    as [x [y_in [y_out [w' [Hx [Hrun [Hbase Hroll]]]]]]].
  - simpl. lia.
  - simpl. lia.
  - reflexivity.
  - apply tagged_zero_laws.
  - exists y_in, y_out, w'. eexists. split; [exact Hrun |].
    split; [exact Hbase |].
    destruct (Hroll 1) as [H1 _]; [simpl; lia |]. exact H1.
Defined.

(** ** Sequence lengths of at most one (C3) *)

Section ShortSequences.

Context {T Lib St : Type} {F : Float T} {L : Library T Lib St}.

(** C3, as the code has it.  The script has no check of the sequence
    length.  For [L = 0] and [L = 1] (and [B >= 1]) the dataset
    construction returns normally, with empty input and target arrays of
    shape (0, B, 1); for [L < 0] the call of [torch.linspace] raises a
    RuntimeError.  No exception of class InvalidSequenceLength is raised
    for any sequence length. *)
Theorem short_sequence_not_rejected (cfg : config T) (w : world T Lib) :
  ((0 <= SEQ_LEN cfg <= 1)%Z -> (1 <= BATCH_SIZE cfg)%Z ->
   exists y_in y_out w',
     make_dataset cfg w = (Ok (y_in, y_out), w') /\
     shape3 y_in = (0, Z.to_nat (BATCH_SIZE cfg), 1) /\
     shape3 y_out = (0, Z.to_nat (BATCH_SIZE cfg), 1) /\
     cells3 y_in = [] /\ cells3 y_out = []) /\
  ((SEQ_LEN cfg < 0)%Z ->
   make_dataset cfg w =
   (Raise (Exn "RuntimeError" "number of steps must be non-negative"), w)) /\
  (forall e w', make_dataset cfg w = (Raise e, w') ->
                exn_class e = "RuntimeError"%string).
Proof.
  split; [| split].
  - intros HL HB.
    destruct (make_dataset_ok cfg w)
      as [x [ins [outs [w' [_ [_ [Hrun _]]]]]]]; [lia | lia |].
    replace (Z.to_nat (SEQ_LEN cfg) - 1) with 0 in Hrun by lia.
    eexists _, _, w'. split; [exact Hrun |]. repeat split.
  - intros HL. unfold make_dataset.
    rewrite torch_linspace_negative by exact HL. reflexivity.
  - intros e w' Hrun.
    destruct (Z.ltb_spec (SEQ_LEN cfg) 0) as [Hneg | Hpos].
    + unfold make_dataset in Hrun.
      rewrite torch_linspace_negative in Hrun by exact Hneg.
      unfold bind, of_result in Hrun. injection Hrun as <- _. reflexivity.
    + destruct (torch_linspace_ok f_zero f_8pi Hpos) as [x [Hx Hlx]].
      unfold make_dataset in Hrun. rewrite Hx in Hrun.
      unfold bind at 1, of_result at 1 in Hrun.
      match type of Hrun with
      | context [batch_loop ?n ?a ?b ?idx [] []] =>
          destruct (batch_loop_ok n a b idx [] [] w)
            as [ins [outs [w1 [Hloop _]]]]
      end.
      unfold bind at 1 in Hrun. rewrite Hloop in Hrun. cbn [app] in Hrun.
      unfold bind, of_result, ret in Hrun.
      destruct ins as [| r1 ins]; [injection Hrun as <- _; reflexivity |].
      unfold torch_stack at 1 in Hrun.
      destruct (forallb _ ins); [| injection Hrun as <- _; reflexivity].
      destruct outs as [| r2 outs]; [injection Hrun as <- _; reflexivity |].
      unfold torch_stack at 1 in Hrun.
      destruct (forallb _ outs); [discriminate | injection Hrun as <- _; reflexivity].
Qed.

End ShortSequences.

(** The theorem applied to the sequence length 1. *)
Lemma short_sequence_not_rejected_witness :
  exists y_in y_out w',
    @make_dataset Z nat unit (Tagged.tagged_float 0) (Tagged.library 0)
                  (Tagged.with_length 1) start = (Ok (y_in, y_out), w') /\
    shape3 y_in = (0, 5, 1) /\ shape3 y_out = (0, 5, 1).
Proof.
  destruct (@short_sequence_not_rejected Z nat unit (Tagged.tagged_float 0)
              (Tagged.library 0) (Tagged.with_length 1) start)
    as [Hshort _].
  destruct Hshort as [y_in [y_out [w' [Hrun [Hi [Ho _]]]]]].
  - simpl. lia.
  - simpl. lia.
  - exists y_in, y_out, w'. repeat split; assumption.
Defined.

(** C3 as stated fails: with [L = 1] (and the script's batch size) the
    dataset construction raises nothing and returns two empty arrays. *)
Lemma no_invalid_sequence_length_error :
  (SEQ_LEN (Tagged.with_length 1) <= 1)%Z /\
  @dataset Z (Tagged.tagged_float 0) (Tagged.with_length 1) =
    Ok ({| dim0 := 0; dim1 := 5; dim2 := 1; cells3 := [] |},
        {| dim0 := 0; dim1 := 5; dim2 := 1; cells3 := [] |}) /\
  (forall msg,
     @dataset Z (Tagged.tagged_float 0) (Tagged.with_length 1) <>
     Raise (Exn "InvalidSequenceLength" msg)).
Proof.
  split; [vm_compute; discriminate |]. split; [vm_compute; reflexivity |].
  intros msg. vm_compute. discriminate.
Qed.

(** ** The forward methods (C6) *)

Section Forward.

Context {T Lib St : Type} {F : Float T} {L : Library T Lib St}.

Lemma forward_run (rpu : rpu_config_t) (c : model_class) (x : tensor3 T)
      (in_states : option St) (w : world T Lib) :
  forward (init rpu c) x in_states w =
  (Ok (fst (forward_result (init rpu c) x in_states (lib w))),
   {| lib := snd (forward_result (init rpu c) x in_states (lib w));
      cwd := cwd w;
      trace := trace w ++ map ev_layer (layer_order (init rpu c)) |}).
Proof.
  destruct c; unfold forward; cbn [init class_of];
    unfold forward_AnalogBidirRNNNetwork, forward_AnalogBidirRNNNetwork_noEmbedding,
           forward_AnalogRNNNetwork, forward_AnalogRNNNetwork_noEmbedding,
           get_embedding, apply_linear, apply_dropout, apply_rnn,
           forward_result, embed_result, decode_result, layer_order;
    cbn [embedding dropout rnn decoder];
    unfold bind, ret, emit, call, of_result;
    cbn [lib cwd trace fst snd map];
    destruct (rnn_forward _ _ _ _) as [[out st] l1];
    cbn [lib cwd trace fst snd];
    rewrite <- ?app_assoc; reflexivity.
Qed.

Lemma model_call_run (rpu : rpu_config_t) (c : model_class) (x : tensor3 T)
      (w : world T Lib) :
  model_call (init rpu c) x w =
  (Ok (fst (forward_result (init rpu c) x None (lib w))),
   {| lib := snd (forward_result (init rpu c) x None (lib w));
      cwd := cwd w;
      trace := trace w ++ model_events (init rpu c) x |}).
Proof.
  unfold model_call, bind at 1, emit at 1. rewrite forward_run.
  cbn [lib cwd trace]. unfold model_events.
  now rewrite <- app_assoc.
Qed.

(** C6, as the code has it.  Each of the four classes computes its
    forward pass as: in the two classes with an embedding, the embedding
    projection followed by dropout; then the recurrent layer; then the
    linear decoder, to one output channel, followed by dropout.  The
    method takes an input sequence and an optional prior recurrent state
    and returns the pair of the output sequence and the recurrent layer's
    final state; [model(x)] calls it with no prior state. *)
Theorem forward_pipeline_of_code (rpu : rpu_config_t) (c : model_class)
        (x : tensor3 T) (in_states : option St) (w : world T Lib) :
  let self := init rpu c in
  let embedded :=
    match embedding self with
    | Some e =>
        let projected := linear_forward self_embedding e x (lib w) in
        dropout_forward (dropout self) (fst projected) (snd projected)
    | None => (x, lib w)
    end in
  let recurrent := rnn_forward (rnn self) (fst embedded) in_states (snd embedded) in
  let decoded :=
    linear_forward self_decoder (decoder self) (fst (fst recurrent)) (snd recurrent) in
  let dropped := dropout_forward (dropout self) (fst decoded) (snd decoded) in
  forward self x in_states w =
    (Ok (fst dropped, snd (fst recurrent)),
     {| lib := snd dropped; cwd := cwd w;
        trace := trace w ++ map ev_layer (layer_order self) |}) /\
  (embedding self <> None <->
   c = AnalogBidirRNNNetwork \/ c = AnalogRNNNetwork) /\
  out_features (decoder self) = 1 /\
  model_call self x w =
    (let after := forward self x None
                    {| lib := lib w; cwd := cwd w; trace := trace w ++ [ev_model x] |} in
     after).
Proof.
  cbv zeta. split; [| split; [| split]].
  - rewrite forward_run. reflexivity.
  - destruct c; cbn [init embedding]; split; intros H;
      try congruence; try (now left); try (now right);
      try (destruct H; discriminate).
  - destruct c; reflexivity.
  - reflexivity.
Qed.

(** The shape of the prediction: that of the input, with one channel. *)
Lemma forward_shape (rpu : rpu_config_t) (c : model_class) (x : tensor3 T)
      (in_states : option St) (l : Lib) :
  shape_contract ->
  dim2 x = INPUT_SIZE ->
  shape3 (fst (fst (forward_result (init rpu c) x in_states l))) =
  (dim0 x, dim1 x, OUTPUT_SIZE).
Proof.
  intros [Hlin Hrnn Hdrop] Hx.
  unfold forward_result, decode_result. cbv zeta. cbn [fst snd].
  rewrite Hdrop.
  set (e := embed_result (init rpu c) x l).
  assert (He : dim0 (fst e) = dim0 x /\ dim1 (fst e) = dim1 x /\
               dim2 (fst e) = input_size (rnn (init rpu c))).
  { unfold e, embed_result.
    destruct c; cbn [init embedding dropout rnn make_rnn input_size].
    all: try (repeat split; exact Hx).
    all: match goal with
         | |- context [linear_forward self_embedding ?c0 ?x0 ?l0] =>
             pose proof (Hlin self_embedding c0 x0 l0 Hx) as H1;
             pose proof (Hdrop DROPOUT_RATIO
                               (fst (linear_forward self_embedding c0 x0 l0))
                               (snd (linear_forward self_embedding c0 x0 l0))) as H2
         end;
         rewrite H1 in H2; unfold shape3 in H2; injection H2 as -> -> ->;
         repeat split. }
  destruct He as [He0 [He1 He2]].
  pose proof (Hrnn (rnn (init rpu c)) (fst e) in_states (snd e) He2) as Hr.
  set (r := rnn_forward (rnn (init rpu c)) (fst e) in_states (snd e)) in *.
  assert (Hr2 : dim2 (fst (fst r)) = in_features (decoder (init rpu c))).
  { unfold shape3 in Hr. injection Hr as _ _ ->. destruct c; reflexivity. }
  rewrite (Hlin self_decoder (decoder (init rpu c)) (fst (fst r)) (snd r) Hr2).
  unfold shape3 in Hr. injection Hr as -> -> _.
  rewrite He0, He1. destruct c; reflexivity.
Qed.

End Forward.

(** C6 as stated fails: the pipeline of the specification applies dropout
    between the recurrent layer and the decoder, the code applies it to
    the output of the decoder (and, in the classes with an embedding, to
    the output of the embedding).  The calls of the two differ for each
    of the four classes; they are shown for the class the script selects
    and for the smallest one. *)
Lemma forward_differs_from_pipeline_of_spec :
  let run (f : network -> tensor3 Z -> option unit -> Run Z nat (tensor3 Z * unit))
          (c : model_class) :=
    trace (snd (f (init (make_rpu_config false) c) Tagged.inputs None
                  start)) in
  run (@forward Z nat unit (Tagged.library 4)) AnalogBidirRNNNetwork =
    map ev_layer [self_embedding; self_dropout; self_rnn; self_decoder; self_dropout] /\
  run (@pipeline_of_spec Z nat unit (Tagged.library 4)) AnalogBidirRNNNetwork =
    map ev_layer [self_embedding; self_rnn; self_dropout; self_decoder] /\
  run (@forward Z nat unit (Tagged.library 4)) AnalogRNNNetwork_noEmbedding =
    map ev_layer [self_rnn; self_decoder; self_dropout] /\
  run (@pipeline_of_spec Z nat unit (Tagged.library 4)) AnalogRNNNetwork_noEmbedding =
    map ev_layer [self_rnn; self_dropout; self_decoder] /\
  (forall c,
     @forward Z nat unit (Tagged.library 4)
              (init (make_rpu_config false) c) Tagged.inputs None start <>
     @pipeline_of_spec Z nat unit (Tagged.library 4)
              (init (make_rpu_config false) c) Tagged.inputs None start).
Proof.
  cbv zeta. repeat split; try (vm_compute; reflexivity).
  intros c H. apply (f_equal (fun r => trace (snd r))) in H.
  destruct c; vm_compute in H; discriminate.
Qed.

(** ** The training loop (C4, C9) *)

Section Training.

Context {T Lib St : Type} {F : Float T} {L : Library T Lib St}.

Variable rpu : rpu_config_t.
Variable c : model_class.
Variables y_in y_out : tensor3 T.

Local Abbreviation model := (init rpu c).

Lemma epoch_run (i : Z) (losses : list T) (w : world T Lib) :
  epoch model y_in y_out i losses w =
  (Ok (losses ++ [epoch_loss model y_in y_out (lib w)]),
   {| lib := epoch_lib model y_in y_out (lib w);
      cwd := cwd w;
      trace := trace w ++ epoch_events model y_in y_out i (lib w) |}).
Proof.
  unfold epoch.
  unfold bind at 1, emit at 1. unfold bind at 1, update at 1.
  unfold bind at 1. rewrite model_call_run. cbn [lib cwd trace].
  unfold epoch_events, epoch_lib, epoch_loss, prediction.
  destruct (forward_result model y_in None (zero_grad (lib w))) as [[pred st] l1].
  unfold criterion, print, bind, emit, update, ret. cbn [lib cwd trace fst snd].
  rewrite <- !app_assoc. reflexivity.
Qed.

Lemma train_loop_run (count : nat) :
  forall (first : nat) (losses : list T) (w : world T Lib),
    train_loop model y_in y_out (map Z.of_nat (seq first count)) losses w =
    (Ok (losses ++ losses_from model y_in y_out count (lib w)),
     {| lib := lib_after_epochs model y_in y_out count (lib w);
        cwd := cwd w;
        trace := trace w ++ events_from model y_in y_out first count (lib w) |}).
Proof.
  induction count as [| count IH]; intros first losses w.
  - cbn [seq map train_loop losses_from lib_after_epochs events_from].
    unfold ret. rewrite !app_nil_r. destruct w; reflexivity.
  - cbn [seq map train_loop losses_from lib_after_epochs events_from].
    unfold bind. rewrite epoch_run, IH. cbn [lib cwd trace].
    rewrite <- !app_assoc. reflexivity.
Qed.

Lemma train_run (epochs : Z) (w : world T Lib) :
  train model y_in y_out epochs w =
  (Ok (losses_from model y_in y_out (Z.to_nat epochs) (lib w)),
   {| lib := lib_after_epochs model y_in y_out (Z.to_nat epochs) (lib w);
      cwd := cwd w;
      trace := trace w ++
               events_from model y_in y_out 0 (Z.to_nat epochs) (lib w) |}).
Proof.
  unfold train, py_range. now rewrite train_loop_run.
Qed.

Lemma losses_from_length (count : nat) (l : Lib) :
  length (losses_from model y_in y_out count l) = count.
Proof.
  revert l. induction count as [| count IH]; intros l; simpl; [| rewrite IH];
    reflexivity.
Qed.

Lemma lib_after_epochs_succ (k : nat) (l : Lib) :
  lib_after_epochs model y_in y_out (S k) l =
  epoch_lib model y_in y_out (lib_after_epochs model y_in y_out k l).
Proof.
  revert l. induction k as [| k IH]; intros l; [reflexivity |].
  change (lib_after_epochs model y_in y_out (S (S k)) l)
    with (lib_after_epochs model y_in y_out (S k) (epoch_lib model y_in y_out l)).
  rewrite IH. reflexivity.
Qed.

Lemma losses_from_nth (count i : nat) (l : Lib) :
  i < count ->
  nth_error (losses_from model y_in y_out count l) i =
  Some (epoch_loss model y_in y_out (lib_after_epochs model y_in y_out i l)).
Proof.
  revert i l. induction count as [| count IH]; intros i l Hi; [lia |].
  destruct i as [| i]; [reflexivity |].
  cbn [losses_from nth_error lib_after_epochs]. apply IH. lia.
Qed.

(** The log of [count] epochs is the sequence of the logs of the epochs,
    each started in the state the epochs before it left. *)
Lemma events_from_blocks (count : nat) (first : nat) (l : Lib) :
  events_from model y_in y_out first count l =
  flat_map (fun i => epoch_events model y_in y_out (Z.of_nat (first + i))
                                  (lib_after_epochs model y_in y_out i l))
           (seq 0 count).
Proof.
  revert first l. induction count as [| count IH]; intros first l; [reflexivity |].
  cbn [events_from seq flat_map]. rewrite IH, Nat.add_0_r. f_equal.
  rewrite <- seq_shift, !flat_map_concat_map, map_map. f_equal.
  apply map_ext. intros i. now rewrite Nat.add_succ_r.
Qed.

Lemma printed_app (a b : list (event T)) :
  printed (a ++ b) = printed a ++ printed b.
Proof. unfold printed. apply flat_map_app. Qed.

Lemma printed_epoch (i : Z) (l : Lib) :
  printed (epoch_events model y_in y_out i l) =
  [epoch_line i (f_exp (epoch_loss model y_in y_out l))].
Proof.
  unfold epoch_events, model_events. rewrite !printed_app.
  cbn [printed flat_map app].
  replace (flat_map _ (map ev_layer (layer_order model))) with (@nil (line T));
    [reflexivity |].
  induction (layer_order model); [reflexivity | assumption].
Qed.

Lemma printed_events_nth (count first i : nat) (l : Lib) :
  i < count ->
  nth_error (printed (events_from model y_in y_out first count l)) i =
  Some (epoch_line (Z.of_nat (first + i))
                   (f_exp (epoch_loss model y_in y_out
                                      (lib_after_epochs model y_in y_out i l)))).
Proof.
  revert first i l. induction count as [| count IH]; intros first i l Hi; [lia |].
  cbn [events_from]. rewrite printed_app, printed_epoch.
  destruct i as [| i].
  - now rewrite Nat.add_0_r.
  - cbn [app nth_error lib_after_epochs]. rewrite IH by lia.
    now rewrite Nat.add_succ_r.
Qed.

End Training.

Section TrainingClaims.

Context {T Lib St : Type} {L : Library T Lib St}.

Variable rpu : rpu_config_t.
Variable c : model_class.
Variables y_in y_out : tensor3 T.

Local Abbreviation model := (init rpu c).

Lemma without_prints_app (a b : list (event T)) :
  without_prints (a ++ b) = without_prints a ++ without_prints b.
Proof. unfold without_prints. apply filter_app. Qed.

Lemma without_prints_layers (layers : list attr) :
  without_prints (map (@ev_layer T) layers) = map ev_layer layers.
Proof.
  induction layers as [| a layers IH]; [reflexivity |].
  cbn [map]. unfold without_prints in *. cbn [filter is_print negb]. now rewrite IH.
Qed.

(** An epoch's log without its print does not depend on the arithmetic. *)
Lemma without_prints_epoch (F : Float T) (i : Z) (l : Lib) :
  without_prints (epoch_events model y_in y_out i l) =
  [ev_zero_grad; ev_model y_in] ++ map ev_layer (layer_order model) ++
  [ev_criterion (prediction model y_in (zero_grad l)) y_out;
   ev_backward (epoch_loss model y_in y_out l);
   ev_step;
   ev_append (epoch_loss model y_in y_out l)].
Proof.
  unfold epoch_events, model_events. cbv zeta.
  change (ev_model y_in :: map ev_layer (layer_order model))
    with ([ev_model y_in] ++ map (@ev_layer T) (layer_order model)).
  rewrite !without_prints_app, without_prints_layers. reflexivity.
Qed.

Lemma without_prints_events (F F' : Float T) (count first : nat) (l : Lib) :
  without_prints (@events_from T Lib St F L model y_in y_out first count l) =
  without_prints (@events_from T Lib St F' L model y_in y_out first count l).
Proof.
  revert first l. induction count as [| count IH]; intros first l; [reflexivity |].
  cbn [events_from]. rewrite !without_prints_app, !without_prints_epoch.
  now rewrite IH.
Qed.

Lemma losses_from_ok (finite ok_loss : T -> Prop) (count : nat) (l : Lib) :
  shape_contract ->
  loss_contract finite ok_loss ->
  dim2 y_in = INPUT_SIZE ->
  shape3 y_out = (dim0 y_in, dim1 y_in, OUTPUT_SIZE) ->
  0 < numel3 y_out ->
  Forall finite (cells_of y_in) ->
  Forall finite (cells_of y_out) ->
  Forall ok_loss (losses_from model y_in y_out count l).
Proof.
  intros Hshape [Hmse Hfin] Hd2 Hso Hnum Hfi Hfo.
  revert l. induction count as [| count IH]; intros l; constructor; [| apply IH].
  unfold epoch_loss. apply Hmse; try assumption.
  - unfold prediction. rewrite forward_shape by assumption. now rewrite Hso.
  - apply Hfin. exact Hfi.
Qed.


(** C9.  The loss at position [i] of the history is the loss of the
    prediction made in the library state the first [i] epochs left, once
    its gradients are cleared, that is before the optimizer step of epoch
    [i]; position 0 is computed in the state the loop started in.  The
    perplexity printed for epoch [i] is the exponential of that same
    value. *)
Theorem loss_recorded_before_update (F : Float T) (epochs : Z) (w : world T Lib) :
  exists losses w' new,
    train model y_in y_out epochs w = (Ok losses, w') /\
    trace w' = trace w ++ new /\
    lib_after_epochs model y_in y_out 0 (lib w) = lib w /\
    forall i : nat,
      i < Z.to_nat epochs ->
      let before := lib_after_epochs model y_in y_out i (lib w) in
      let ran := forward_result model y_in None (zero_grad before) in
      let loss := mse_loss (fst (fst ran)) y_out in
      nth_error losses i = Some loss /\
      nth_error (printed new) i = Some (epoch_line (Z.of_nat i) (f_exp loss)) /\
      lib_after_epochs model y_in y_out (S i) (lib w) =
        step (backward loss (snd ran)).
Proof.
  eexists. eexists. eexists. split; [apply train_run |].
  split; [reflexivity |]. split; [reflexivity |].
  intros i Hi. cbv zeta. split; [| split].
  - now rewrite losses_from_nth.
  - now rewrite printed_events_nth.
  - now rewrite lib_after_epochs_succ.
Qed.

End TrainingClaims.

(** ** Evaluation, drift sweep and the whole script *)

Section Phases.

Context {T Lib St : Type} {F : Float T} {L : Library T Lib St}.

Variable rpu : rpu_config_t.
Variable c : model_class.
Variables y_in y_out : tensor3 T.

Local Abbreviation model := (init rpu c).

Lemma select_col_ok (t : tensor3 T) :
  0 < dim1 t -> 0 < dim2 t -> select_col t 0 0 = Ok (column t 0 0).
Proof.
  intros H1 H2. unfold select_col.
  destruct (Nat.ltb_spec 0 (dim1 t)); [| lia].
  destruct (Nat.ltb_spec 0 (dim2 t)); [reflexivity | lia].
Qed.

Lemma prediction_shape (l : Lib) :
  shape_contract ->
  dim2 y_in = INPUT_SIZE ->
  shape3 (prediction model y_in l) = (dim0 y_in, dim1 y_in, OUTPUT_SIZE).
Proof. intros. unfold prediction. now apply forward_shape. Qed.

Lemma select_prediction_ok (l : Lib) :
  shape_contract ->
  dim2 y_in = INPUT_SIZE ->
  0 < dim1 y_in ->
  select_col (prediction model y_in l) 0 0 = Ok (column (prediction model y_in l) 0 0).
Proof.
  intros Hs Hd2 Hd1.
  pose proof (prediction_shape l Hs Hd2) as H. unfold shape3 in H.
  injection H as H0 H1 H2.
  apply select_col_ok; [lia | rewrite H2; unfold OUTPUT_SIZE; lia].
Qed.

Lemma plot_perplexity_run (RESULTS : string) (losses : list T) (w : world T Lib) :
  plot_perplexity RESULTS losses w =
  (Ok tt, {| lib := lib w; cwd := cwd w;
             trace := trace w ++ perplexity_events RESULTS losses |}).
Proof.
  unfold plot_perplexity, plt_plot, plt_savefig, bind, emit.
  cbn [lib cwd trace]. unfold perplexity_events.
  rewrite <- !app_assoc. reflexivity.
Qed.

Lemma test_run (RESULTS : string) (w : world T Lib) :
  shape_contract ->
  dim2 y_in = INPUT_SIZE ->
  0 < dim1 y_in ->
  0 < dim1 y_out ->
  0 < dim2 y_out ->
  test RESULTS model y_in y_out w =
  (Ok (prediction model y_in (eval_mode (lib w))),
   {| lib := snd (forward_result model y_in None (eval_mode (lib w)));
      cwd := cwd w;
      trace := trace w ++ test_events RESULTS model y_in y_out (lib w) |}).
Proof.
  intros Hs Hd2 Hd1 Ho1 Ho2. unfold test.
  unfold bind at 1, emit at 1. unfold bind at 1, update at 1.
  unfold bind at 1. rewrite model_call_run. cbn [lib cwd trace].
  pose proof (select_prediction_ok (eval_mode (lib w)) Hs Hd2 Hd1) as Hp.
  unfold test_events, prediction in *.
  destruct (forward_result model y_in None (eval_mode (lib w))) as [[pred st] l1].
  cbn [fst snd] in *.
  unfold criterion, print, plt_plot, plt_savefig, bind, emit, ret, of_result.
  cbn [lib cwd trace]. rewrite (select_col_ok y_out Ho1 Ho2), Hp.
  rewrite <- !app_assoc. reflexivity.
Qed.

Lemma drift_point_run (t : Z) (w : world T Lib) :
  shape_contract ->
  dim2 y_in = INPUT_SIZE ->
  0 < dim1 y_in ->
  drift_point model y_in t w =
  (Ok (prediction model y_in (drift_analog_weights t (lib w))),
   {| lib := drift_lib model y_in t (lib w);
      cwd := cwd w;
      trace := trace w ++ [ev_drift t] ++ model_events model y_in ++
               [ev_plot (column (prediction model y_in (drift_analog_weights t (lib w))) 0 0)
                        None (Some (drift_label t))] |}).
Proof.
  intros Hs Hd2 Hd1. unfold drift_point.
  unfold bind at 1, emit at 1. unfold bind at 1, update at 1.
  unfold bind at 1. rewrite model_call_run. cbn [lib cwd trace].
  pose proof (select_prediction_ok (drift_analog_weights t (lib w)) Hs Hd2 Hd1) as Hp.
  unfold drift_lib, prediction in *.
  destruct (forward_result model y_in None (drift_analog_weights t (lib w)))
    as [[pred st] l1].
  cbn [fst snd] in *.
  unfold plt_plot, bind, emit, ret, of_result.
  cbn [lib cwd trace]. rewrite Hp.
  rewrite <- !app_assoc. reflexivity.
Qed.

Lemma drift_loop_run (times : list Z) :
  shape_contract ->
  dim2 y_in = INPUT_SIZE ->
  0 < dim1 y_in ->
  forall w : world T Lib,
    drift_loop model y_in times w =
    (Ok (sweep_predictions model y_in times (lib w)),
     {| lib := sweep_lib model y_in times (lib w);
        cwd := cwd w;
        trace := trace w ++ sweep_events model y_in times (lib w) |}).
Proof.
  intros Hs Hd2 Hd1.
  induction times as [| t rest IH]; intros w.
  - cbn [drift_loop sweep_predictions sweep_lib sweep_events].
    unfold ret. rewrite app_nil_r. destruct w; reflexivity.
  - cbn [drift_loop sweep_predictions sweep_lib sweep_events].
    unfold bind at 1. rewrite drift_point_run by assumption.
    unfold bind at 1. rewrite IH. cbn [lib cwd trace]. unfold ret.
    rewrite <- !app_assoc. reflexivity.
Qed.

Lemma drift_test_run (RESULTS : string) (w : world T Lib) :
  shape_contract ->
  dim2 y_in = INPUT_SIZE ->
  0 < dim1 y_in ->
  0 < dim1 y_out ->
  0 < dim2 y_out ->
  drift_test RESULTS model y_in y_out w =
  (Ok (sweep_predictions model y_in t_inference_values (lib w)),
   {| lib := sweep_lib model y_in t_inference_values (lib w);
      cwd := cwd w;
      trace := trace w ++ drift_events RESULTS model y_in y_out (lib w) |}).
Proof.
  intros Hs Hd2 Hd1 Ho1 Ho2. unfold drift_test.
  unfold bind at 1, emit at 1. unfold bind at 1, of_result at 1.
  rewrite (select_col_ok y_out Ho1 Ho2).
  unfold bind at 1, plt_plot at 1, emit at 1.
  unfold bind at 1. rewrite drift_loop_run by assumption.
  unfold plt_savefig, bind, emit, ret. cbn [lib cwd trace].
  unfold drift_events. rewrite <- !app_assoc. reflexivity.
Qed.

End Phases.

(** ** The drift sweep (C5) *)

Section DriftClaims.

Context {T Lib St : Type} {F : Float T} {L : Library T Lib St}.

Variable rpu : rpu_config_t.
Variable c : model_class.
Variables y_in y_out : tensor3 T.

Local Abbreviation model := (init rpu c).

(** C5.  The drift test makes exactly five observations, one for each of
    the elapsed times 0, 1, 20, 1000 and 100000, in this order.  Each
    drift call acts on the library state the calls before it left, the
    forward pass of the point before included: the model is not built
    again or reset between the points.  Each prediction has the shape of
    the baseline prediction the test returns. *)
Theorem drift_sweep_contract (RESULTS : string) (w : world T Lib) :
  shape_contract ->
  dim2 y_in = INPUT_SIZE ->
  0 < dim1 y_in ->
  0 < dim1 y_out ->
  0 < dim2 y_out ->
  exists p0 p1 p2 p3 p4 w' new,
    drift_test RESULTS model y_in y_out w =
      (Ok [(0, p0); (1, p1); (20, p2); (1000, p3); (100000, p4)]%Z, w') /\
    (let l0 := drift_analog_weights 0 (lib w) in
     let l1 := drift_analog_weights 1 (snd (forward_result model y_in None l0)) in
     let l2 := drift_analog_weights 20 (snd (forward_result model y_in None l1)) in
     let l3 := drift_analog_weights 1000 (snd (forward_result model y_in None l2)) in
     let l4 := drift_analog_weights 100000 (snd (forward_result model y_in None l3)) in
     p0 = prediction model y_in l0 /\
     p1 = prediction model y_in l1 /\
     p2 = prediction model y_in l2 /\
     p3 = prediction model y_in l3 /\
     p4 = prediction model y_in l4 /\
     lib w' = snd (forward_result model y_in None l4)) /\
    trace w' = trace w ++ new /\
    drift_times new = [0; 1; 20; 1000; 100000]%Z /\
    plot_labels new =
      ["truth"; "t = 0.0 s"; "t = 1.0 s"; "t = 20.0 s"; "t = 1000.0 s";
       "t = 100000.0 s"]%string /\
    model_inputs new = [y_in; y_in; y_in; y_in; y_in] /\
    filter is_construct new = [] /\
    (forall where_to wb baseline wb',
       test where_to model y_in y_out wb = (Ok baseline, wb') ->
       Forall (fun p => shape3 p = shape3 baseline) [p0; p1; p2; p3; p4]).
Proof.
  intros Hs Hd2 Hd1 Ho1 Ho2.
  do 7 eexists. split.
  - rewrite drift_test_run by assumption.
    cbn [t_inference_values sweep_predictions sweep_lib]. reflexivity.
  - cbv zeta. split; [repeat split; reflexivity |].
    split; [reflexivity |].
    unfold drift_events, t_inference_values, model_events.
    split; [destruct c; reflexivity |].
    split; [destruct c; reflexivity |].
    split; [destruct c; reflexivity |].
    split; [destruct c; reflexivity |].
    intros where_to wb baseline wb' Hb.
    rewrite test_run in Hb by assumption. injection Hb as <- _.
    repeat constructor; rewrite !prediction_shape by assumption; reflexivity.
Qed.

End DriftClaims.

(** ** The whole script (C7, C10) *)

Section Main.

Context {T Lib St : Type} {F : Float T} {L : Library T Lib St}.

(** The run of the script, for a non-negative sequence length and a
    positive batch size, when the layers return tensors of the shapes
    torch documents. *)
Lemma main_run (cfg : config T) (w : world T Lib) :
  (0 <= SEQ_LEN cfg)%Z ->
  (1 <= BATCH_SIZE cfg)%Z ->
  shape_contract ->
  let RESULTS := os_path_join (cwd w) ["results"; "RNN"]%string in
  let n := Z.to_nat (SEQ_LEN cfg) - 1 in
  let model := init (make_rpu_config (USE_ANALOG_TRAINING cfg))
                    (select_class (WITH_EMBEDDING cfg) (WITH_BIDIR cfg)) in
  exists y_in y_out w1,
    make_dataset cfg {| lib := lib w; cwd := cwd w;
                        trace := trace w ++ [ev_makedirs RESULTS true] |} =
      (Ok (y_in, y_out), w1) /\
    trace w1 = trace w ++ [ev_makedirs RESULTS true] ++
               dataset_events n (py_range (BATCH_SIZE cfg)) /\
    shape3 y_in = (n, Z.to_nat (BATCH_SIZE cfg), 1) /\
    shape3 y_out = (n, Z.to_nat (BATCH_SIZE cfg), 1) /\
    let l2 := regroup_param_groups
                (AnalogSGD LEARNING_RATE (construct model (lib w1))) in
    let l3 := lib_after_epochs model y_in y_out (Z.to_nat (EPOCHS cfg)) l2 in
    let l4 := snd (forward_result model y_in None (eval_mode l3)) in
    let losses := losses_from model y_in y_out (Z.to_nat (EPOCHS cfg)) l2 in
    main cfg w =
    (Ok {| out_y_in := y_in; out_y_out := y_out; out_model := model;
           out_losses := losses;
           out_pred := prediction model y_in (eval_mode l3);
           out_drift := sweep_predictions model y_in t_inference_values l4 |},
     {| lib := sweep_lib model y_in t_inference_values l4;
        cwd := cwd w;
        trace := trace w ++
                 [ev_makedirs RESULTS true] ++
                 dataset_events n (py_range (BATCH_SIZE cfg)) ++
                 [ev_construct (class_of model); ev_optimizer LEARNING_RATE;
                  ev_regroup] ++
                 events_from model y_in y_out 0 (Z.to_nat (EPOCHS cfg)) l2 ++
                 perplexity_events RESULTS losses ++
                 test_events RESULTS model y_in y_out l3 ++
                 drift_events RESULTS model y_in y_out l4 |}).
Proof.
  intros HL HB Hs. cbv zeta.
  set (RESULTS := os_path_join (cwd w) ["results"; "RNN"]%string).
  set (w0 := {| lib := lib w; cwd := cwd w;
                trace := trace w ++ [ev_makedirs RESULTS true] |}).
  destruct (make_dataset_ok cfg w0 HL HB)
    as [x [ins [outs [w1 [_ [_ [Hrun [[Hc Ht] [Hli [Hlo _]]]]]]]]]].
  eexists. eexists. exists w1. split; [exact Hrun |].
  split; [rewrite Ht; subst w0; cbn [trace]; now rewrite <- app_assoc |].
  split; [reflexivity |]. split; [reflexivity |].
  unfold main.
  unfold bind at 1, getcwd at 1. unfold bind at 1, emit at 1.
  fold RESULTS. fold w0. unfold bind at 1. rewrite Hrun.
  unfold bind at 1, emit at 1. unfold bind at 1, update at 1.
  unfold bind at 1, emit at 1. unfold bind at 1, update at 1.
  unfold bind at 1, emit at 1. unfold bind at 1, update at 1.
  cbn [lib cwd trace].
  unfold bind at 1. rewrite train_run. cbn [lib cwd trace].
  unfold bind at 1. rewrite plot_perplexity_run. cbn [lib cwd trace].
  unfold bind at 1.
  rewrite test_run;
    [| exact Hs | reflexivity | cbn [unsqueeze2 transpose01 dim1 dim2 ncols nrows]; lia ..].
  cbn [lib cwd trace]. unfold bind at 1.
  rewrite drift_test_run;
    [| exact Hs | reflexivity | cbn [unsqueeze2 transpose01 dim1 dim2 ncols nrows]; lia ..].
  cbn [lib cwd trace]. unfold ret.
  rewrite Hc, Ht. subst w0. cbn [lib cwd trace].
  rewrite <- !app_assoc. reflexivity.
Qed.

(** What the parts of the log hold. *)

Lemma filesystem_calls_app (a b : list (event T)) :
  filesystem_calls (a ++ b) = filesystem_calls a ++ filesystem_calls b.
Proof. unfold filesystem_calls. apply filter_app. Qed.

Lemma model_inputs_app (a b : list (event T)) :
  model_inputs (a ++ b) = model_inputs a ++ model_inputs b.
Proof. unfold model_inputs. apply flat_map_app. Qed.

Lemma criterion_targets_app (a b : list (event T)) :
  criterion_targets (a ++ b) = criterion_targets a ++ criterion_targets b.
Proof. unfold criterion_targets. apply flat_map_app. Qed.

Lemma dataset_events_quiet (n : nat) (indices : list Z) :
  filesystem_calls (@dataset_events T n indices) = [] /\
  model_inputs (@dataset_events T n indices) = [] /\
  criterion_targets (@dataset_events T n indices) = [] /\
  filter (fun e => negb (is_rand e)) (@dataset_events T n indices) = [].
Proof.
  induction indices as [| i rest [H1 [H2 [H3 H4]]]]; [repeat split |].
  unfold dataset_events in *. cbn [flat_map app].
  repeat split; cbn; assumption.
Qed.

Lemma epoch_events_projections (c : model_class) (rpu : rpu_config_t)
      (y_in y_out : tensor3 T) (i : Z) (l : Lib) :
  filesystem_calls (epoch_events (init rpu c) y_in y_out i l) = [] /\
  model_inputs (epoch_events (init rpu c) y_in y_out i l) = [y_in] /\
  criterion_targets (epoch_events (init rpu c) y_in y_out i l) = [y_out] /\
  filter is_rand (epoch_events (init rpu c) y_in y_out i l) = [].
Proof. destruct c; repeat split. Qed.

Lemma events_from_projections (c : model_class) (rpu : rpu_config_t)
      (y_in y_out : tensor3 T) (count first : nat) (l : Lib) :
  filesystem_calls (events_from (init rpu c) y_in y_out first count l) = [] /\
  model_inputs (events_from (init rpu c) y_in y_out first count l) =
    repeat y_in count /\
  criterion_targets (events_from (init rpu c) y_in y_out first count l) =
    repeat y_out count /\
  filter is_rand (events_from (init rpu c) y_in y_out first count l) = [].
Proof.
  revert first l. induction count as [| count IH]; intros first l; [repeat split |].
  cbn [events_from repeat].
  destruct (IH (S first) (epoch_lib (init rpu c) y_in y_out l)) as [H1 [H2 [H3 H4]]].
  destruct (epoch_events_projections c rpu y_in y_out (Z.of_nat first) l)
    as [E1 [E2 [E3 E4]]].
  rewrite filesystem_calls_app, model_inputs_app, criterion_targets_app, filter_app.
  rewrite H1, H2, H3, H4, E1, E2, E3, E4. repeat split.
Qed.

Lemma ends_with_slash_app (a b : string) :
  b <> EmptyString -> ends_with_slash (a ++ b) = ends_with_slash b.
Proof.
  intros Hb. induction a as [| ch a IH]; [reflexivity |].
  cbn [String.append ends_with_slash]. rewrite IH.
  destruct (a ++ b)%string eqn:Hab; [| reflexivity].
  destruct a; [cbn in Hab; congruence | discriminate].
Qed.

(** The paths, for a working directory that is not the root. *)
Lemma results_paths (here : string) :
  here <> EmptyString ->
  ends_with_slash here = false ->
  let RESULTS := os_path_join here ["results"; "RNN"]%string in
  RESULTS = (here ++ "/results/RNN")%string /\
  os_path_join RESULTS ["train_perplexity"]%string =
    (here ++ "/results/RNN/train_perplexity")%string /\
  os_path_join RESULTS ["test"]%string = (here ++ "/results/RNN/test")%string /\
  os_path_join RESULTS ["drift"]%string = (here ++ "/results/RNN/drift")%string.
Proof.
  intros Hne Hslash. cbv zeta.
  assert (Hj : forall (a : string) (b : string),
             a <> EmptyString -> ends_with_slash a = false ->
             starts_with_slash b = false ->
             join2 a b = (a ++ "/" ++ b)%string).
  { intros a b Ha Hs Hb. unfold join2. rewrite Hb, Hs.
    destruct (String.eqb_spec a EmptyString); [congruence | reflexivity]. }
  assert (Happ : forall a b c : string, ((a ++ b) ++ c = a ++ (b ++ c))%string).
  { intros a b c0. induction a as [| ch a IH]; [reflexivity |].
    cbn [String.append]. now rewrite IH. }
  assert (Hne2 : forall a b : string, b <> EmptyString -> (a ++ b)%string <> EmptyString).
  { intros a b Hb. destruct a; [exact Hb | discriminate]. }
  assert (H1 : os_path_join here ["results"; "RNN"]%string =
               (here ++ "/results/RNN")%string).
  { unfold os_path_join. cbn [fold_left].
    rewrite (Hj here "results"%string) by (assumption || reflexivity).
    rewrite Hj; [now rewrite Happ | apply Hne2; discriminate | | reflexivity].
    rewrite ends_with_slash_app by discriminate. reflexivity. }
  rewrite H1. split; [reflexivity |].
  assert (H2 : forall name : string,
             starts_with_slash name = false ->
             os_path_join (here ++ "/results/RNN") [name] =
             (here ++ "/results/RNN" ++ "/" ++ name)%string).
  { intros name Hn. unfold os_path_join. cbn [fold_left].
    rewrite Hj; [now rewrite Happ | apply Hne2; discriminate | | exact Hn].
    rewrite ends_with_slash_app by discriminate. reflexivity. }
  repeat split; rewrite H2 by reflexivity; reflexivity.
Qed.

(** C7.  The script's calls that touch the filesystem are, in this
    order: the creation of the directory working-directory/results/RNN,
    which succeeds when the directory exists already, and the three calls
    that save a figure in that directory under the names train_perplexity,
    test and drift.  There is no other call that writes a file. *)
Theorem filesystem_effects (cfg : config T) (w : world T Lib) :
  (1 < SEQ_LEN cfg)%Z ->
  (1 <= BATCH_SIZE cfg)%Z ->
  shape_contract ->
  exists out w' new,
    main cfg w = (Ok out, w') /\
    trace w' = trace w ++ new /\
    let RESULTS := os_path_join (cwd w) ["results"; "RNN"]%string in
    filesystem_calls new =
      [ev_makedirs RESULTS true;
       ev_savefig (os_path_join RESULTS ["train_perplexity"]%string);
       ev_savefig (os_path_join RESULTS ["test"]%string);
       ev_savefig (os_path_join RESULTS ["drift"]%string)] /\
    (cwd w <> EmptyString -> ends_with_slash (cwd w) = false ->
     filesystem_calls new =
       [ev_makedirs (cwd w ++ "/results/RNN") true;
        ev_savefig (cwd w ++ "/results/RNN/train_perplexity");
        ev_savefig (cwd w ++ "/results/RNN/test");
        ev_savefig (cwd w ++ "/results/RNN/drift")]%string).
Proof.
  intros HL HB Hs.
  assert (HL0 : (0 <= SEQ_LEN cfg)%Z) by lia.
  destruct (main_run cfg w HL0 HB Hs) as [y_in [y_out [w1 [_ [_ [_ [_ Hmain]]]]]]].
  cbv zeta in Hmain.
  eexists. eexists. eexists. split; [exact Hmain |]. split; [reflexivity |].
  cbv zeta.
  match goal with
  | |- ?calls = ?expected /\ _ =>
      assert (Hcalls : calls = expected)
  end.
  { rewrite !filesystem_calls_app.
    destruct (dataset_events_quiet (Z.to_nat (SEQ_LEN cfg) - 1)
                                   (py_range (BATCH_SIZE cfg))) as [-> _].
    match goal with
    | |- context [events_from (init ?r ?c) ?a ?b ?f ?n ?l] =>
        destruct (events_from_projections c r a b n f l) as [-> _]
    end.
    unfold test_events, drift_events, t_inference_values, model_events.
    destruct (select_class (WITH_EMBEDDING cfg) (WITH_BIDIR cfg)); reflexivity. }
  split; [exact Hcalls |].
  intros Hne Hslash. rewrite Hcalls.
  destruct (results_paths Hne Hslash) as [-> [-> [-> ->]]]. reflexivity.
Qed.

Lemma sweep_events_projections (c : model_class) (rpu : rpu_config_t)
      (y_in : tensor3 T) (times : list Z) (l : Lib) :
  model_inputs (sweep_events (init rpu c) y_in times l) =
    repeat y_in (length times) /\
  criterion_targets (sweep_events (init rpu c) y_in times l) = [] /\
  filter is_rand (sweep_events (init rpu c) y_in times l) = [].
Proof.
  revert l. induction times as [| t rest IH]; intros l; [repeat split |].
  destruct (IH (drift_lib (init rpu c) y_in t l)) as [H1 [H2 H3]].
  cbn [sweep_events length repeat].
  rewrite !model_inputs_app, !criterion_targets_app, !filter_app, H1, H2, H3.
  unfold model_events. destruct c; repeat split.
Qed.

(** C10.  The dataset is built once, before the model is called for the
    first time, and the script does not write to [y_in] or [y_out]
    afterwards: every call of the model, in the training epochs, in the
    test and in the five points of the drift sweep, is given the [y_in]
    the dataset construction returned, and every call of the loss is
    given its [y_out]. *)
Theorem same_tensors_throughout (cfg : config T) (w : world T Lib) :
  (1 < SEQ_LEN cfg)%Z ->
  (1 <= BATCH_SIZE cfg)%Z ->
  shape_contract ->
  let RESULTS := os_path_join (cwd w) ["results"; "RNN"]%string in
  exists y_in y_out w1 out w' rest,
    make_dataset cfg {| lib := lib w; cwd := cwd w;
                        trace := trace w ++ [ev_makedirs RESULTS true] |} =
      (Ok (y_in, y_out), w1) /\
    main cfg w = (Ok out, w') /\
    out_y_in out = y_in /\
    out_y_out out = y_out /\
    trace w1 = trace w ++ [ev_makedirs RESULTS true] ++
               dataset_events (Z.to_nat (SEQ_LEN cfg) - 1)
                              (py_range (BATCH_SIZE cfg)) /\
    trace w' = trace w1 ++ rest /\
    filter is_rand rest = [] /\
    model_inputs rest =
      repeat y_in (Z.to_nat (EPOCHS cfg)) ++ [y_in] ++ repeat y_in 5 /\
    criterion_targets rest = repeat y_out (Z.to_nat (EPOCHS cfg)) ++ [y_out].
Proof.
  intros HL HB Hs. cbv zeta.
  assert (HL0 : (0 <= SEQ_LEN cfg)%Z) by lia.
  destruct (main_run cfg w HL0 HB Hs)
    as [y_in [y_out [w1 [Hdata [Htrace [_ [_ Hmain]]]]]]].
  cbv zeta in Hmain.
  exists y_in, y_out, w1. eexists. eexists. eexists.
  split; [exact Hdata |]. split; [exact Hmain |].
  split; [reflexivity |]. split; [reflexivity |]. split; [exact Htrace |].
  split.
  { cbn [trace]. rewrite Htrace, <- !app_assoc. reflexivity. }
  unfold test_events, drift_events.
  match goal with
  | |- context [events_from (init ?r ?c) ?a ?b ?f ?n ?l] =>
      destruct (events_from_projections c r a b n f l) as [_ [E2 [E3 E4]]]
  end.
  match goal with
  | |- context [sweep_events (init ?r ?c) ?a ?ts ?l] =>
      destruct (sweep_events_projections c r a ts l) as [S1 [S2 S3]]
  end.
  unfold model_events.
  rewrite !filter_app, !model_inputs_app, !criterion_targets_app.
  rewrite E2, E3, E4, S1, S2, S3.
  destruct (select_class (WITH_EMBEDDING cfg) (WITH_BIDIR cfg));
    repeat split; cbn; rewrite ?app_nil_r; reflexivity.
Qed.

End Main.

(** ** The theorems at work on the toy library *)

Lemma toy_shape_contract (T : Type) (F : Float T) :
  @shape_contract T nat unit toy_library.
Proof.
  constructor.
  - intros a c x l H. reflexivity.
  - intros c x s l H. reflexivity.
  - intros p x l. reflexivity.
Qed.

Lemma sum_of_squares_nonneg (squares : list Z) (acc : Z) :
  (0 <= acc)%Z -> Forall (fun z => 0 <= z)%Z squares ->
  (0 <= fold_left Z.add squares acc)%Z.
Proof.
  intros Hacc Hall. revert acc Hacc.
  induction Hall as [| z squares Hz Hall IH]; intros acc Hacc; [exact Hacc |].
  cbn [fold_left]. apply IH. lia.
Qed.

Lemma toy_loss_contract (last : Z) :
  @loss_contract Z nat unit (Tagged.library last)
                 (fun _ => True) (fun z => 0 <= z)%Z.
Proof.
  constructor.
  - intros p t _ _ _ _. cbn [mse_loss Tagged.library toy_library].
    unfold mean_squared_error. cbn [f_div f_add f_zero f_of_nat f_mul f_sub Tagged.tagged_float].
    set (squares := map _ _).
    assert (Hs : (0 <= fold_left Z.add squares 0)%Z).
    { apply sum_of_squares_nonneg; [lia |]. unfold squares.
      apply Forall_forall. intros z Hz. apply in_map_iff in Hz.
      destruct Hz as [[a b] [<- _]]. cbn [fst snd]. apply Z.square_nonneg. }
    destruct (length squares) as [| k].
    + cbn [Z.of_nat]. rewrite Z.div_0_r. lia.
    + apply Z.div_pos; lia.
  - intros self x l _. apply Forall_forall. intros; exact I.
Qed.


(** The first two entries of the history of three epochs. *)
Lemma loss_recorded_before_update_witness :
  exists losses w' new,
    @train Z nat unit (Tagged.tagged_float 4) (Tagged.library 4)
           (init (make_rpu_config false) AnalogBidirRNNNetwork)
           Tagged.inputs Tagged.targets 3 start = (Ok losses, w') /\
    trace w' = trace start ++ new /\
    nth_error losses 0 = Some 9%Z /\
    nth_error (printed new) 0 = Some (epoch_line 0 9%Z) /\
    nth_error losses 1 = Some 4%Z /\
    nth_error (printed new) 1 = Some (epoch_line 1 4%Z).
Proof.
  destruct (@loss_recorded_before_update Z nat unit (Tagged.library 4)
              (make_rpu_config false) AnalogBidirRNNNetwork
              Tagged.inputs Tagged.targets (Tagged.tagged_float 4) 3 start)
    as [losses [w' [new [Hrun [Htrace [_ Hat]]]]]].
  exists losses, w', new. split; [exact Hrun |]. split; [exact Htrace |].
  destruct (Hat 0) as [H0 [P0 _]]; [vm_compute; lia |].
  destruct (Hat 1) as [H1 [P1 _]]; [vm_compute; lia |].
  rewrite H0, P0, H1, P1. vm_compute. repeat split.
Defined.

(** The drift sweep on the toy library. *)
Lemma drift_sweep_contract_witness :
  exists observations w',
    @drift_test Z nat unit (Tagged.library 4) "/home/user/results/RNN"
                (init (make_rpu_config false) AnalogBidirRNNNetwork)
                Tagged.inputs Tagged.targets start = (Ok observations, w') /\
    map fst observations = [0; 1; 20; 1000; 100000]%Z /\
    Forall (fun obs => shape3 (snd obs) = (4, 2, 1)) observations.
Proof.
  destruct (@drift_sweep_contract Z nat unit (Tagged.tagged_float 4) (Tagged.library 4)
              (make_rpu_config false) AnalogBidirRNNNetwork
              Tagged.inputs Tagged.targets "/home/user/results/RNN" start)
    as [p0 [p1 [p2 [p3 [p4 [w' [new [Hrun [Hpred _]]]]]]]]].
  - apply toy_shape_contract.
  - reflexivity.
  - vm_compute. lia.
  - vm_compute. lia.
  - vm_compute. lia.
  - eexists. exists w'. split; [exact Hrun |]. split; [reflexivity |].
    cbv zeta in Hpred. destruct Hpred as [-> [-> [-> [-> [-> _]]]]].
    repeat constructor.
Defined.

(** The script on the toy library, in the directory /home/user. *)
Lemma filesystem_effects_witness :
  exists out w',
    @main Z nat unit (Tagged.tagged_float 4) (Tagged.library 4)
          Tagged.small start = (Ok out, w') /\
    filesystem_calls (trace w') =
      [ev_makedirs "/home/user/results/RNN" true;
       ev_savefig "/home/user/results/RNN/train_perplexity";
       ev_savefig "/home/user/results/RNN/test";
       ev_savefig "/home/user/results/RNN/drift"].
Proof.
  destruct (@filesystem_effects Z nat unit (Tagged.tagged_float 4) (Tagged.library 4)
              Tagged.small start)
    as [out [w' [new [Hrun [Htrace [_ Hpaths]]]]]].
  - reflexivity.
  - vm_compute. discriminate.
  - apply toy_shape_contract.
  - exists out, w'. split; [exact Hrun |].
    rewrite Htrace. apply Hpaths.
    + discriminate.
    + reflexivity.
Defined.

Lemma same_tensors_throughout_witness :
  exists out w',
    @main Z nat unit (Tagged.tagged_float 4) (Tagged.library 4)
          Tagged.small start = (Ok out, w') /\
    model_inputs (trace w') = repeat (out_y_in out) 9 /\
    criterion_targets (trace w') = repeat (out_y_out out) 4.
Proof.
  destruct (@same_tensors_throughout Z nat unit (Tagged.tagged_float 4)
              (Tagged.library 4) Tagged.small start)
    as [y_in [y_out [w1 [out [w' [rest [_ [Hrun [Hi [Ho [Hbuilt [Htrace
       [_ [Hin Hout]]]]]]]]]]]]]].
  - reflexivity.
  - vm_compute. discriminate.
  - apply toy_shape_contract.
  - exists out, w'. split; [exact Hrun |].
    rewrite Htrace, Hbuilt, Hi, Ho.
    unfold model_inputs, criterion_targets in *.
    rewrite !flat_map_app, Hin, Hout. split; reflexivity.
Defined.


(** * Further properties of the script *)

(** ** The dataset for every noise level *)

Section NoisyDataset.

Context {T Lib St : Type} {F : Float T} {L : Library T Lib St}.

Lemma rolled_with_noise_run (noise : T) (t : list T) (i : Z) (w : world T Lib) :
  rolled_with_noise noise t i w =
  (Ok (zip_add (torch_roll t (100 * i))
               (tensor_scale noise (fst (draw (length t) (lib w))))),
   {| lib := snd (draw (length t) (lib w)); cwd := cwd w;
      trace := trace w ++ [ev_rand (length t)] |}).
Proof.
  unfold rolled_with_noise, torch_rand, bind, emit, call, of_result.
  cbn [lib cwd trace].
  pose proof (draw_length (length t) (lib w)) as Hd.
  unfold tensor_add.
  replace (length (torch_roll t (100 * i)) =?
           length (tensor_scale noise (fst (draw (length t) (lib w)))))
    with true; [reflexivity |].
  symmetry. apply Nat.eqb_eq. unfold tensor_scale.
  now rewrite torch_roll_length, length_map, Hd.
Qed.

Lemma after_draws_two (n k : nat) (l : Lib) :
  after_draws n (2 * S k) l =
  after_draws n (2 * k) (snd (draw n (snd (draw n l)))).
Proof. replace (2 * S k) with (S (S (2 * k))) by lia. reflexivity. Qed.

(** The rows the loop of lines 96-98 appends: row [k] of the inputs is the
    rolled input slice plus the noise of draw [2k], row [k] of the targets
    the rolled target slice plus the noise of draw [2k+1]. *)
Lemma batch_loop_rows (noise : T) (a b : list T) (n count : nat) :
  length a = n -> length b = n ->
  forall (first : nat) (acc_in acc_out : list (list T)) (w : world T Lib),
    batch_loop noise a b (map Z.of_nat (seq first count)) acc_in acc_out w =
    (Ok (acc_in ++
         map (fun k => zip_add (torch_roll a (100 * Z.of_nat (first + k)))
                               (tensor_scale noise (noise_of n (2 * k) (lib w))))
             (seq 0 count),
         acc_out ++
         map (fun k => zip_add (torch_roll b (100 * Z.of_nat (first + k)))
                               (tensor_scale noise (noise_of n (2 * k + 1) (lib w))))
             (seq 0 count)),
     {| lib := after_draws n (2 * count) (lib w); cwd := cwd w;
        trace := trace w ++ dataset_events n (map Z.of_nat (seq first count)) |}).
Proof.
  intros Ha Hb. induction count as [| count IH]; intros first acc_in acc_out w.
  - cbn [seq map batch_loop dataset_events flat_map Nat.mul after_draws].
    unfold ret. rewrite !app_nil_r. destruct w; reflexivity.
  - cbn [seq map batch_loop]. unfold bind at 1. rewrite rolled_with_noise_run.
    unfold bind at 1. rewrite rolled_with_noise_run. cbn [lib cwd trace].
    rewrite IH. cbn [lib cwd trace]. rewrite Ha, Hb.
    rewrite <- !app_assoc, <- !seq_shift, !map_map, after_draws_two.
    unfold dataset_events. cbn [flat_map app].
    rewrite Nat.add_0_r.
    assert (Hin : forall k, noise_of n (2 * k) (snd (draw n (snd (draw n (lib w))))) =
                            noise_of n (2 * S k) (lib w)).
    { intros k. unfold noise_of. now rewrite after_draws_two. }
    assert (Hout : forall k, noise_of n (2 * k + 1) (snd (draw n (snd (draw n (lib w))))) =
                             noise_of n (2 * S k + 1) (lib w)).
    { intros k. unfold noise_of.
      replace (2 * S k + 1) with (S (S (2 * k + 1))) by lia. reflexivity. }
    do 3 f_equal.
    + do 2 f_equal. apply map_ext. intros k.
      replace (first + S k) with (S first + k) by lia. now rewrite Hin.
    + f_equal. f_equal.
      apply map_ext. intros k.
      replace (first + S k) with (S first + k) by lia. now rewrite Hout.
Qed.

Lemma noise_of_length (n k : nat) (l : Lib) : length (noise_of n k l) = n.
Proof. unfold noise_of. apply draw_length. Qed.

Lemma noisy_row_length (noise : T) (t : list T) (s : Z) (k : nat) (l : Lib) :
  length (zip_add (torch_roll t s) (tensor_scale noise (noise_of (length t) k l))) =
  length t.
Proof.
  rewrite zip_add_length; [apply torch_roll_length |].
  unfold tensor_scale. now rewrite torch_roll_length, length_map, noise_of_length.
Qed.

Lemma noisy_rows_wf (noise : T) (t : list T) (offset count : nat) (l : Lib) :
  wf2 {| nrows := count; ncols := length t;
         rows2 := noisy_rows noise t offset count l |}.
Proof.
  split; cbn [rows2 nrows ncols]; unfold noisy_rows.
  - now rewrite length_map, length_seq.
  - apply Forall_forall. intros r Hr. apply in_map_iff in Hr.
    destruct Hr as [k [<- _]]. apply noisy_row_length.
Qed.

(** The run of the dataset construction for every noise level. *)
Lemma make_dataset_run (cfg : config T) (w : world T Lib) :
  (0 <= SEQ_LEN cfg)%Z ->
  (1 <= BATCH_SIZE cfg)%Z ->
  exists x,
    torch_linspace f_zero f_8pi (SEQ_LEN cfg) = Ok x /\
    length x = Z.to_nat (SEQ_LEN cfg) /\
    let n := Z.to_nat (SEQ_LEN cfg) - 1 in
    let B := Z.to_nat (BATCH_SIZE cfg) in
    let y := map signal x in
    make_dataset cfg w =
    (Ok (unsqueeze2 (transpose01
           {| nrows := B; ncols := n;
              rows2 := noisy_rows (NOISE cfg) (firstn n y) 0 B (lib w) |}),
         unsqueeze2 (transpose01
           {| nrows := B; ncols := n;
              rows2 := noisy_rows (NOISE cfg) (skipn 1 y) 1 B (lib w) |})),
     {| lib := after_draws n (2 * B) (lib w); cwd := cwd w;
        trace := trace w ++ dataset_events n (py_range (BATCH_SIZE cfg)) |}).
Proof.
  intros HL HB.
  destruct (torch_linspace_ok f_zero f_8pi HL) as [x [Hx Hlx]].
  exists x. split; [exact Hx |]. split; [exact Hlx |]. cbv zeta.
  unfold make_dataset. rewrite Hx. unfold bind at 1, of_result at 1.
  assert (Hy : length (map signal x) = Z.to_nat (SEQ_LEN cfg))
    by now rewrite length_map.
  pose proof (slice_init (map signal x)) as Hs1.
  pose proof (slice_tail (map signal x)) as Hs2.
  rewrite Hy, Z2Nat.id in Hs1, Hs2 by lia.
  rewrite Hs1, Hs2. clear Hs1 Hs2.
  set (n := Z.to_nat (SEQ_LEN cfg) - 1).
  set (y_in_1d := firstn n (map signal x)).
  set (y_out_1d := skipn 1 (map signal x)).
  assert (Hin : length y_in_1d = n)
    by (unfold y_in_1d, n; rewrite length_firstn; lia).
  assert (Hout : length y_out_1d = n)
    by (unfold y_out_1d, n; rewrite length_skipn; lia).
  unfold bind at 1. unfold py_range.
  rewrite (@batch_loop_rows (NOISE cfg) y_in_1d y_out_1d n _ Hin Hout). cbn [app].
  set (B := Z.to_nat (BATCH_SIZE cfg)).
  assert (HBpos : 0 < B) by (unfold B; lia).
  pose proof (noisy_rows_wf (NOISE cfg) y_in_1d 0 B (lib w)) as [Hli Hfi].
  pose proof (noisy_rows_wf (NOISE cfg) y_out_1d 1 B (lib w)) as [Hlo Hfo].
  cbn [rows2 nrows ncols] in Hli, Hfi, Hlo, Hfo.
  unfold noisy_rows in *. rewrite Hin in *. rewrite Hout in *.
  cbn [Nat.add] in *.
  assert (Hrows : forall (rows rows' : list (list T)),
            rows = rows' -> length rows' = B ->
            Forall (fun r => length r = n) rows' ->
            torch_stack rows = Ok {| nrows := B; ncols := n; rows2 := rows' |}).
  { intros rows rows' -> Hl Hf. rewrite <- Hl. apply torch_stack_ok; [| exact Hf].
    intros ->. simpl in Hl. lia. }
  unfold bind at 1, of_result at 1.
  erewrite Hrows; [| | exact Hli | exact Hfi].
  2: { apply map_ext. intros k. now rewrite Nat.add_0_r. }
  unfold bind at 1, of_result at 1.
  erewrite Hrows; [| | exact Hlo | exact Hfo].
  2: { reflexivity. }
  reflexivity.
Qed.

(** Column [b] of the arrays is row [b] of the stacks. *)
Lemma noisy_rows_nth (noise : T) (t : list T) (offset count b : nat) (l : Lib) :
  b < count ->
  nth_error (noisy_rows noise t offset count l) b =
  Some (zip_add (torch_roll t (100 * Z.of_nat b))
                (tensor_scale noise (noise_of (length t) (2 * b + offset) l))).
Proof.
  intros Hb. unfold noisy_rows. rewrite nth_error_map, nth_error_seq.
  destruct (Nat.ltb_spec b count); [reflexivity | lia].
Qed.

(** X1.  For every noise level, batch element [b] of the input array is the
    slice [y[0:L-1]] of the signal rolled by [100*b], plus [NOISE] times
    the numbers of call [2*b] of [torch.rand]; batch element [b] of the
    target array is the slice [y[1:L]] rolled by [100*b], plus [NOISE]
    times the numbers of call [2*b+1].  The construction calls
    [torch.rand] twice for each batch element, each time for [L-1]
    numbers, inputs first. *)
Theorem dataset_columns_with_noise (cfg : config T) (w : world T Lib) :
  (0 <= SEQ_LEN cfg)%Z ->
  (1 <= BATCH_SIZE cfg)%Z ->
  exists x y_in y_out w',
    torch_linspace f_zero f_8pi (SEQ_LEN cfg) = Ok x /\
    make_dataset cfg w = (Ok (y_in, y_out), w') /\
    let n := Z.to_nat (SEQ_LEN cfg) - 1 in
    let y := map signal x in
    lib w' = after_draws n (2 * Z.to_nat (BATCH_SIZE cfg)) (lib w) /\
    trace w' = trace w ++
               flat_map (fun _ => [ev_rand n; ev_rand n]) (py_range (BATCH_SIZE cfg)) /\
    forall b : nat,
      b < Z.to_nat (BATCH_SIZE cfg) ->
      select_col y_in b 0 =
        Ok (zip_add (torch_roll (py_slice y 0 (SEQ_LEN cfg - 1)) (100 * Z.of_nat b))
                    (tensor_scale (NOISE cfg) (noise_of n (2 * b) (lib w)))) /\
      select_col y_out b 0 =
        Ok (zip_add (torch_roll (py_slice y 1 (SEQ_LEN cfg)) (100 * Z.of_nat b))
                    (tensor_scale (NOISE cfg) (noise_of n (2 * b + 1) (lib w)))).
Proof.
  intros HL HB.
  destruct (make_dataset_run cfg w HL HB) as [x [Hx [Hlx Hrun]]].
  cbv zeta in Hrun.
  eexists x, _, _, _. split; [exact Hx |]. split; [exact Hrun |]. cbv zeta.
  split; [reflexivity |]. split; [reflexivity |].
  assert (Hy : length (map signal x) = Z.to_nat (SEQ_LEN cfg))
    by now rewrite length_map.
  pose proof (slice_init (map signal x)) as Hs1.
  pose proof (slice_tail (map signal x)) as Hs2.
  rewrite Hy, Z2Nat.id in Hs1, Hs2 by lia.
  rewrite Hs1, Hs2. clear Hs1 Hs2.
  set (n := Z.to_nat (SEQ_LEN cfg) - 1) in *.
  assert (Hin : length (firstn n (map signal x)) = n)
    by (unfold n; rewrite length_firstn; lia).
  assert (Hout : length (skipn 1 (map signal x)) = n)
    by (unfold n; rewrite length_skipn; lia).
  intros b Hb. split.
  - apply select_col_unsqueeze_transpose.
    + rewrite <- Hin at 1. apply noisy_rows_wf.
    + cbn [rows2]. rewrite noisy_rows_nth by exact Hb.
      now rewrite Hin, Nat.add_0_r.
  - apply select_col_unsqueeze_transpose.
    + rewrite <- Hout at 1. apply noisy_rows_wf.
    + cbn [rows2]. rewrite noisy_rows_nth by exact Hb.
      now rewrite Hout.
Qed.

End NoisyDataset.

(** The dataset of a configuration with noise on the toy library, whose
    generator counts up from 0: batch element 1 of the inputs is the
    slice [0; 1; 2] rolled by 100 positions, [2; 0; 1], plus the draws
    [6; 7; 8]. *)
Lemma dataset_columns_with_noise_witness :
  exists y_in y_out w',
    @make_dataset Z nat unit (Tagged.tagged_float 3) (Tagged.library 3)
                  noisy_config start = (Ok (y_in, y_out), w') /\
    lib w' = 12 /\
    select_col y_in 1 0 = Ok [8; 7; 9]%Z /\
    select_col y_out 1 0 = Ok [12; 11; 13]%Z.
Proof.
  destruct (@dataset_columns_with_noise Z nat unit (Tagged.tagged_float 3)
              (Tagged.library 3) noisy_config start)
    as [x [y_in [y_out [w' [Hx [Hrun [Hlib [_ Hcols]]]]]]]].
  - vm_compute. discriminate.
  - vm_compute. discriminate.
  - exists y_in, y_out, w'. split; [exact Hrun |].
    split; [rewrite Hlib; reflexivity |].
    destruct (Hcols 1) as [Hin Hout]; [vm_compute; lia |].
    rewrite Hin, Hout. vm_compute in Hx. injection Hx as <-.
    split; reflexivity.
Defined.

(** ** The noise-free dataset *)

Section NoiseFreeDataset.

Context {T Lib St : Type} {F : Float T} {L : Library T Lib St}.

(** A roll depends on the shift modulo the length only. *)
Lemma torch_roll_congruent (l : list T) (s s' : Z) :
  (s mod Z.of_nat (length l) = s' mod Z.of_nat (length l))%Z ->
  torch_roll l s = torch_roll l s'.
Proof.
  intros H. unfold torch_roll. destruct (length l) as [| n]; [reflexivity |].
  now rewrite H.
Qed.

(** A roll moves the elements and loses none. *)
Lemma torch_roll_permutation (l : list T) (s : Z) :
  Permutation (torch_roll l s) l.
Proof.
  unfold torch_roll. destruct (length l) as [| n]; [apply Permutation_refl |].
  rewrite <- (firstn_skipn (S n - Z.to_nat (s mod Z.of_nat (S n))) l) at 3.
  apply Permutation_app_comm.
Qed.

(** Without noise the batch elements are the rolled slices. *)
Lemma noise_free_columns (cfg : config T) (w : world T Lib) :
  (0 <= SEQ_LEN cfg)%Z ->
  (1 <= BATCH_SIZE cfg)%Z ->
  NOISE cfg = f_zero ->
  zero_laws T ->
  exists x y_in y_out w',
    torch_linspace f_zero f_8pi (SEQ_LEN cfg) = Ok x /\
    length x = Z.to_nat (SEQ_LEN cfg) /\
    make_dataset cfg w = (Ok (y_in, y_out), w') /\
    forall b : nat,
      b < Z.to_nat (BATCH_SIZE cfg) ->
      select_col y_in b 0 =
        Ok (torch_roll (firstn (Z.to_nat (SEQ_LEN cfg) - 1) (map signal x))
                       (100 * Z.of_nat b)) /\
      select_col y_out b 0 =
        Ok (torch_roll (skipn 1 (map signal x)) (100 * Z.of_nat b)).
Proof.
  intros HL HB Hnoise Hlaws.
  destruct (make_dataset_ok cfg w HL HB)
    as [x [ins [outs [w' [Hx [Hlx [Hrun [_ [Hli [Hlo [Hfi [Hfo Hz]]]]]]]]]]]].
  destruct (Hz Hnoise Hlaws) as [-> ->]. clear Hz.
  eexists x, _, _, w'. split; [exact Hx |]. split; [exact Hlx |].
  split; [exact Hrun |].
  intros b Hb. split.
  - apply select_col_unsqueeze_transpose; [split; assumption |]. cbn [rows2].
    now rewrite nth_error_map, py_range_nth by exact Hb.
  - apply select_col_unsqueeze_transpose; [split; assumption |]. cbn [rows2].
    now rewrite nth_error_map, py_range_nth by exact Hb.
Qed.

Lemma library_calls_app (a b : list (event T)) :
  library_calls (a ++ b) = library_calls a ++ library_calls b.
Proof. unfold library_calls. apply flat_map_app. Qed.

Lemma library_calls_dataset (n : nat) (indices : list Z) :
  library_calls (@dataset_events T n indices) =
  repeat "torch.rand" (2 * length indices).
Proof.
  induction indices as [| i rest IH]; [reflexivity |].
  unfold dataset_events in *. cbn [flat_map length].
  rewrite library_calls_app, IH.
  replace (2 * S (length rest)) with (S (S (2 * length rest))) by lia.
  reflexivity.
Qed.

(** X2.  Without noise the dataset does not depend on the state of torch's
    random generator, although the construction draws from it: two runs
    from different library states return the same arrays, and each run
    makes its [2*B] calls of [torch.rand] and leaves the generator in the
    state after them. *)
Theorem noise_free_dataset_ignores_generator (cfg : config T) (w1 w2 : world T Lib) :
  (0 <= SEQ_LEN cfg)%Z ->
  (1 <= BATCH_SIZE cfg)%Z ->
  NOISE cfg = f_zero ->
  zero_laws T ->
  exists data w1' w2',
    make_dataset cfg w1 = (Ok data, w1') /\
    make_dataset cfg w2 = (Ok data, w2') /\
    let n := Z.to_nat (SEQ_LEN cfg) - 1 in
    let B := Z.to_nat (BATCH_SIZE cfg) in
    lib w1' = after_draws n (2 * B) (lib w1) /\
    lib w2' = after_draws n (2 * B) (lib w2) /\
    library_calls (trace w1') = library_calls (trace w1) ++ repeat "torch.rand" (2 * B).
Proof.
  intros HL HB Hnoise Hlaws.
  destruct (make_dataset_ok cfg w1 HL HB)
    as [x [ins [outs [w1' [Hx [_ [Hrun1 [_ [_ [_ [_ [_ Hz1]]]]]]]]]]]].
  destruct (make_dataset_ok cfg w2 HL HB)
    as [x' [ins' [outs' [w2' [Hx' [_ [Hrun2 [_ [_ [_ [_ [_ Hz2]]]]]]]]]]]].
  rewrite Hx in Hx'. injection Hx' as <-.
  destruct (Hz1 Hnoise Hlaws) as [-> ->]. destruct (Hz2 Hnoise Hlaws) as [-> ->].
  eexists _, w1', w2'. split; [exact Hrun1 |]. split; [exact Hrun2 |].
  destruct (make_dataset_run cfg w1 HL HB) as [x1 [_ [_ Hr1]]].
  destruct (make_dataset_run cfg w2 HL HB) as [x2 [_ [_ Hr2]]].
  cbv zeta in Hr1, Hr2. rewrite Hrun1 in Hr1. rewrite Hrun2 in Hr2.
  injection Hr1 as _ _ ->. injection Hr2 as _ _ ->.
  cbv zeta. cbn [lib trace]. split; [reflexivity |]. split; [reflexivity |].
  rewrite library_calls_app, library_calls_dataset, py_range_length.
  reflexivity.
Qed.

(** X3.  Two batch elements whose shifts [100*i] and [100*j] are congruent
    modulo [L-1] hold the same sequences: with the script's sequence
    length 501 the batch elements repeat with period 5. *)
Theorem batch_elements_repeat (cfg : config T) (w : world T Lib) :
  (1 < SEQ_LEN cfg)%Z ->
  (1 <= BATCH_SIZE cfg)%Z ->
  NOISE cfg = f_zero ->
  zero_laws T ->
  exists y_in y_out w',
    make_dataset cfg w = (Ok (y_in, y_out), w') /\
    forall i j : nat,
      i < Z.to_nat (BATCH_SIZE cfg) ->
      j < Z.to_nat (BATCH_SIZE cfg) ->
      ((100 * Z.of_nat i) mod (SEQ_LEN cfg - 1) =
       (100 * Z.of_nat j) mod (SEQ_LEN cfg - 1))%Z ->
      (exists col, select_col y_in i 0 = Ok col /\ select_col y_in j 0 = Ok col) /\
      (exists col, select_col y_out i 0 = Ok col /\ select_col y_out j 0 = Ok col).
Proof.
  intros HL HB Hnoise Hlaws.
  destruct (noise_free_columns cfg w) as [x [y_in [y_out [w' [_ [Hlx [Hrun Hcols]]]]]]];
    try assumption; [lia |].
  exists y_in, y_out, w'. split; [exact Hrun |].
  intros i j Hi Hj Hmod.
  destruct (Hcols i Hi) as [Hii Hio]. destruct (Hcols j Hj) as [Hji Hjo].
  set (n := Z.to_nat (SEQ_LEN cfg) - 1) in *.
  assert (Hn : (SEQ_LEN cfg - 1)%Z = Z.of_nat n) by (unfold n; lia).
  rewrite Hn in Hmod.
  assert (Hin : length (firstn n (map signal x)) = n)
    by (unfold n; rewrite length_firstn, length_map; lia).
  assert (Hout : length (skipn 1 (map signal x)) = n)
    by (unfold n; rewrite length_skipn, length_map; lia).
  split; eexists; (split; [eassumption |]).
  - rewrite Hji. f_equal. apply torch_roll_congruent. now rewrite Hin.
  - rewrite Hjo. f_equal. apply torch_roll_congruent. now rewrite Hout.
Qed.

(** X4.  Every batch element holds the samples of its slice of the signal,
    each of them once: the inputs of a batch element are a permutation of
    [y[0:L-1]], its targets a permutation of [y[1:L]]. *)
Theorem batch_element_permutes_samples (cfg : config T) (w : world T Lib) :
  (0 <= SEQ_LEN cfg)%Z ->
  (1 <= BATCH_SIZE cfg)%Z ->
  NOISE cfg = f_zero ->
  zero_laws T ->
  exists x y_in y_out w',
    torch_linspace f_zero f_8pi (SEQ_LEN cfg) = Ok x /\
    make_dataset cfg w = (Ok (y_in, y_out), w') /\
    let y := map signal x in
    forall b : nat,
      b < Z.to_nat (BATCH_SIZE cfg) ->
      (exists col, select_col y_in b 0 = Ok col /\
                   Permutation col (py_slice y 0 (SEQ_LEN cfg - 1))) /\
      (exists col, select_col y_out b 0 = Ok col /\
                   Permutation col (py_slice y 1 (SEQ_LEN cfg))).
Proof.
  intros HL HB Hnoise Hlaws.
  destruct (noise_free_columns cfg w HL HB Hnoise Hlaws)
    as [x [y_in [y_out [w' [Hx [Hlx [Hrun Hcols]]]]]]].
  exists x, y_in, y_out, w'. split; [exact Hx |]. split; [exact Hrun |].
  cbv zeta. intros b Hb. destruct (Hcols b Hb) as [Hi Ho].
  assert (Hy : length (map signal x) = Z.to_nat (SEQ_LEN cfg))
    by now rewrite length_map.
  pose proof (slice_init (map signal x)) as Hs1.
  pose proof (slice_tail (map signal x)) as Hs2.
  rewrite Hy, Z2Nat.id in Hs1, Hs2 by lia.
  rewrite Hs1, Hs2.
  split; eexists; (split; [eassumption | apply torch_roll_permutation]).
Qed.

(** X5.  A batch element whose shift [100*b] is a multiple of [L-1], the first
    one in particular, is not rolled: its inputs are [y[0:L-1]], its
    targets [y[1:L]], and its target at time [t] is its input at time
    [t+1] for every [t]. *)
Theorem unrolled_batch_element_shifts (cfg : config T) (w : world T Lib) :
  (1 < SEQ_LEN cfg)%Z ->
  (1 <= BATCH_SIZE cfg)%Z ->
  NOISE cfg = f_zero ->
  zero_laws T ->
  exists x y_in y_out w',
    torch_linspace f_zero f_8pi (SEQ_LEN cfg) = Ok x /\
    make_dataset cfg w = (Ok (y_in, y_out), w') /\
    let y := map signal x in
    forall b : nat,
      b < Z.to_nat (BATCH_SIZE cfg) ->
      ((100 * Z.of_nat b) mod (SEQ_LEN cfg - 1) = 0)%Z ->
      select_col y_in b 0 = Ok (py_slice y 0 (SEQ_LEN cfg - 1)) /\
      select_col y_out b 0 = Ok (py_slice y 1 (SEQ_LEN cfg)) /\
      forall t : nat,
        t + 1 < Z.to_nat (SEQ_LEN cfg - 1) ->
        exists v, get3 y_out t b 0 = Some v /\ get3 y_in (t + 1) b 0 = Some v.
Proof.
  intros HL HB Hnoise Hlaws.
  assert (HL0 : (0 <= SEQ_LEN cfg)%Z) by lia.
  destruct (noise_free_columns cfg w HL0 HB Hnoise Hlaws)
    as [x [y_in [y_out [w' [Hx [Hlx [Hrun Hcols]]]]]]].
  destruct (dataset_elements cfg w HL HB)
    as [x' [y_in' [y_out' [w'' [Hx' [_ [Hrun' [_ [_ [_ [_ Helems]]]]]]]]]]].
  rewrite Hx in Hx'. injection Hx' as <-.
  rewrite Hrun in Hrun'. injection Hrun' as <- <- <-.
  exists x, y_in, y_out, w'. split; [exact Hx |]. split; [exact Hrun |].
  cbv zeta. intros b Hb Hmod. destruct (Hcols b Hb) as [Hi Ho].
  assert (Hy : length (map signal x) = Z.to_nat (SEQ_LEN cfg))
    by now rewrite length_map.
  pose proof (slice_init (map signal x)) as Hs1.
  pose proof (slice_tail (map signal x)) as Hs2.
  rewrite Hy, Z2Nat.id in Hs1, Hs2 by lia.
  rewrite Hs1, Hs2. clear Hs1 Hs2.
  set (n := Z.to_nat (SEQ_LEN cfg) - 1) in *.
  assert (Hn : (SEQ_LEN cfg - 1)%Z = Z.of_nat n) by (unfold n; lia).
  assert (Hin : length (firstn n (map signal x)) = n)
    by (unfold n; rewrite length_firstn, length_map; lia).
  assert (Hout : length (skipn 1 (map signal x)) = n)
    by (unfold n; rewrite length_skipn, length_map; lia).
  split; [| split].
  - rewrite Hi. f_equal. rewrite <- (torch_roll_0 (firstn n (map signal x))) at 2.
    apply torch_roll_congruent. rewrite Hin, <- Hn, Hmod. symmetry.
    apply Z.mod_0_l. lia.
  - rewrite Ho. f_equal. rewrite <- (torch_roll_0 (skipn 1 (map signal x))) at 2.
    apply torch_roll_congruent. rewrite Hout, <- Hn, Hmod. symmetry.
    apply Z.mod_0_l. lia.
  - intros t Ht.
    destruct (Helems Hnoise Hlaws b t) as [_ Hout_t]; [exact Hb | lia |].
    destruct (Helems Hnoise Hlaws b (t + 1)) as [Hin_t _]; [exact Hb | lia |].
    cbv zeta in Hout_t, Hin_t.
    assert (Hsrc : ((Z.of_nat (t + 1) - 100 * Z.of_nat b) mod (SEQ_LEN cfg - 1) =
                    (Z.of_nat t - 100 * Z.of_nat b) mod (SEQ_LEN cfg - 1) + 1)%Z).
    { replace (Z.of_nat (t + 1)) with (Z.of_nat t + 1)%Z by lia.
      apply roll_source_succ; lia. }
    assert (Hr : (0 <= (Z.of_nat t - 100 * Z.of_nat b) mod (SEQ_LEN cfg - 1)
                  < SEQ_LEN cfg - 1)%Z) by (apply Z.mod_pos_bound; lia).
    rewrite Hsrc in Hin_t.
    replace (Z.to_nat ((Z.of_nat t - 100 * Z.of_nat b) mod (SEQ_LEN cfg - 1) + 1))
      with (1 + Z.to_nat ((Z.of_nat t - 100 * Z.of_nat b) mod (SEQ_LEN cfg - 1)))
      in Hin_t by lia.
    rewrite Hin_t, Hout_t.
    destruct (nth_error (map signal x)
                (1 + Z.to_nat ((Z.of_nat t - 100 * Z.of_nat b) mod (SEQ_LEN cfg - 1))))
      as [v |] eqn:Hv; [exists v; split; reflexivity |].
    apply nth_error_None in Hv. lia.
Qed.

End NoiseFreeDataset.

(** Two runs of the noise-free construction from different states of the
    generator: the same arrays, and sixteen numbers drawn in each. *)
Lemma noise_free_dataset_ignores_generator_witness :
  exists data w1' w2',
    @make_dataset Z nat unit (Tagged.tagged_float 4) (Tagged.library 4)
                  Tagged.small start = (Ok data, w1') /\
    @make_dataset Z nat unit (Tagged.tagged_float 4) (Tagged.library 4)
                  Tagged.small {| lib := 7; cwd := "/tmp"; trace := [] |} =
      (Ok data, w2') /\
    lib w1' = 16 /\ lib w2' = 23.
Proof.
  destruct (@noise_free_dataset_ignores_generator Z nat unit (Tagged.tagged_float 4)
              (Tagged.library 4) Tagged.small start
              {| lib := 7; cwd := "/tmp"; trace := [] |})
    as [data [w1' [w2' [H1 [H2 [Hl1 [Hl2 _]]]]]]].
  - vm_compute. discriminate.
  - vm_compute. discriminate.
  - reflexivity.
  - apply tagged_zero_laws.
  - exists data, w1', w2'. split; [exact H1 |]. split; [exact H2 |].
    rewrite Hl1, Hl2. split; reflexivity.
Defined.

(** With [L - 1 = 4] the shifts 0 and 100 are congruent: the two batch
    elements are equal. *)
Lemma batch_elements_repeat_witness :
  exists y_in y_out w' col,
    @make_dataset Z nat unit (Tagged.tagged_float 4) (Tagged.library 4)
                  Tagged.small start = (Ok (y_in, y_out), w') /\
    select_col y_in 0 0 = Ok col /\ select_col y_in 1 0 = Ok col.
Proof.
  destruct (@batch_elements_repeat Z nat unit (Tagged.tagged_float 4)
              (Tagged.library 4) Tagged.small start)
    as [y_in [y_out [w' [Hrun Hsame]]]].
  - reflexivity.
  - vm_compute. discriminate.
  - reflexivity.
  - apply tagged_zero_laws.
  - destruct (Hsame 0 1) as [[col [H0 H1]] _].
    + vm_compute. lia.
    + vm_compute. lia.
    + reflexivity.
    + exists y_in, y_out, w', col. split; [exact Hrun |]. split; assumption.
Defined.

(** Batch element 1 of the script's own dataset is a permutation of the
    first 500 samples. *)
Lemma batch_element_permutes_samples_witness :
  exists x y_in y_out w' col,
    @torch_linspace Z (Tagged.tagged_float 500) 0%Z 500%Z 501 = Ok x /\
    @make_dataset Z nat unit (Tagged.tagged_float 500) (Tagged.library 500)
                  Tagged.script start = (Ok (y_in, y_out), w') /\
    select_col y_in 1 0 = Ok col /\
    Permutation col (py_slice (map (@signal Z (Tagged.tagged_float 500)) x) 0 500).
Proof.
  destruct (@batch_element_permutes_samples Z nat unit (Tagged.tagged_float 500)
              (Tagged.library 500) Tagged.script start)
    as [x [y_in [y_out [w' [Hx [Hrun Hperm]]]]]].
  - simpl. lia.
  - simpl. lia.
  - reflexivity.
  - apply tagged_zero_laws.
  - destruct (Hperm 1) as [[col [Hcol Hp]] _]; [simpl; lia |].
    exists x, y_in, y_out, w', col. repeat split; assumption.
Defined.

(** Batch element 0 of the script's own dataset: at time 99, where batch
    element 1 wraps around, its target is its next input. *)
Lemma unrolled_batch_element_shifts_witness :
  exists y_in y_out w' v,
    @make_dataset Z nat unit (Tagged.tagged_float 500) (Tagged.library 500)
                  Tagged.script start = (Ok (y_in, y_out), w') /\
    get3 y_out 99 0 0 = Some v /\ get3 y_in 100 0 0 = Some v.
Proof.
  destruct (@unrolled_batch_element_shifts Z nat unit (Tagged.tagged_float 500)
              (Tagged.library 500) Tagged.script start)
    as [x [y_in [y_out [w' [Hx [Hrun Hshift]]]]]].
  - simpl. lia.
  - simpl. lia.
  - reflexivity.
  - apply tagged_zero_laws.
  - destruct (Hshift 0) as [_ [_ Hat]]; [simpl; lia | reflexivity |].
    destruct (Hat 99) as [v [Ho Hi]]; [simpl; lia |].
    exists y_in, y_out, w', v. repeat split; assumption.
Defined.

(** ** Configurations the dataset construction fails on *)

Section Failures.

Context {T Lib St : Type} {F : Float T} {L : Library T Lib St}.

(** With a batch size of zero or less the loop of lines 96-98 does not
    run, and [torch.stack] is given an empty list. *)
Lemma make_dataset_empty_batch (cfg : config T) (w : world T Lib) :
  (0 <= SEQ_LEN cfg)%Z ->
  (BATCH_SIZE cfg <= 0)%Z ->
  make_dataset cfg w =
  (Raise (Exn "RuntimeError" "stack expects a non-empty TensorList"), w).
Proof.
  intros HL HB.
  destruct (torch_linspace_ok f_zero f_8pi HL) as [x [Hx _]].
  unfold make_dataset. rewrite Hx. unfold py_range.
  replace (Z.to_nat (BATCH_SIZE cfg)) with 0 by lia.
  reflexivity.
Qed.

(** X6.  The script checks neither constant.  With a negative [SEQ_LEN] it
    stops at line 90, with a [BATCH_SIZE] of zero or less at line 99, in
    both cases with a RuntimeError of torch.  By then it has created the
    results directory and done nothing else: no random number is drawn, no
    model is built and no figure is saved. *)
Theorem script_stops_at_dataset (cfg : config T) (w : world T Lib) :
  (SEQ_LEN cfg < 0 \/ BATCH_SIZE cfg <= 0)%Z ->
  exists msg,
    main cfg w =
    (Raise (Exn "RuntimeError" msg),
     {| lib := lib w; cwd := cwd w;
        trace := trace w ++
                 [ev_makedirs (os_path_join (cwd w) ["results"; "RNN"]) true] |}) /\
    ((SEQ_LEN cfg < 0)%Z -> msg = "number of steps must be non-negative") /\
    ((0 <= SEQ_LEN cfg)%Z -> msg = "stack expects a non-empty TensorList").
Proof.
  intros Hbad.
  destruct (Z.ltb_spec (SEQ_LEN cfg) 0) as [Hneg | Hpos].
  - eexists. split; [| split; [reflexivity | lia]].
    unfold main. unfold bind at 1, getcwd at 1. unfold bind at 1, emit at 1.
    unfold bind at 1. unfold make_dataset.
    rewrite torch_linspace_negative by exact Hneg. reflexivity.
  - assert (HB : (BATCH_SIZE cfg <= 0)%Z) by lia.
    eexists. split; [| split; [lia | reflexivity]].
    unfold main. unfold bind at 1, getcwd at 1. unfold bind at 1, emit at 1.
    unfold bind at 1.
    rewrite make_dataset_empty_batch by assumption. reflexivity.
Qed.

End Failures.

(** The script with an empty batch, on the toy library. *)
Lemma script_stops_at_dataset_witness :
  let cfg := {| NOISE := 0%Z; EPOCHS := 3; BATCH_SIZE := 0; SEQ_LEN := 5;
                WITH_EMBEDDING := true; WITH_BIDIR := true;
                USE_ANALOG_TRAINING := false |} in
  @main Z nat unit (Tagged.tagged_float 4) (Tagged.library 4) cfg start =
  (Raise (Exn "RuntimeError" "stack expects a non-empty TensorList"),
   {| lib := 0; cwd := "/home/user";
      trace := [ev_makedirs "/home/user/results/RNN" true] |}).
Proof.
  cbv zeta.
  destruct (@script_stops_at_dataset Z nat unit (Tagged.tagged_float 4)
              (Tagged.library 4)
              {| NOISE := 0%Z; EPOCHS := 3; BATCH_SIZE := 0; SEQ_LEN := 5;
                 WITH_EMBEDDING := true; WITH_BIDIR := true;
                 USE_ANALOG_TRAINING := false |} start)
    as [msg [Hrun [_ Hmsg]]].
  - right. cbn. lia.
  - rewrite Hrun, Hmsg by (cbn; lia). reflexivity.
Defined.

(** ** The models the classes build *)

Section Construction.

Context {T Lib St : Type} {F : Float T} {L : Library T Lib St}.

(** X7.  The sizes of the layers fit one another in each of the four classes:
    the embedding, where there is one, takes [INPUT_SIZE] features and the
    recurrent layer takes what the embedding returns, [INPUT_SIZE] features
    without an embedding; the decoder takes the [HIDDEN_SIZE] features of
    each direction of the recurrent layer and returns [OUTPUT_SIZE]
    features.  The class selected by lines 178-187 has an embedding exactly
    when [WITH_EMBEDDING] is set and is bidirectional exactly when
    [WITH_BIDIR] is set. *)
Theorem layer_sizes_fit (rpu : rpu_config_t) (with_embedding with_bidir : bool) :
  let model := init rpu (select_class with_embedding with_bidir) in
  (if with_embedding
   then exists e, embedding model = Some e /\
                  in_features e = INPUT_SIZE /\
                  input_size (rnn model) = out_features e
   else embedding model = None /\ input_size (rnn model) = INPUT_SIZE) /\
  bidir (rnn model) = with_bidir /\
  hidden_size (rnn model) = HIDDEN_SIZE /\
  in_features (decoder model) =
    hidden_size (rnn model) * (if with_bidir then 2 else 1) /\
  out_features (decoder model) = OUTPUT_SIZE.
Proof.
  destruct with_embedding, with_bidir; cbv zeta; cbn [select_class init embedding rnn decoder];
    repeat split; try reflexivity; eexists; repeat split.
Qed.

(** X8.  The recurrent layer is always built with the script's RPU
    configuration, and so is the embedding.  The decoder is built with it
    in the two classes without an embedding only: in the classes with an
    embedding the constructor of the decoder is given no RPU
    configuration and the library's default applies. *)
Theorem decoder_rpu_config_by_class (rpu : rpu_config_t) (c : model_class) :
  rnn_rpu (rnn (init rpu c)) = rpu /\
  (forall e, embedding (init rpu c) = Some e -> linear_rpu e = Some rpu) /\
  linear_rpu (decoder (init rpu c)) =
    match embedding (init rpu c) with
    | Some _ => None
    | None => Some rpu
    end.
Proof.
  destruct c; cbn [init embedding rnn decoder make_rnn rnn_rpu linear_rpu];
    repeat split; try reflexivity; intros e He; try discriminate;
    injection He as <-; reflexivity.
Qed.

(** X9.  A forward pass of any of the four classes on an input of shape
    (n, B, INPUT_SIZE) returns, together with the recurrent state, an
    output of shape (n, B, OUTPUT_SIZE), when each layer returns a tensor
    of the shape torch documents; the pass raises nothing, changes nothing
    but the library state and logs the layers it applies. *)
Theorem forward_output_shape (rpu : rpu_config_t) (c : model_class)
        (x : tensor3 T) (in_states : option St) (w : world T Lib) :
  shape_contract ->
  dim2 x = INPUT_SIZE ->
  exists out out_states w',
    forward (init rpu c) x in_states w = (Ok (out, out_states), w') /\
    shape3 out = (dim0 x, dim1 x, OUTPUT_SIZE) /\
    cwd w' = cwd w /\
    trace w' = trace w ++ map ev_layer (layer_order (init rpu c)).
Proof.
  intros Hs Hx. rewrite forward_run.
  destruct (forward_result (init rpu c) x in_states (lib w)) as [[out st] l1] eqn:Hr.
  exists out, st. eexists. split; [reflexivity |].
  split; [| split; reflexivity].
  pose proof (forward_shape rpu c x in_states (lib w) Hs Hx) as H.
  now rewrite Hr in H.
Qed.

End Construction.

(** A forward pass of the class the script selects, on the toy library. *)
Lemma forward_output_shape_witness :
  exists out out_states w',
    @forward Z nat unit (Tagged.library 4)
             (init (make_rpu_config false) AnalogBidirRNNNetwork)
             Tagged.inputs None start = (Ok (out, out_states), w') /\
    shape3 out = (4, 2, 1).
Proof.
  destruct (@forward_output_shape Z nat unit (Tagged.library 4)
              (make_rpu_config false) AnalogBidirRNNNetwork
              Tagged.inputs None start)
    as [out [st [w' [Hrun [Hshape _]]]]].
  - apply toy_shape_contract.
  - reflexivity.
  - exists out, st, w'. split; assumption.
Defined.

(** ** Longer and shorter trainings *)

Section Resumption.

Context {T Lib St : Type} {F : Float T} {L : Library T Lib St}.

Variable rpu : rpu_config_t.
Variable c : model_class.
Variables y_in y_out : tensor3 T.

Local Abbreviation model := (init rpu c).

Lemma lib_after_epochs_add (a k : nat) (l : Lib) :
  lib_after_epochs model y_in y_out (a + k) l =
  lib_after_epochs model y_in y_out k (lib_after_epochs model y_in y_out a l).
Proof.
  revert l. induction a as [| a IH]; intros l; [reflexivity |].
  cbn [Nat.add lib_after_epochs]. apply IH.
Qed.

Lemma losses_from_add (a k : nat) (l : Lib) :
  losses_from model y_in y_out (a + k) l =
  losses_from model y_in y_out a l ++
  losses_from model y_in y_out k (lib_after_epochs model y_in y_out a l).
Proof.
  revert l. induction a as [| a IH]; intros l; [reflexivity |].
  cbn [Nat.add losses_from lib_after_epochs app]. now rewrite IH.
Qed.

Lemma events_from_add (first a k : nat) (l : Lib) :
  events_from model y_in y_out first (a + k) l =
  events_from model y_in y_out first a l ++
  events_from model y_in y_out (first + a) k (lib_after_epochs model y_in y_out a l).
Proof.
  revert first l. induction a as [| a IH]; intros first l.
  - now rewrite Nat.add_0_r.
  - cbn [Nat.add events_from lib_after_epochs]. rewrite IH, <- app_assoc.
    now rewrite Nat.add_succ_r.
Qed.

(** X10.  Training is resumable and its history stable.  A run of [a] epochs
    is the beginning of every longer run of [b] epochs from the same
    state: its losses are the first [a] losses of the longer run and its
    log a prefix of the longer log, and running the iterations
    [a, ..., b-1] of the loop from where the short run stopped, on the
    history it returned, gives the result of the longer run. *)
Theorem training_resumes (a b : Z) (w : world T Lib) :
  (a <= b)%Z ->
  exists short long wa wb,
    train model y_in y_out a w = (Ok short, wa) /\
    train model y_in y_out b w = (Ok long, wb) /\
    short = firstn (Z.to_nat a) long /\
    (exists more, trace wb = trace wa ++ more) /\
    train_loop model y_in y_out
               (map Z.of_nat (seq (Z.to_nat a) (Z.to_nat b - Z.to_nat a))) short wa =
      (Ok long, wb).
Proof.
  intros Hab.
  set (na := Z.to_nat a). set (k := Z.to_nat b - Z.to_nat a).
  assert (Hb : Z.to_nat b = na + k) by (unfold na, k; lia).
  do 4 eexists. split; [apply train_run |]. split; [apply train_run |].
  fold na. rewrite Hb, losses_from_add, events_from_add, lib_after_epochs_add.
  split; [| split].
  - rewrite firstn_app, losses_from_length, Nat.sub_diag, firstn_O, app_nil_r.
    symmetry. apply firstn_all2. now rewrite losses_from_length.
  - cbn [trace]. eexists. rewrite app_assoc. reflexivity.
  - rewrite train_loop_run. cbn [lib cwd trace Nat.add].
    replace (na + k - na) with k by lia. now rewrite <- app_assoc.
Qed.

End Resumption.

(** Two epochs and then a third one, on the toy library: the losses of
    the short run are the first two of the long run. *)
Lemma training_resumes_witness :
  exists short long wa wb,
    @train Z nat unit (Tagged.tagged_float 4) (Tagged.library 4)
           (init (make_rpu_config false) AnalogBidirRNNNetwork)
           Tagged.inputs Tagged.targets 2 start = (Ok short, wa) /\
    @train Z nat unit (Tagged.tagged_float 4) (Tagged.library 4)
           (init (make_rpu_config false) AnalogBidirRNNNetwork)
           Tagged.inputs Tagged.targets 3 start = (Ok long, wb) /\
    short = firstn 2 long.
Proof.
  destruct (@training_resumes Z nat unit (Tagged.tagged_float 4) (Tagged.library 4)
              (make_rpu_config false) AnalogBidirRNNNetwork
              Tagged.inputs Tagged.targets 2 3 start)
    as [short [long [wa [wb [Ha [Hb [Hprefix _]]]]]]].
  - lia.
  - exists short, long, wa, wb. repeat split; assumption.
Defined.

(** ** The calls of the whole script, by library *)

Section ScriptCalls.

Context {T Lib St : Type} {F : Float T} {L : Library T Lib St}.

Lemma pyplot_calls_app (a b : list (event T)) :
  pyplot_calls (a ++ b) = pyplot_calls a ++ pyplot_calls b.
Proof. unfold pyplot_calls. apply flat_map_app. Qed.

Lemma layers_quiet (layers : list attr) :
  library_calls (map (@ev_layer T) layers) = [] /\
  pyplot_calls (map (@ev_layer T) layers) = [] /\
  printed (map (@ev_layer T) layers) = [].
Proof. induction layers as [| a layers IH]; [repeat split | exact IH]. Qed.

Lemma dataset_events_silent (n : nat) (indices : list Z) :
  pyplot_calls (@dataset_events T n indices) = [] /\
  printed (@dataset_events T n indices) = [].
Proof. induction indices as [| i rest IH]; [split; reflexivity | exact IH]. Qed.

Lemma model_events_calls (model : network) (x : tensor3 T) :
  library_calls (model_events model x) = ["model"] /\
  pyplot_calls (model_events model x) = [] /\
  printed (model_events model x) = [].
Proof.
  unfold model_events.
  destruct (layers_quiet (layer_order model)) as [H1 [H2 H3]].
  change (ev_model x :: map ev_layer (layer_order model))
    with ([ev_model x] ++ map (@ev_layer T) (layer_order model)).
  rewrite library_calls_app, pyplot_calls_app, printed_app, H1, H2, H3.
  repeat split.
Qed.

Lemma epoch_events_calls (model : network) (y_in y_out : tensor3 T) (i : Z) (l : Lib) :
  library_calls (epoch_events model y_in y_out i l) =
    ["optimizer.zero_grad"; "model"; "criterion"; "loss.backward"; "optimizer.step"] /\
  pyplot_calls (epoch_events model y_in y_out i l) = [] /\
  printed (epoch_events model y_in y_out i l) =
    [epoch_line i (f_exp (epoch_loss model y_in y_out l))].
Proof.
  unfold epoch_events. cbv zeta.
  destruct (model_events_calls model y_in) as [H1 [H2 H3]].
  rewrite !library_calls_app, !pyplot_calls_app, !printed_app, H1, H2, H3.
  repeat split.
Qed.

Lemma events_from_calls (model : network) (y_in y_out : tensor3 T)
      (count first : nat) (l : Lib) :
  library_calls (events_from model y_in y_out first count l) =
    concat (repeat ["optimizer.zero_grad"; "model"; "criterion"; "loss.backward";
                    "optimizer.step"] count) /\
  pyplot_calls (events_from model y_in y_out first count l) = [] /\
  printed (events_from model y_in y_out first count l) =
    map (fun p => epoch_line (Z.of_nat (fst p)) (f_exp (snd p)))
        (combine (seq first count) (losses_from model y_in y_out count l)).
Proof.
  revert first l. induction count as [| count IH]; intros first l; [repeat split |].
  cbn [events_from repeat concat seq losses_from combine map fst snd].
  destruct (IH (S first) (epoch_lib model y_in y_out l)) as [H1 [H2 H3]].
  destruct (epoch_events_calls model y_in y_out (Z.of_nat first) l) as [E1 [E2 E3]].
  rewrite library_calls_app, pyplot_calls_app, printed_app, H1, H2, H3, E1, E2, E3.
  repeat split.
Qed.

Lemma sweep_events_calls (model : network) (y_in : tensor3 T) (times : list Z) (l : Lib) :
  library_calls (sweep_events model y_in times l) =
    concat (repeat ["model.drift_analog_weights"; "model"] (length times)) /\
  pyplot_calls (sweep_events model y_in times l) = repeat "plot" (length times) /\
  printed (sweep_events model y_in times l) = [].
Proof.
  revert l. induction times as [| t rest IH]; intros l; [repeat split |].
  cbn [sweep_events length repeat concat].
  destruct (IH (drift_lib model y_in t l)) as [H1 [H2 H3]].
  destruct (model_events_calls model y_in) as [M1 [M2 M3]].
  rewrite !library_calls_app, !pyplot_calls_app, !printed_app, H1, H2, H3, M1, M2, M3.
  repeat split.
Qed.

Lemma test_events_calls (RESULTS : string) (model : network) (y_in y_out : tensor3 T)
      (l : Lib) :
  library_calls (test_events RESULTS model y_in y_out l) =
    ["model.eval"; "model"; "criterion"] /\
  pyplot_calls (test_events RESULTS model y_in y_out l) =
    ["figure"; "plot"; "plot"; "legend"; "savefig"; "close"] /\
  printed (test_events RESULTS model y_in y_out l) =
    [test_line (f_exp (mse_loss (prediction model y_in (eval_mode l)) y_out))].
Proof.
  unfold test_events. cbv zeta.
  destruct (model_events_calls model y_in) as [M1 [M2 M3]].
  rewrite !library_calls_app, !pyplot_calls_app, !printed_app, M1, M2, M3.
  repeat split.
Qed.

Lemma drift_events_calls (RESULTS : string) (model : network) (y_in y_out : tensor3 T)
      (l : Lib) :
  library_calls (drift_events RESULTS model y_in y_out l) =
    concat (repeat ["model.drift_analog_weights"; "model"] 5) /\
  pyplot_calls (drift_events RESULTS model y_in y_out l) =
    ["figure"; "plot"] ++ repeat "plot" 5 ++ ["legend"; "savefig"; "close"] /\
  printed (drift_events RESULTS model y_in y_out l) = [].
Proof.
  unfold drift_events.
  destruct (sweep_events_calls model y_in t_inference_values l) as [S1 [S2 S3]].
  rewrite !library_calls_app, !pyplot_calls_app, !printed_app, S1, S2, S3.
  repeat split.
Qed.

(** X11.  The order of the calls that draw random numbers, that build,
    run, train or drift the model, and that evaluate the loss (the eleven
    kinds of call of [library_calls]; calls such as [torch.roll],
    [model.parameters()], [nn.MSELoss()] or [detach] are not among them).
    Restricted to these kinds, the calls of the script are, in order: two
    random draws for each batch element; the construction of the model, of
    the optimizer and the regrouping of its parameters; in each epoch the
    clearing of the gradients, the forward pass, the loss, the backward
    pass and the optimizer step; then one switch to evaluation mode with
    the forward pass and the loss of the test; then, five times, a drift
    followed by a forward pass.  After [model.eval()] the optimizer is not
    called again. *)
Theorem library_calls_of_script (cfg : config T) (w : world T Lib) :
  (1 < SEQ_LEN cfg)%Z ->
  (1 <= BATCH_SIZE cfg)%Z ->
  shape_contract ->
  exists out w' new,
    main cfg w = (Ok out, w') /\
    trace w' = trace w ++ new /\
    library_calls new =
      repeat "torch.rand" (2 * Z.to_nat (BATCH_SIZE cfg)) ++
      ["model.__init__"; "AnalogSGD"; "optimizer.regroup_param_groups"] ++
      concat (repeat ["optimizer.zero_grad"; "model"; "criterion"; "loss.backward";
                      "optimizer.step"] (Z.to_nat (EPOCHS cfg))) ++
      ["model.eval"; "model"; "criterion"] ++
      concat (repeat ["model.drift_analog_weights"; "model"] 5).
Proof.
  intros HL HB Hs.
  assert (HL0 : (0 <= SEQ_LEN cfg)%Z) by lia.
  destruct (main_run cfg w HL0 HB Hs) as [y_in [y_out [w1 [_ [_ [_ [_ Hmain]]]]]]].
  cbv zeta in Hmain.
  do 3 eexists. split; [exact Hmain |]. split; [reflexivity |].
  rewrite !library_calls_app, library_calls_dataset, py_range_length.
  match goal with
  | |- context [events_from ?m ?a ?b ?f ?n ?l] =>
      destruct (events_from_calls m a b n f l) as [-> _]
  end.
  match goal with
  | |- context [test_events ?r ?m ?a ?b ?l] =>
      destruct (test_events_calls r m a b l) as [-> _]
  end.
  match goal with
  | |- context [drift_events ?r ?m ?a ?b ?l] =>
      destruct (drift_events_calls r m a b l) as [-> _]
  end.
  reflexivity.
Qed.

(** X12.  The calls of matplotlib the script makes, in order.  Three figures
    are drawn one after the other; each is opened, drawn, saved and then
    closed before the next one is opened: the training curve with its axis
    settings, the test figure with two curves and a legend, and the drift
    figure with six curves, the truth and one for each elapsed time, and a
    legend. *)
Theorem pyplot_calls_of_script (cfg : config T) (w : world T Lib) :
  (1 < SEQ_LEN cfg)%Z ->
  (1 <= BATCH_SIZE cfg)%Z ->
  shape_contract ->
  exists out w' new,
    main cfg w = (Ok out, w') /\
    trace w' = trace w ++ new /\
    pyplot_calls new =
      ["figure"; "plot"; "xlabel"; "ylabel"; "ylim"; "savefig"; "close";
       "figure"; "plot"; "plot"; "legend"; "savefig"; "close";
       "figure"; "plot"; "plot"; "plot"; "plot"; "plot"; "plot"; "legend";
       "savefig"; "close"].
Proof.
  intros HL HB Hs.
  assert (HL0 : (0 <= SEQ_LEN cfg)%Z) by lia.
  destruct (main_run cfg w HL0 HB Hs) as [y_in [y_out [w1 [_ [_ [_ [_ Hmain]]]]]]].
  cbv zeta in Hmain.
  do 3 eexists. split; [exact Hmain |]. split; [reflexivity |].
  rewrite !pyplot_calls_app.
  destruct (dataset_events_silent (Z.to_nat (SEQ_LEN cfg) - 1)
                                  (py_range (BATCH_SIZE cfg))) as [-> _].
  match goal with
  | |- context [events_from ?m ?a ?b ?f ?n ?l] =>
      destruct (events_from_calls m a b n f l) as [_ [-> _]]
  end.
  match goal with
  | |- context [test_events ?r ?m ?a ?b ?l] =>
      destruct (test_events_calls r m a b l) as [_ [-> _]]
  end.
  match goal with
  | |- context [drift_events ?r ?m ?a ?b ?l] =>
      destruct (drift_events_calls r m a b l) as [_ [-> _]]
  end.
  reflexivity.
Qed.



(** X15.  The state of the libraries is handed from each phase of the script to
    the next and never reset.  The model is built in the state the random
    draws of the dataset left; the training starts from the state the
    construction of the model and of the optimizer left; the test
    switches the state after the last epoch to evaluation mode and
    predicts in it; the drift sweep starts from the state the forward pass
    of the test left.  The history, the test prediction and the
    observations of the sweep the script ends with are those of these
    states. *)
Theorem library_state_through_phases (cfg : config T) (w : world T Lib) :
  (1 < SEQ_LEN cfg)%Z ->
  (1 <= BATCH_SIZE cfg)%Z ->
  shape_contract ->
  exists out w',
    main cfg w = (Ok out, w') /\
    let model := out_model out in
    let y_in := out_y_in out in
    let y_out := out_y_out out in
    let epochs := Z.to_nat (EPOCHS cfg) in
    let drawn := after_draws (Z.to_nat (SEQ_LEN cfg) - 1)
                             (2 * Z.to_nat (BATCH_SIZE cfg)) (lib w) in
    let built := regroup_param_groups
                   (AnalogSGD LEARNING_RATE (construct model drawn)) in
    let trained := lib_after_epochs model y_in y_out epochs built in
    let tested := snd (forward_result model y_in None (eval_mode trained)) in
    model = init (make_rpu_config (USE_ANALOG_TRAINING cfg))
                 (select_class (WITH_EMBEDDING cfg) (WITH_BIDIR cfg)) /\
    out_losses out = losses_from model y_in y_out epochs built /\
    out_pred out = prediction model y_in (eval_mode trained) /\
    out_drift out = sweep_predictions model y_in t_inference_values tested /\
    lib w' = sweep_lib model y_in t_inference_values tested /\
    cwd w' = cwd w.
Proof.
  intros HL HB Hs.
  assert (HL0 : (0 <= SEQ_LEN cfg)%Z) by lia.
  destruct (main_run cfg w HL0 HB Hs) as [y_in [y_out [w1 [Hdata [_ [_ [_ Hmain]]]]]]].
  cbv zeta in Hmain.
  destruct (make_dataset_run cfg
              {| lib := lib w; cwd := cwd w;
                 trace := trace w ++
                          [ev_makedirs (os_path_join (cwd w) ["results"; "RNN"]) true] |}
              HL0 HB) as [x [_ [_ Hrun]]].
  cbv zeta in Hrun. rewrite Hdata in Hrun. injection Hrun as _ _ Hw1.
  rewrite Hw1 in Hmain. cbn [lib] in Hmain.
  do 2 eexists. split; [exact Hmain |]. cbv zeta.
  cbn [out_model out_y_in out_y_out out_losses out_pred out_drift lib cwd].
  repeat split.
Qed.


End ScriptCalls.

(** The script with two batch elements and three epochs on the toy
    library: its calls of the libraries, its figures and its output. *)
Lemma library_calls_of_script_witness :
  exists out w',
    @main Z nat unit (Tagged.tagged_float 4) (Tagged.library 4)
          Tagged.small start = (Ok out, w') /\
    library_calls (trace w') =
      ["torch.rand"; "torch.rand"; "torch.rand"; "torch.rand";
       "model.__init__"; "AnalogSGD"; "optimizer.regroup_param_groups";
       "optimizer.zero_grad"; "model"; "criterion"; "loss.backward"; "optimizer.step";
       "optimizer.zero_grad"; "model"; "criterion"; "loss.backward"; "optimizer.step";
       "optimizer.zero_grad"; "model"; "criterion"; "loss.backward"; "optimizer.step";
       "model.eval"; "model"; "criterion";
       "model.drift_analog_weights"; "model"; "model.drift_analog_weights"; "model";
       "model.drift_analog_weights"; "model"; "model.drift_analog_weights"; "model";
       "model.drift_analog_weights"; "model"].
Proof.
  destruct (@library_calls_of_script Z nat unit (Tagged.tagged_float 4)
              (Tagged.library 4) Tagged.small start)
    as [out [w' [new [Hrun [Htrace Hcalls]]]]].
  - reflexivity.
  - vm_compute. discriminate.
  - apply toy_shape_contract.
  - exists out, w'. split; [exact Hrun |].
    rewrite Htrace. cbn [start trace app]. rewrite Hcalls. reflexivity.
Defined.

Lemma pyplot_calls_of_script_witness :
  exists out w',
    @main Z nat unit (Tagged.tagged_float 4) (Tagged.library 4)
          Tagged.small start = (Ok out, w') /\
    length (pyplot_calls (trace w')) = 23 /\
    filter (String.eqb "figure") (pyplot_calls (trace w')) =
      ["figure"; "figure"; "figure"].
Proof.
  destruct (@pyplot_calls_of_script Z nat unit (Tagged.tagged_float 4)
              (Tagged.library 4) Tagged.small start)
    as [out [w' [new [Hrun [Htrace Hcalls]]]]].
  - reflexivity.
  - vm_compute. discriminate.
  - apply toy_shape_contract.
  - exists out, w'. split; [exact Hrun |].
    rewrite Htrace. cbn [start trace app]. rewrite Hcalls. split; reflexivity.
Defined.


(** On the toy library, with two batch elements and three epochs. *)
Lemma library_state_through_phases_witness :
  exists out w',
    @main Z nat unit (Tagged.tagged_float 4) (Tagged.library 4)
          Tagged.small start = (Ok out, w') /\
    out_model out = init (make_rpu_config false) AnalogBidirRNNNetwork /\
    out_losses out =
      @losses_from Z nat unit (Tagged.library 4) (out_model out)
                   (out_y_in out) (out_y_out out) 3 16.
Proof.
  destruct (@library_state_through_phases Z nat unit (Tagged.tagged_float 4)
              (Tagged.library 4) Tagged.small start)
    as [out [w' [Hrun [Hmodel [Hlosses _]]]]].
  - reflexivity.
  - vm_compute. discriminate.
  - apply toy_shape_contract.
  - exists out, w'. split; [exact Hrun |]. split; [exact Hmodel | exact Hlosses].
Defined.



(** ** The paths for every working directory *)

Section Paths.

Context {T Lib St : Type} {F : Float T} {L : Library T Lib St}.

Lemma string_app_assoc (a b c : string) :
  ((a ++ b) ++ c = a ++ (b ++ c))%string.
Proof.
  induction a as [| ch a IH]; [reflexivity |].
  cbn [String.append]. now rewrite IH.
Qed.

Lemma join2_relative (a b : string) :
  starts_with_slash b = false ->
  join2 a b = (a ++ separator_after a ++ b)%string.
Proof.
  intros Hb. unfold join2, separator_after. rewrite Hb.
  destruct (String.eqb a EmptyString || ends_with_slash a)%bool; reflexivity.
Qed.

(** A path that ends with a name takes a slash before the next
    component. *)
Lemma separator_after_name (a name : string) :
  name <> EmptyString ->
  ends_with_slash name = false ->
  separator_after (a ++ name) = "/"%string.
Proof.
  intros Hne Hslash. unfold separator_after.
  rewrite ends_with_slash_app, Hslash by exact Hne.
  destruct (String.eqb_spec (a ++ name) EmptyString) as [Heq | _]; [| reflexivity].
  destruct a; [cbn in Heq; congruence | discriminate].
Qed.

(** X17.  The figures are saved in the directory the script has created, for
    every working directory: the directory is results/RNN below the
    working directory, joined with one slash, or with none when the
    working directory ends with a slash as the root directory does, and
    each figure is saved under its name directly below it. *)
Theorem figures_saved_in_created_directory (cfg : config T) (w : world T Lib) :
  (1 < SEQ_LEN cfg)%Z ->
  (1 <= BATCH_SIZE cfg)%Z ->
  shape_contract ->
  exists out w' new,
    main cfg w = (Ok out, w') /\
    trace w' = trace w ++ new /\
    let RESULTS := (cwd w ++ separator_after (cwd w) ++ "results/RNN")%string in
    filesystem_calls new =
      [ev_makedirs RESULTS true;
       ev_savefig (RESULTS ++ "/train_perplexity");
       ev_savefig (RESULTS ++ "/test");
       ev_savefig (RESULTS ++ "/drift")]%string.
Proof.
  intros HL HB Hs.
  assert (HL0 : (0 <= SEQ_LEN cfg)%Z) by lia.
  destruct (main_run cfg w HL0 HB Hs) as [y_in [y_out [w1 [_ [_ [_ [_ Hmain]]]]]]].
  cbv zeta in Hmain.
  do 3 eexists. split; [exact Hmain |]. split; [reflexivity |]. cbv zeta.
  rewrite !filesystem_calls_app.
  destruct (@dataset_events_quiet T (Z.to_nat (SEQ_LEN cfg) - 1)
                                 (py_range (BATCH_SIZE cfg))) as [-> _].
  match goal with
  | |- context [events_from (init ?r ?c) ?a ?b ?f ?n ?l] =>
      destruct (events_from_projections c r a b n f l) as [-> _]
  end.
  assert (Hdir : os_path_join (cwd w) ["results"; "RNN"] =
                 (cwd w ++ separator_after (cwd w) ++ "results/RNN")%string).
  { unfold os_path_join. cbn [fold_left].
    rewrite (join2_relative (cwd w) "results") by reflexivity.
    rewrite join2_relative by reflexivity.
    rewrite <- (string_app_assoc (cwd w)), separator_after_name by easy.
    rewrite !string_app_assoc. reflexivity. }
  assert (Hfile : forall name : string,
            starts_with_slash name = false ->
            os_path_join (cwd w ++ separator_after (cwd w) ++ "results/RNN") [name] =
            ((cwd w ++ separator_after (cwd w) ++ "results/RNN") ++ "/" ++ name)%string).
  { intros name Hname. unfold os_path_join. cbn [fold_left].
    rewrite join2_relative by exact Hname.
    rewrite <- (string_app_assoc (cwd w)), separator_after_name by easy.
    reflexivity. }
  rewrite Hdir.
  unfold perplexity_events, test_events, drift_events, t_inference_values, model_events.
  rewrite !Hfile by reflexivity.
  destruct (select_class (WITH_EMBEDDING cfg) (WITH_BIDIR cfg)); reflexivity.
Qed.

End Paths.

(** The script started in the root directory. *)
Lemma figures_saved_in_created_directory_witness :
  exists out w',
    @main Z nat unit (Tagged.tagged_float 4) (Tagged.library 4) Tagged.small
          {| lib := 0; cwd := "/"; trace := [] |} = (Ok out, w') /\
    filesystem_calls (trace w') =
      [ev_makedirs "/results/RNN" true;
       ev_savefig "/results/RNN/train_perplexity";
       ev_savefig "/results/RNN/test";
       ev_savefig "/results/RNN/drift"].
Proof.
  destruct (@figures_saved_in_created_directory Z nat unit (Tagged.tagged_float 4)
              (Tagged.library 4) Tagged.small
              {| lib := 0; cwd := "/"; trace := [] |})
    as [out [w' [new [Hrun [Htrace Hcalls]]]]].
  - reflexivity.
  - vm_compute. discriminate.
  - apply toy_shape_contract.
  - exists out, w'. split; [exact Hrun |].
    rewrite Htrace. cbn [trace app]. exact Hcalls.
Defined.

(** ** The first point of the drift sweep and the baseline (C8) *)

Section FirstDriftPoint.

Context {T Lib St : Type} {F : Float T} {L : Library T Lib St}.


End FirstDriftPoint.

(** The toy library has no noise in its forward pass, and its drift by
    the elapsed time 0 changes nothing. *)
Lemma toy_prediction_after_zero_drift (last : Z) (model : network)
      (x : tensor3 Z) (l : nat) :
  let toy := Tagged.library last in
  @prediction Z nat unit toy model x
    (@drift_analog_weights Z nat unit toy 0
       (snd (@forward_result Z nat unit toy model x None
                             (@eval_mode Z nat unit toy l)))) =
  @prediction Z nat unit toy model x (@eval_mode Z nat unit toy l).
Proof.
  cbv zeta. unfold prediction, forward_result, embed_result, decode_result.
  destruct (embedding model); cbn; rewrite Nat.add_0_r; reflexivity.
Qed.


